(** * plugin-farcaster-local-hub: a shallow embedding of [src/index.ts],
    [src/hub-api-client.ts] and [hub-client.ts], and the properties of the
    polling core.

    Conventions of the embedding.
    - A TypeScript [number] that holds an integer quantity (a timestamp in
      seconds, a counter, a cap, an account id, [Date.now()] in milliseconds)
      is a [Z].  The sum and the difference of the epoch converter are
      rounded as sums of IEEE 754 doubles are ([Number]); the quotient
      [Date.now() / 1000] and the age of a cast are rationals [Q].  A
      configuration holds numbers: a numeric setting that [parseInt] does
      not read ([NaN]) has no counterpart in [Config.t].
    - In the polling core a TypeScript [string] is a [string] of 8-bit code
      units; the hard-coded keywords are ASCII, and [Js.toLowerCase] folds
      the ASCII letters.  The classifier is given a second time on every
      string of 16-bit code units, the case conversion of the runtime
      being a parameter ([Utf16]).
    - [Set<string>] is a [gset string], [Map<number, HubUser>] a
      [gmap Z HubUser.t].
    - The functions of [index.ts] and the methods of [HubApiClient] are
      computations in a monad [M] of state and exceptions over the module
      variables; a [try]/[catch] is [tryCatch], a [for]...[of] loop with
      [continue] and [break] is [forOf].
    - A computation runs from start to end, each [await] resuming before
      anything else of the module runs: [bind] is plain sequencing, and a
      timer callback that would run while a lane is suspended is not part
      of a run.  What the environment answers (HTTP
      responses, the clock, the calendar date, the random source, the
      outcome of a like submitted through [DirectHubClient]) is read from
      an oracle indexed by the number of environment interactions made so
      far.
    - Logging is left out: it changes no state, and on well-typed casts
      its arguments cannot raise. *)

From Stdlib Require Import ZArith QArith String Ascii List Sorted Permutation Lia Bool.
From Stdlib Require Import DecimalString Qround.
From stdpp Require Import gmap strings list.
Import ListNotations.

Local Open Scope string_scope.
Local Open Scope list_scope.
Local Open Scope Z_scope.

(* ====================================================================== *)
(** ** Farcaster timestamp handling ([index.ts], lines 38-55) *)
(* ====================================================================== *)

(** A TypeScript [number] is an IEEE 754 double.  On integers that are
    doubles, [x + y] and [x - y] are the exact sum and difference rounded
    to the nearest double, a tie going to the even significand.  Every
    integer up to [2 ^ 53] in magnitude is a double; beyond, 53 significant
    bits are kept. *)
Module Number.

(** The double nearest to the integer [z]: [2 ^ e] is the weight of the
    last of the 53 significant bits.  (A double that is an integer is below
    [2 ^ 1024] in magnitude, and so is its sum with an integer below
    [2 ^ 970]: the rounding never has to produce an infinity here.) *)
Definition round (z : Z) : Z :=
  let e := Z.log2 (Z.abs z) - 52 in
  if e <=? 0 then z
  else
    let ulp := 2 ^ e in
    let q := Z.abs z / ulp in
    let r := Z.abs z mod ulp in
    let q' :=
      if 2 * r <? ulp then q
      else if ulp <? 2 * r then q + 1
      else if Z.even q then q else q + 1 in
    Z.sgn z * (q' * ulp).

Definition add (x y : Z) : Z := round (x + y).

Definition sub (x y : Z) : Z := round (x - y).

(** The integers that are doubles. *)
Definition representable (z : Z) : Prop := round z = z.

Definition MAX_SAFE_INTEGER : Z := 2 ^ 53 - 1.

End Number.

Definition FARCASTER_EPOCH : Z := 1609459200.

Definition farcasterToUnix (farcasterTimestamp : Z) : Z :=
  Number.add farcasterTimestamp FARCASTER_EPOCH.

Definition unixToFarcaster (unixTimestamp : Z) : Z :=
  Number.sub unixTimestamp FARCASTER_EPOCH.

(* ====================================================================== *)
(** ** Strings: [toLowerCase], [includes] *)
(* ====================================================================== *)

Module Js.

(** [String.prototype.toLowerCase] on one code unit: 'A'..'Z' move to
    'a'..'z', every other code unit is unchanged. *)
Definition lowerChar (c : ascii) : ascii :=
  let n := nat_of_ascii c in
  if ((65 <=? n)%nat && (n <=? 90)%nat)%bool then ascii_of_nat (n + 32) else c.

Fixpoint toLowerCase (s : string) : string :=
  match s with
  | EmptyString => EmptyString
  | String c s' => String (lowerChar c) (toLowerCase s')
  end.

(** [s.startsWith(p)]. *)
Fixpoint startsWith (s p : string) {struct p} : bool :=
  match p with
  | EmptyString => true
  | String a p' =>
      match s with
      | EmptyString => false
      | String b s' => if Ascii.eqb a b then startsWith s' p' else false
      end
  end.

(** [s.includes(kw)]: [kw] occurs in [s] at some position. *)
Fixpoint includes (s kw : string) : bool :=
  if startsWith s kw then true
  else match s with
       | EmptyString => false
       | String _ s' => includes s' kw
       end.

(** The mathematical reading of [includes]. *)
Definition substring_of (kw s : string) : Prop :=
  exists pre post : string, s = String.append pre (String.append kw post).

(** [x || d] on a possibly missing number: [undefined], [null] and [0]
    are falsy. *)
Definition orZ (x : option Z) (d : Z) : Z :=
  match x with
  | Some 0 => d
  | Some z => z
  | None => d
  end.

(** [x || d] on a possibly missing string: the empty string is falsy. *)
Definition orString (x : option string) (d : string) : string :=
  match x with
  | Some EmptyString => d
  | Some s => s
  | None => d
  end.

(** [x || null]. *)
Definition orNullString (x : option string) : option string :=
  match x with
  | Some EmptyString => None
  | other => other
  end.

Definition orNullZ (x : option Z) : option Z :=
  match x with
  | Some 0 => None
  | other => other
  end.

(** [x || []]. *)
Definition orNil {A : Type} (x : option (list A)) : list A :=
  match x with
  | Some l => l
  | None => []
  end.

(** [Array.prototype.sort(cmp)]: the sort is stable, and with a consistent
    comparator the result is the one stable arrangement in which no
    element is followed by one that compares strictly before it.  It is
    computed here by insertion from the right. *)
Fixpoint sortInsert {A : Type} (cmp : A -> A -> Z) (x : A) (l : list A) : list A :=
  match l with
  | [] => [x]
  | y :: l' => if cmp x y <=? 0 then x :: y :: l' else y :: sortInsert cmp x l'
  end.

Fixpoint sort {A : Type} (cmp : A -> A -> Z) (l : list A) : list A :=
  match l with
  | [] => []
  | x :: l' => sortInsert cmp x (sort cmp l')
  end.

(** [arr.slice(0, end)] for an integer [end]: a negative [end] counts
    from the end of the array, and the bounds are clamped. *)
Definition slice0 {A : Type} (l : list A) (end_ : Z) : list A :=
  let len := Z.of_nat (length l) in
  let final := if end_ <? 0 then Z.max (len + end_) 0 else Z.min end_ len in
  firstn (Z.to_nat final) l.

End Js.

(* ====================================================================== *)
(** ** Relevance classification ([index.ts], lines 142-178) *)
(* ====================================================================== *)

Inductive Relevance : Type := high | medium | low.

Definition highKeywords : list string :=
  [ "ethereum"; "defi"; "web3"; "nft"; "crypto"; "blockchain"; "dapp";
    "smart contract" ].

Definition mediumKeywords : list string :=
  [ "airdrop"; "treasury"; "proposal"; "vote"; "community"; "decentralized";
    "web3" ].

(** [for (const kw of kws) if (lowerText.includes(kw)) matches++]. *)
Definition countMatches (lowerText : string) (kws : list string) : Z :=
  fold_left (fun matches kw => if Js.includes lowerText kw then matches + 1 else matches)
            kws 0.

Definition evaluateRelevance (text : string) : Relevance :=
  let lowerText := Js.toLowerCase text in
  let highMatches := countMatches lowerText highKeywords in
  let mediumMatches := countMatches lowerText mediumKeywords in
  if highMatches >=? 1 then high
  else if mediumMatches >=? 2 then medium
  else low.

(** *** The classifier on every JavaScript string

    A JavaScript string is a sequence of 16-bit code units, and
    [String.prototype.toLowerCase] is the case conversion of the Unicode
    Standard as the runtime has it: it is a parameter here.  Outside the
    Basic Latin letters it moves code units too (the Kelvin sign U+212A
    becomes "k", the dotted capital I U+0130 becomes "i" followed by
    U+0307).  [includes] compares code units. *)
Module Utf16.

Definition t : Type := list N.

(** The code units of a string literal of the source text. *)
Definition ofString (s : string) : t := map N_of_ascii (list_ascii_of_string s).

Fixpoint startsWith (s p : t) {struct p} : bool :=
  match p with
  | [] => true
  | a :: p' =>
      match s with
      | [] => false
      | b :: s' => if (a =? b)%N then startsWith s' p' else false
      end
  end.

Fixpoint includes (s kw : t) : bool :=
  if startsWith s kw then true
  else match s with
       | [] => false
       | _ :: s' => includes s' kw
       end.

Definition substring_of (kw s : t) : Prop :=
  exists pre post : t, s = pre ++ kw ++ post.

Section Classifier.

(** [text.toLowerCase()]. *)
Variable toLowerCase : t -> t.

Definition countMatches (lowerText : t) (kws : list string) : Z :=
  fold_left
    (fun matches kw => if includes lowerText (ofString kw) then matches + 1 else matches)
    kws 0.

Definition evaluateRelevance (text : t) : Relevance :=
  let lowerText := toLowerCase text in
  let highMatches := countMatches lowerText highKeywords in
  let mediumMatches := countMatches lowerText mediumKeywords in
  if highMatches >=? 1 then high
  else if mediumMatches >=? 2 then medium
  else low.

(** A keyword of the high tier occurs in the lower-cased text. *)
Definition highOccurs (text : t) : Prop :=
  exists kw, In kw highKeywords /\ substring_of (ofString kw) (toLowerCase text).

(** Two different keywords of the medium tier occur in the lower-cased
    text. *)
Definition twoMediumOccur (text : t) : Prop :=
  exists k1 k2, In k1 mediumKeywords /\ In k2 mediumKeywords /\ k1 <> k2
                /\ substring_of (ofString k1) (toLowerCase text)
                /\ substring_of (ofString k2) (toLowerCase text).

End Classifier.

(** The conversion restricted to the code units whose lower case holds a
    Basic Latin letter: "A" to "Z", the Kelvin sign and the dotted capital
    I.  Every other code unit is kept.  On a string of code units below
    256 it is [Js.toLowerCase]. *)
Definition lowerUnit (u : N) : t :=
  if ((65 <=? u) && (u <=? 90))%N then [(u + 32)%N]
  else if (u =? 8490)%N then [107%N]
  else if (u =? 304)%N then [105%N; 775%N]
  else [u].

Definition toLowerCaseLatin (s : t) : t := concat (map lowerUnit s).

End Utf16.


(* ====================================================================== *)
(** ** Data model ([hub-api-client.ts], lines 19-42; [index.ts], lines 74-100) *)
(* ====================================================================== *)

Module HubUser.
Record t : Type := mk {
  fid : Z;
  username : string;
  displayName : string;
  pfpUrl : string;
  bio : string;
}.
End HubUser.

Module HubCast.
Record t : Type := mk {
  hash : string;
  fid : Z;
  text : string;
  timestamp : Z;
  parentHash : option string;
  parentFid : option Z;
  parentUrl : option string;
  mentions : list Z;
  mentionsPositions : list Z;
  embeds : list string;
}.
End HubCast.

Module CastWithAuthor.
(** [interface CastWithAuthor extends HubCast { author: HubUser }]. *)
Record t : Type := mk {
  hash : string;
  fid : Z;
  text : string;
  timestamp : Z;
  parentHash : option string;
  parentFid : option Z;
  parentUrl : option string;
  mentions : list Z;
  mentionsPositions : list Z;
  embeds : list string;
  author : HubUser.t;
}.

(** [{ ...cast, author }]. *)
Definition spread (cast : HubCast.t) (author : HubUser.t) : t :=
  {| hash := HubCast.hash cast;
     fid := HubCast.fid cast;
     text := HubCast.text cast;
     timestamp := HubCast.timestamp cast;
     parentHash := HubCast.parentHash cast;
     parentFid := HubCast.parentFid cast;
     parentUrl := HubCast.parentUrl cast;
     mentions := HubCast.mentions cast;
     mentionsPositions := HubCast.mentionsPositions cast;
     embeds := HubCast.embeds cast;
     author := author |}.
End CastWithAuthor.

Module Config.

(** [interface LocalHubConfig]; the last six fields are the runtime state
    (the quota and dedup ledger). *)
Record t : Type := mk {
  hubHttpUrl : string;
  hubGrpcUrl : string;
  hubSsl : bool;
  fid : Z;
  privateKey : string;
  dryRun : bool;
  enableInteractions : bool;
  enableDirectPosting : bool;
  interactionIntervalMin : Z;
  interactionIntervalMax : Z;
  postIntervalMin : Z;
  postIntervalMax : Z;
  maxDailyReplies : Z;
  maxDailyLikes : Z;
  maxDailyPosts : Z;
  scanKeywords : list string;
  scanChannels : list string;
  maxCastAge : Z;
  repliedToHashes : gset string;
  likedHashes : gset string;
  dailyReplies : Z;
  dailyLikes : Z;
  dailyPosts : Z;
  lastResetDate : string;
}.

Definition set_scanKeywords (v : list string) (c : t) : t :=
  {| hubHttpUrl := hubHttpUrl c;
     hubGrpcUrl := hubGrpcUrl c;
     hubSsl := hubSsl c;
     fid := fid c;
     privateKey := privateKey c;
     dryRun := dryRun c;
     enableInteractions := enableInteractions c;
     enableDirectPosting := enableDirectPosting c;
     interactionIntervalMin := interactionIntervalMin c;
     interactionIntervalMax := interactionIntervalMax c;
     postIntervalMin := postIntervalMin c;
     postIntervalMax := postIntervalMax c;
     maxDailyReplies := maxDailyReplies c;
     maxDailyLikes := maxDailyLikes c;
     maxDailyPosts := maxDailyPosts c;
     scanKeywords := v;
     scanChannels := scanChannels c;
     maxCastAge := maxCastAge c;
     repliedToHashes := repliedToHashes c;
     likedHashes := likedHashes c;
     dailyReplies := dailyReplies c;
     dailyLikes := dailyLikes c;
     dailyPosts := dailyPosts c;
     lastResetDate := lastResetDate c |}.

Definition set_repliedToHashes (v : gset string) (c : t) : t :=
  {| hubHttpUrl := hubHttpUrl c;
     hubGrpcUrl := hubGrpcUrl c;
     hubSsl := hubSsl c;
     fid := fid c;
     privateKey := privateKey c;
     dryRun := dryRun c;
     enableInteractions := enableInteractions c;
     enableDirectPosting := enableDirectPosting c;
     interactionIntervalMin := interactionIntervalMin c;
     interactionIntervalMax := interactionIntervalMax c;
     postIntervalMin := postIntervalMin c;
     postIntervalMax := postIntervalMax c;
     maxDailyReplies := maxDailyReplies c;
     maxDailyLikes := maxDailyLikes c;
     maxDailyPosts := maxDailyPosts c;
     scanKeywords := scanKeywords c;
     scanChannels := scanChannels c;
     maxCastAge := maxCastAge c;
     repliedToHashes := v;
     likedHashes := likedHashes c;
     dailyReplies := dailyReplies c;
     dailyLikes := dailyLikes c;
     dailyPosts := dailyPosts c;
     lastResetDate := lastResetDate c |}.

Definition set_likedHashes (v : gset string) (c : t) : t :=
  {| hubHttpUrl := hubHttpUrl c;
     hubGrpcUrl := hubGrpcUrl c;
     hubSsl := hubSsl c;
     fid := fid c;
     privateKey := privateKey c;
     dryRun := dryRun c;
     enableInteractions := enableInteractions c;
     enableDirectPosting := enableDirectPosting c;
     interactionIntervalMin := interactionIntervalMin c;
     interactionIntervalMax := interactionIntervalMax c;
     postIntervalMin := postIntervalMin c;
     postIntervalMax := postIntervalMax c;
     maxDailyReplies := maxDailyReplies c;
     maxDailyLikes := maxDailyLikes c;
     maxDailyPosts := maxDailyPosts c;
     scanKeywords := scanKeywords c;
     scanChannels := scanChannels c;
     maxCastAge := maxCastAge c;
     repliedToHashes := repliedToHashes c;
     likedHashes := v;
     dailyReplies := dailyReplies c;
     dailyLikes := dailyLikes c;
     dailyPosts := dailyPosts c;
     lastResetDate := lastResetDate c |}.

Definition set_dailyReplies (v : Z) (c : t) : t :=
  {| hubHttpUrl := hubHttpUrl c;
     hubGrpcUrl := hubGrpcUrl c;
     hubSsl := hubSsl c;
     fid := fid c;
     privateKey := privateKey c;
     dryRun := dryRun c;
     enableInteractions := enableInteractions c;
     enableDirectPosting := enableDirectPosting c;
     interactionIntervalMin := interactionIntervalMin c;
     interactionIntervalMax := interactionIntervalMax c;
     postIntervalMin := postIntervalMin c;
     postIntervalMax := postIntervalMax c;
     maxDailyReplies := maxDailyReplies c;
     maxDailyLikes := maxDailyLikes c;
     maxDailyPosts := maxDailyPosts c;
     scanKeywords := scanKeywords c;
     scanChannels := scanChannels c;
     maxCastAge := maxCastAge c;
     repliedToHashes := repliedToHashes c;
     likedHashes := likedHashes c;
     dailyReplies := v;
     dailyLikes := dailyLikes c;
     dailyPosts := dailyPosts c;
     lastResetDate := lastResetDate c |}.

Definition set_dailyLikes (v : Z) (c : t) : t :=
  {| hubHttpUrl := hubHttpUrl c;
     hubGrpcUrl := hubGrpcUrl c;
     hubSsl := hubSsl c;
     fid := fid c;
     privateKey := privateKey c;
     dryRun := dryRun c;
     enableInteractions := enableInteractions c;
     enableDirectPosting := enableDirectPosting c;
     interactionIntervalMin := interactionIntervalMin c;
     interactionIntervalMax := interactionIntervalMax c;
     postIntervalMin := postIntervalMin c;
     postIntervalMax := postIntervalMax c;
     maxDailyReplies := maxDailyReplies c;
     maxDailyLikes := maxDailyLikes c;
     maxDailyPosts := maxDailyPosts c;
     scanKeywords := scanKeywords c;
     scanChannels := scanChannels c;
     maxCastAge := maxCastAge c;
     repliedToHashes := repliedToHashes c;
     likedHashes := likedHashes c;
     dailyReplies := dailyReplies c;
     dailyLikes := v;
     dailyPosts := dailyPosts c;
     lastResetDate := lastResetDate c |}.

Definition set_dailyPosts (v : Z) (c : t) : t :=
  {| hubHttpUrl := hubHttpUrl c;
     hubGrpcUrl := hubGrpcUrl c;
     hubSsl := hubSsl c;
     fid := fid c;
     privateKey := privateKey c;
     dryRun := dryRun c;
     enableInteractions := enableInteractions c;
     enableDirectPosting := enableDirectPosting c;
     interactionIntervalMin := interactionIntervalMin c;
     interactionIntervalMax := interactionIntervalMax c;
     postIntervalMin := postIntervalMin c;
     postIntervalMax := postIntervalMax c;
     maxDailyReplies := maxDailyReplies c;
     maxDailyLikes := maxDailyLikes c;
     maxDailyPosts := maxDailyPosts c;
     scanKeywords := scanKeywords c;
     scanChannels := scanChannels c;
     maxCastAge := maxCastAge c;
     repliedToHashes := repliedToHashes c;
     likedHashes := likedHashes c;
     dailyReplies := dailyReplies c;
     dailyLikes := dailyLikes c;
     dailyPosts := v;
     lastResetDate := lastResetDate c |}.

Definition set_lastResetDate (v : string) (c : t) : t :=
  {| hubHttpUrl := hubHttpUrl c;
     hubGrpcUrl := hubGrpcUrl c;
     hubSsl := hubSsl c;
     fid := fid c;
     privateKey := privateKey c;
     dryRun := dryRun c;
     enableInteractions := enableInteractions c;
     enableDirectPosting := enableDirectPosting c;
     interactionIntervalMin := interactionIntervalMin c;
     interactionIntervalMax := interactionIntervalMax c;
     postIntervalMin := postIntervalMin c;
     postIntervalMax := postIntervalMax c;
     maxDailyReplies := maxDailyReplies c;
     maxDailyLikes := maxDailyLikes c;
     maxDailyPosts := maxDailyPosts c;
     scanKeywords := scanKeywords c;
     scanChannels := scanChannels c;
     maxCastAge := maxCastAge c;
     repliedToHashes := repliedToHashes c;
     likedHashes := likedHashes c;
     dailyReplies := dailyReplies c;
     dailyLikes := dailyLikes c;
     dailyPosts := dailyPosts c;
     lastResetDate := v |}.

End Config.

(* ====================================================================== *)
(** ** What the hub sends: the JSON payloads of the HTTP API *)
(* ====================================================================== *)

Module Wire.

(** A field that may be absent from the payload is an [option]. *)
Record ParentCastId : Type := {
  pc_hash : option string;
  pc_fid : option Z;
}.

Record Embed : Type := { e_url : option string }.

Record CastAddBody : Type := {
  b_text : option string;
  b_parentCastId : option ParentCastId;
  b_parentUrl : option string;
  b_mentions : option (list Z);
  b_mentionsPositions : option (list Z);
  b_embeds : option (list Embed);
}.

Record UserDataBody : Type := {
  ud_type : string;
  ud_value : string;
}.

Record MessageData : Type := {
  d_type : option string;
  d_fid : option Z;
  d_timestamp : option Z;
  d_castAddBody : option CastAddBody;
  d_userDataBody : option UserDataBody;
}.

Record Message : Type := {
  m_hash : string;
  m_data : option MessageData;
}.

Record Body : Type := { messages : option (list Message) }.

(** A [Response]: [json = None] stands for a body that [response.json()]
    rejects. *)
Record Response : Type := {
  ok : bool;
  status : Z;
  json : option Body;
}.

(** The promise returned by [fetch] either rejects or resolves. *)
Inductive FetchOutcome : Type :=
| Rejected
| Resolved (r : Response).

(** The endpoints the client queries. *)
Inductive Request : Type :=
| CastsByMention (fid pageSize : Z)
| CastsByParent (url : string) (pageSize : Z)
| UserDataByFid (fid : Z).

End Wire.

(* ====================================================================== *)
(** ** Module state, environment and the monad of effects *)
(* ====================================================================== *)

(** A like submitted to the hub: the arguments of [hubClient.likeCast] and
    the value of [localConfig] at the instant the call is issued. *)
Inductive Event : Type :=
| EvLike (targetFid : Z) (targetHash : string) (snapshot : option Config.t).

(** [class HubApiClient]: its mutable part is the user cache. *)
Record HubApiClient : Type := {
  httpUrl : string;
  userCache : gmap Z HubUser.t;
}.

(** The module-level variables of [index.ts] (lines 106-109), the number of
    environment interactions made so far, and the likes submitted so far
    (oldest first). *)
Record World : Type := {
  hubClient : bool;                      (* [hubClient !== null] *)
  hubApiClient : option HubApiClient;
  localConfig : option Config.t;
  agentRuntime : bool;                   (* [agentRuntime !== null] *)
  ticks : nat;
  trace : list Event;
}.

(** The answers of the environment; the [nat] is [ticks] at the call. *)
Record Env : Type := {
  env_fetch : nat -> Wire.Request -> Wire.FetchOutcome;
  env_now : nat -> Z;                    (* [Date.now()], milliseconds *)
  env_today : nat -> string;             (* [new Date().toDateString()] *)
  env_random : nat -> Q;                 (* [Math.random()], in [0, 1) *)
  env_likeCast : nat -> Z -> string -> bool;
                                         (* [hubClient.likeCast]: resolves? *)
}.

Inductive Completion (A : Type) : Type :=
| Normal (a : A)
| Throw (error : string).
Arguments Normal {A} a.
Arguments Throw {A} error.

Definition M (A : Type) : Type := Env -> World -> Completion A * World.

Definition ret {A : Type} (a : A) : M A := fun _ w => (Normal a, w).

Definition bind {A B : Type} (m : M A) (k : A -> M B) : M B :=
  fun env w =>
    match m env w with
    | (Normal a, w') => k a env w'
    | (Throw e, w') => (Throw e, w')
    end.

Definition throw {A : Type} (e : string) : M A := fun _ w => (Throw e, w).

(** [try { m } catch (error) { handler(error) }]. *)
Definition tryCatch {A : Type} (m : M A) (handler : string -> M A) : M A :=
  fun env w =>
    match m env w with
    | (Normal a, w') => (Normal a, w')
    | (Throw e, w') => handler e env w'
    end.

Declare Scope m_scope.
Delimit Scope m_scope with M.
Notation "x <- m ;; k" := (bind m (fun x => k))
  (at level 100, m at next level, right associativity) : m_scope.
Notation "m ;;; k" := (bind m (fun _ => k))
  (at level 100, right associativity) : m_scope.
Local Open Scope m_scope.

Definition set_ticks (n : nat) (w : World) : World :=
  {| hubClient := hubClient w; hubApiClient := hubApiClient w;
     localConfig := localConfig w; agentRuntime := agentRuntime w;
     ticks := n; trace := trace w |}.

Definition set_trace (t : list Event) (w : World) : World :=
  {| hubClient := hubClient w; hubApiClient := hubApiClient w;
     localConfig := localConfig w; agentRuntime := agentRuntime w;
     ticks := ticks w; trace := t |}.

Definition set_localConfig (c : option Config.t) (w : World) : World :=
  {| hubClient := hubClient w; hubApiClient := hubApiClient w;
     localConfig := c; agentRuntime := agentRuntime w;
     ticks := ticks w; trace := trace w |}.

Definition set_hubApiClient (c : option HubApiClient) (w : World) : World :=
  {| hubClient := hubClient w; hubApiClient := c;
     localConfig := localConfig w; agentRuntime := agentRuntime w;
     ticks := ticks w; trace := trace w |}.

(** One interaction with the environment: read the oracle at the current
    tick and advance the tick. *)
Definition ask {A : Type} (oracle : Env -> nat -> A) : M A :=
  fun env w => (Normal (oracle env (ticks w)), set_ticks (S (ticks w)) w).

Definition getWorld : M World := fun _ w => (Normal w, w).

(** Dereferencing [localConfig]: a [TypeError] when it is [null]. *)
Definition readConfig : M Config.t :=
  fun _ w =>
    match localConfig w with
    | Some c => (Normal c, w)
    | None => (Throw "TypeError", w)
    end.

Definition updateConfig (f : Config.t -> Config.t) : M unit :=
  fun _ w =>
    match localConfig w with
    | Some c => (Normal tt, set_localConfig (Some (f c)) w)
    | None => (Throw "TypeError", w)
    end.

Inductive LoopCtl : Type := Continue | Break.

(** [for (const x of xs) body]: the body says whether the loop goes on to
    the next element ([continue], or the end of the body) or stops
    ([break]); an exception leaves the loop. *)
Fixpoint forOf {A : Type} (body : A -> M LoopCtl) (xs : list A) : M unit :=
  match xs with
  | [] => ret tt
  | x :: xs' =>
      ctl <- body x ;;
      match ctl with
      | Continue => forOf body xs'
      | Break => ret tt
      end
  end.

(* ====================================================================== *)
(** ** [class HubApiClient] ([hub-api-client.ts]) *)
(* ====================================================================== *)

(** [`${n}`] for an integer [n]. *)
Definition decimal (n : Z) : string := NilZero.string_of_int (Z.to_int n).

(** [await fetch(url)]. *)
Definition fetch (req : Wire.Request) : M Wire.Response :=
  outcome <- ask (fun env n => env_fetch env n req) ;;
  match outcome with
  | Wire.Resolved r => ret r
  | Wire.Rejected => throw "fetch failed"
  end.

(** [await response.json()]. *)
Definition responseJson (response : Wire.Response) : M Wire.Body :=
  match Wire.json response with
  | Some data => ret data
  | None => throw "SyntaxError"
  end.

(** Dereferencing [hubApiClient] (the [this] of the methods below). *)
Definition readClient : M HubApiClient :=
  fun _ w =>
    match hubApiClient w with
    | Some c => (Normal c, w)
    | None => (Throw "TypeError", w)
    end.

(** [this.userCache.set(fid, user)]. *)
Definition userCache_set (fid : Z) (user : HubUser.t) : M unit :=
  client <- readClient ;;
  fun _ w =>
    (Normal tt,
     set_hubApiClient
       (Some {| httpUrl := httpUrl client;
                userCache := <[fid := user]> (userCache client) |}) w).

(** [parseCastMessage] (lines 323-346). *)
Definition parseCastMessage (msg : Wire.Message) : HubCast.t :=
  let msgData := Wire.m_data msg in
  let castData := msgData ≫= Wire.d_castAddBody in
  let parentCastId := castData ≫= Wire.b_parentCastId in
  let embeds := Js.orNil (castData ≫= Wire.b_embeds) in
  {| HubCast.hash := Wire.m_hash msg;
     HubCast.fid := Js.orZ (msgData ≫= Wire.d_fid) 0;
     HubCast.text := Js.orString (castData ≫= Wire.b_text) "";
     HubCast.timestamp := Js.orZ (msgData ≫= Wire.d_timestamp) 0;
     HubCast.parentHash := Js.orNullString (parentCastId ≫= Wire.pc_hash);
     HubCast.parentFid := Js.orNullZ (parentCastId ≫= Wire.pc_fid);
     HubCast.parentUrl := Js.orNullString (castData ≫= Wire.b_parentUrl);
     HubCast.mentions := Js.orNil (castData ≫= Wire.b_mentions);
     HubCast.mentionsPositions := Js.orNil (castData ≫= Wire.b_mentionsPositions);
     HubCast.embeds :=
       omap (fun e => Js.orNullString (Wire.e_url e)) embeds |}.

(** The [switch (userData.type)] of [getUser]. *)
Definition applyUserData (user : HubUser.t) (msg : Wire.Message) : HubUser.t :=
  match Wire.m_data msg ≫= Wire.d_userDataBody with
  | None => user
  | Some userData =>
      let value := Wire.ud_value userData in
      let type := Wire.ud_type userData in
      if String.eqb type "USER_DATA_TYPE_USERNAME" then
        {| HubUser.fid := HubUser.fid user; HubUser.username := value;
           HubUser.displayName := HubUser.displayName user;
           HubUser.pfpUrl := HubUser.pfpUrl user; HubUser.bio := HubUser.bio user |}
      else if String.eqb type "USER_DATA_TYPE_DISPLAY" then
        {| HubUser.fid := HubUser.fid user; HubUser.username := HubUser.username user;
           HubUser.displayName := value;
           HubUser.pfpUrl := HubUser.pfpUrl user; HubUser.bio := HubUser.bio user |}
      else if String.eqb type "USER_DATA_TYPE_PFP" then
        {| HubUser.fid := HubUser.fid user; HubUser.username := HubUser.username user;
           HubUser.displayName := HubUser.displayName user;
           HubUser.pfpUrl := value; HubUser.bio := HubUser.bio user |}
      else if String.eqb type "USER_DATA_TYPE_BIO" then
        {| HubUser.fid := HubUser.fid user; HubUser.username := HubUser.username user;
           HubUser.displayName := HubUser.displayName user;
           HubUser.pfpUrl := HubUser.pfpUrl user; HubUser.bio := value |}
      else user
  end.

(** [getUser] (lines 210-261). *)
Definition getUser (fid : Z) : M HubUser.t :=
  client <- readClient ;;
  match userCache client !! fid with
  | Some cached => ret cached
  | None =>
      let user :=
        {| HubUser.fid := fid;
           HubUser.username := "fid:" +:+ decimal fid;
           HubUser.displayName := "User " +:+ decimal fid;
           HubUser.pfpUrl := "";
           HubUser.bio := "" |} in
      tryCatch
        (response <- fetch (Wire.UserDataByFid fid) ;;
         if negb (Wire.ok response) then ret user
         else
           data <- responseJson response ;;
           let messages := Js.orNil (Wire.messages data) in
           let user := fold_left applyUserData messages user in
           userCache_set fid user ;;;
           ret user)
        (fun _ => ret user)
  end.

(** The loop shared by [getMentions] and [getChannelCasts]:
    [for (const msg of messages) { ...; casts.push({ ...cast, author }) }]. *)
Fixpoint collectCasts (messages : list Wire.Message) : M (list CastWithAuthor.t) :=
  match messages with
  | [] => ret []
  | msg :: rest =>
      if bool_decide (Wire.m_data msg ≫= Wire.d_type ≠ Some "MESSAGE_TYPE_CAST_ADD")
      then collectCasts rest
      else
        let cast := parseCastMessage msg in
        author <- getUser (HubCast.fid cast) ;;
        casts <- collectCasts rest ;;
        ret (CastWithAuthor.spread cast author :: casts)
  end.

(** The comparator [(a, b) => b.timestamp - a.timestamp]. *)
Definition byTimestampDesc (a b : CastWithAuthor.t) : Z :=
  CastWithAuthor.timestamp b - CastWithAuthor.timestamp a.

(** [getMentions] (lines 58-94). *)
Definition getMentions (fid : Z) (limit : Z) : M (list CastWithAuthor.t) :=
  tryCatch
    (response <- fetch (Wire.CastsByMention fid limit) ;;
     if negb (Wire.ok response) then ret []
     else
       data <- responseJson response ;;
       let messages := Js.orNil (Wire.messages data) in
       casts <- collectCasts messages ;;
       let casts := Js.sort byTimestampDesc casts in
       ret (Js.slice0 casts limit))
    (fun _ => ret []).

(** [getChannelCasts] (lines 101-137). *)
Definition getChannelCasts (channelUrl : string) (limit : Z) : M (list CastWithAuthor.t) :=
  tryCatch
    (response <- fetch (Wire.CastsByParent channelUrl limit) ;;
     if negb (Wire.ok response) then ret []
     else
       data <- responseJson response ;;
       let messages := Js.orNil (Wire.messages data) in
       collectCasts messages)
    (fun _ => ret []).

(** [getChannelUrl] (lines 351-369).  The table is looked up by its own
    keys only (names inherited from [Object.prototype] are not
    considered). *)
Definition channelUrls : list (string * string) :=
  [ ("governance", "https://warpcast.com/~/channel/governance");
    ("daos", "https://warpcast.com/~/channel/daos");
    ("ethereum", "https://warpcast.com/~/channel/ethereum");
    ("farcaster", "https://warpcast.com/~/channel/farcaster");
    ("optimism", "https://warpcast.com/~/channel/optimism");
    ("base", "https://warpcast.com/~/channel/base");
    ("arbitrum", "https://warpcast.com/~/channel/arbitrum");
    ("defi", "https://warpcast.com/~/channel/defi");
    ("politics", "https://warpcast.com/~/channel/politics");
    ("dev", "https://warpcast.com/~/channel/dev") ].

Definition getChannelUrl (channel : string) : string :=
  match find (fun entry => String.eqb (fst entry) (Js.toLowerCase channel)) channelUrls with
  | Some entry => snd entry
  | None => "https://warpcast.com/~/channel/" +:+ channel
  end.

(* ====================================================================== *)
(** ** The polling core ([index.ts]) *)
(* ====================================================================== *)

(** [resetDailyCountersIfNeeded] (lines 126-137). *)
Definition resetDailyCountersIfNeeded : M unit :=
  today <- ask env_today ;;
  w <- getWorld ;;
  match localConfig w with
  | Some c =>
      if negb (String.eqb (Config.lastResetDate c) today) then
        updateConfig (Config.set_dailyReplies 0) ;;;
        updateConfig (Config.set_dailyLikes 0) ;;;
        updateConfig (Config.set_dailyPosts 0) ;;;
        updateConfig (Config.set_lastResetDate today) ;;;
        updateConfig (Config.set_repliedToHashes ∅) ;;;
        updateConfig (Config.set_likedHashes ∅)
      else ret tt
  | None => ret tt
  end.

(** [hubClient.likeCast(targetFid, targetHash)] ([hub-client.ts]): the
    reaction is built, signed and submitted; the promise resolves with the
    hub's message or rejects (a hash that is not hexadecimal, a signing
    error, a submission the hub refuses). *)
Definition hubClient_likeCast (targetFid : Z) (targetHash : string) : M unit :=
  fun env w =>
    let w' :=
      set_ticks (S (ticks w))
        (set_trace (trace w ++ [EvLike targetFid targetHash (localConfig w)]) w) in
    if env_likeCast env (ticks w) targetFid targetHash
    then (Normal tt, w')
    else (Throw "hub rejected the message", w').

(** [likeCast] (lines 473-489). *)
Definition likeCast (targetFid : Z) (targetHash : string) : M unit :=
  w <- getWorld ;;
  match localConfig w with
  | None => ret tt
  | Some c =>
      if negb (hubClient w) then ret tt
      else if Config.dryRun c then ret tt
      else tryCatch (hubClient_likeCast targetFid targetHash) (fun _ => ret tt)
  end.

(** [Date.now() / 1000 - farcasterToUnix(cast.timestamp)]. *)
Definition castAge (nowMs : Z) (timestamp : Z) : Q :=
  (nowMs # 1000) - inject_Z (farcasterToUnix timestamp).

(** [castAge > localConfig.maxCastAge]. *)
Definition tooOld (nowMs : Z) (timestamp : Z) (maxCastAge : Z) : bool :=
  negb (Qle_bool (castAge nowMs timestamp) (inject_Z maxCastAge)).

(** [if (!hubApiClient || !localConfig || !agentRuntime) return;]. *)
Definition notReady (w : World) : bool :=
  negb (bool_decide (is_Some (hubApiClient w)))
  || negb (bool_decide (is_Some (localConfig w)))
  || negb (agentRuntime w).

(** The body of the loop of [respondToMentions] (lines 409-432). *)
Definition respondToMentions_body (cast : CastWithAuthor.t) : M LoopCtl :=
  c <- readConfig ;;
  if bool_decide (CastWithAuthor.hash cast ∈ Config.repliedToHashes c) then ret Continue
  else if Config.dailyReplies c >=? Config.maxDailyReplies c then ret Break
  else if CastWithAuthor.fid cast =? Config.fid c then ret Continue
  else
    now <- ask env_now ;;
    if tooOld now (CastWithAuthor.timestamp cast) (Config.maxCastAge c) then ret Continue
    else
      likeCast (CastWithAuthor.fid cast) (CastWithAuthor.hash cast) ;;;
      updateConfig (fun c =>
        Config.set_repliedToHashes
          (Config.repliedToHashes c ∪ {[CastWithAuthor.hash cast]}) c) ;;;
      updateConfig (fun c => Config.set_dailyReplies (Config.dailyReplies c + 1) c) ;;;
      ret Continue.

(** [respondToMentions] (lines 402-436). *)
Definition respondToMentions : M unit :=
  w <- getWorld ;;
  if notReady w then ret tt
  else
    tryCatch
      (c <- readConfig ;;
       mentions <- getMentions (Config.fid c) 10 ;;
       forOf respondToMentions_body mentions)
      (fun _ => ret tt).

(** The body of the loop of [scanChannelsForCasts] (lines 451-467). *)
Definition scanChannelsForCasts_body (cast : CastWithAuthor.t) : M LoopCtl :=
  c <- readConfig ;;
  if Config.dailyLikes c >=? Config.maxDailyLikes c then ret Break
  else if CastWithAuthor.fid cast =? Config.fid c then ret Continue
  else if bool_decide (CastWithAuthor.hash cast ∈ Config.likedHashes c) then ret Continue
  else
    now <- ask env_now ;;
    if tooOld now (CastWithAuthor.timestamp cast) (Config.maxCastAge c) then ret Continue
    else
      match evaluateRelevance (CastWithAuthor.text cast) with
      | low => ret Continue
      | _ =>
          likeCast (CastWithAuthor.fid cast) (CastWithAuthor.hash cast) ;;;
          updateConfig (fun c =>
            Config.set_likedHashes
              (Config.likedHashes c ∪ {[CastWithAuthor.hash cast]}) c) ;;;
          updateConfig (fun c => Config.set_dailyLikes (Config.dailyLikes c + 1) c) ;;;
          ret Continue
      end.

(** [localConfig.scanChannels[Math.floor(Math.random() * length)]]: [None]
    is [undefined]. *)
Definition pickChannel (random : Q) (scanChannels : list string) : option string :=
  let index := Qfloor (random * inject_Z (Z.of_nat (length scanChannels))) in
  if index <? 0 then None else nth_error scanChannels (Z.to_nat index).

(** [scanChannelsForCasts] (lines 438-471).  With [channel] undefined,
    [getChannelUrl] raises a [TypeError] before the [try] is entered. *)
Definition scanChannelsForCasts : M unit :=
  w <- getWorld ;;
  if notReady w then ret tt
  else
    c <- readConfig ;;
    random <- ask env_random ;;
    match pickChannel random (Config.scanChannels c) with
    | None => throw "TypeError"
    | Some channel =>
        let channelUrl := getChannelUrl channel in
        tryCatch
          (casts <- getChannelCasts channelUrl 10 ;;
           forOf scanChannelsForCasts_body casts)
          (fun _ => ret tt)
    end.

(** [runInteractionCycle] (lines 385-400). *)
Definition runInteractionCycle : M unit :=
  w <- getWorld ;;
  if notReady w then ret tt
  else
    resetDailyCountersIfNeeded ;;;
    tryCatch
      (respondToMentions ;;;
       scanChannelsForCasts)
      (fun _ => ret tt).

(** [generateAndPost] (lines 491-503). *)
Definition generateAndPost : M unit :=
  w <- getWorld ;;
  if negb (agentRuntime w) || negb (bool_decide (is_Some (localConfig w)))
     || negb (hubClient w)
  then ret tt
  else
    resetDailyCountersIfNeeded ;;;
    c <- readConfig ;;
    if Config.dailyPosts c >=? Config.maxDailyPosts c then ret tt
    else ret tt.

(* ====================================================================== *)
(** * The vocabulary of the properties, and the scenarios *)
(* ====================================================================== *)

(** ** Sequences *)

(** Descending order of the keys. *)
Definition desc {A : Type} (key : A -> Z) (a b : A) : Prop := key b <= key a.

(** ** Computations *)

(** [m] can only end normally with a value satisfying [Q]. *)
Definition post {A : Type} (m : M A) (Q : A -> Prop) : Prop :=
  forall env w, match fst (m env w) with Normal a => Q a | Throw _ => True end.

(** [m] never ends with an exception. *)
Definition neverThrows {A : Type} (m : M A) : Prop :=
  forall env w, exists a, fst (m env w) = Normal a.

(** A relation between the world before and after, kept by every step. *)
Definition preserves {A : Type} (R : World -> World -> Prop) (m : M A) : Prop :=
  forall env w, R w (snd (m env w)).

(** What a call into [HubApiClient] may change: the user cache and the
    tick; the configuration, the collaborators' presence and the likes
    submitted so far stay as they are. *)
Definition apiFrame (w w' : World) : Prop :=
  hubClient w' = hubClient w
  /\ localConfig w' = localConfig w
  /\ agentRuntime w' = agentRuntime w
  /\ trace w' = trace w
  /\ (is_Some (hubApiClient w) -> is_Some (hubApiClient w')).

(** The main request of [getMentions] fails: the promise rejects, the
    status is not ok, or the body is not JSON. *)
Definition mentionsRequestFails (env : Env) (w : World) (fid limit : Z) : Prop :=
  match env_fetch env (ticks w) (Wire.CastsByMention fid limit) with
  | Wire.Rejected => True
  | Wire.Resolved r => Wire.ok r = false \/ Wire.json r = None
  end.

(** ** Likes and reservations *)

(** [likeCast] reaches [hubClient.likeCast] when the configuration and the
    hub client are there and the run is not a dry run. *)
Definition likeDispatched (w : World) : bool :=
  match localConfig w with
  | Some c => hubClient w && negb (Config.dryRun c)
  | None => false
  end.

(** The world after [likeCast targetFid targetHash]. *)
Definition afterLike (targetFid : Z) (targetHash : string) (w : World) : World :=
  if likeDispatched w
  then set_ticks (S (ticks w))
         (set_trace (trace w ++ [EvLike targetFid targetHash (localConfig w)]) w)
  else w.

(** The configuration after a reply reservation for [hash]. *)
Definition replyCommitted (hash : string) (c : Config.t) : Config.t :=
  Config.set_dailyReplies (Config.dailyReplies c + 1)
    (Config.set_repliedToHashes (Config.repliedToHashes c ∪ {[hash]}) c).

(** The configuration after a like reservation for [hash]. *)
Definition likeCommitted (hash : string) (c : Config.t) : Config.t :=
  Config.set_dailyLikes (Config.dailyLikes c + 1)
    (Config.set_likedHashes (Config.likedHashes c ∪ {[hash]}) c).

(** [castAge > maxCastAge], the age being measured at [nowMs]. *)
Definition exceedsMaxAge (nowMs : Z) (cast : CastWithAuthor.t) (c : Config.t) : Prop :=
  (inject_Z (Config.maxCastAge c) < castAge nowMs (CastWithAuthor.timestamp cast))%Q.

(** An item the channel-scan loop goes on to classify: the like cap is not
    reached, the author is someone else, the hash is not in the liked set
    and the item is not too old. *)
Definition scanCandidate (env : Env) (w : World) (c : Config.t) (cast : CastWithAuthor.t) : Prop :=
  localConfig w = Some c
  /\ Config.dailyLikes c < Config.maxDailyLikes c
  /\ CastWithAuthor.fid cast <> Config.fid c
  /\ (CastWithAuthor.hash cast ∉ Config.likedHashes c)
  /\ ~ exceedsMaxAge (env_now env (ticks w)) cast c.

(** A like reservation for [hash] was consumed between [w] and [w']: the
    like counter went up by one and the hash is in the liked set. *)
Definition likeReservationConsumed (hash : string) (w w' : World) : Prop :=
  exists c c',
    localConfig w = Some c /\ localConfig w' = Some c'
    /\ Config.dailyLikes c' = Config.dailyLikes c + 1
    /\ hash ∈ Config.likedHashes c'.

(** A reply reservation for [hash] was consumed between [w] and [w']. *)
Definition replyReservationConsumed (hash : string) (w w' : World) : Prop :=
  exists c c',
    localConfig w = Some c /\ localConfig w' = Some c'
    /\ Config.dailyReplies c' = Config.dailyReplies c + 1
    /\ hash ∈ Config.repliedToHashes c'.

(** ** The two lanes and their ledgers *)

Inductive Lane : Type := MentionLane | ChannelLane.

(** The dedup set, the daily counter and the daily cap a lane works with. *)
Definition dedup (l : Lane) (c : Config.t) : gset string :=
  match l with
  | MentionLane => Config.repliedToHashes c
  | ChannelLane => Config.likedHashes c
  end.

Definition counter (l : Lane) (c : Config.t) : Z :=
  match l with
  | MentionLane => Config.dailyReplies c
  | ChannelLane => Config.dailyLikes c
  end.

Definition cap (l : Lane) (c : Config.t) : Z :=
  match l with
  | MentionLane => Config.maxDailyReplies c
  | ChannelLane => Config.maxDailyLikes c
  end.

Definition withLedger (l : Lane) (s : gset string) (n : Z) (c : Config.t) : Config.t :=
  match l with
  | MentionLane => Config.set_dailyReplies n (Config.set_repliedToHashes s c)
  | ChannelLane => Config.set_dailyLikes n (Config.set_likedHashes s c)
  end.

(** One turn of the loop of a lane. *)
Definition turn (l : Lane) : CastWithAuthor.t -> M LoopCtl :=
  match l with
  | MentionLane => respondToMentions_body
  | ChannelLane => scanChannelsForCasts_body
  end.

(** What a turn does once [await likeCast(...)] has returned (lines 430-431
    and 464-465): the hash is added to the lane's set and the counter is
    incremented, in the configuration as it is by then. *)
Definition reserve (l : Lane) (hash : string) : M unit :=
  match l with
  | MentionLane =>
      updateConfig (fun c =>
        Config.set_repliedToHashes (Config.repliedToHashes c ∪ {[hash]}) c) ;;;
      updateConfig (fun c => Config.set_dailyReplies (Config.dailyReplies c + 1) c)
  | ChannelLane =>
      updateConfig (fun c =>
        Config.set_likedHashes (Config.likedHashes c ∪ {[hash]}) c) ;;;
      updateConfig (fun c => Config.set_dailyLikes (Config.dailyLikes c + 1) c)
  end.

(** A like for which nothing was reserved when it was dispatched: the hash
    is not in the lane's dedup set of the configuration the call was issued
    at. *)
Definition dispatchedUnreserved (l : Lane) (ev : Event) : Prop :=
  match ev with
  | EvLike _ h snapshot => exists atCall, snapshot = Some atCall /\ h ∉ dedup l atCall
  end.

(** A submitted like, seen from the end of the lane ([final] is the
    configuration then): when the call was issued the hash was not in the
    lane's dedup set and the counter was below the cap; by the end the hash
    is in the set and the counter has moved past the value it had at the
    call. *)
Definition reservedAfterDispatch (l : Lane) (final : Config.t) (ev : Event) : Prop :=
  match ev with
  | EvLike _ h snapshot =>
      exists atCall,
        snapshot = Some atCall
        /\ (h ∉ dedup l atCall)
        /\ counter l atCall < cap l atCall
        /\ h ∈ dedup l final
        /\ counter l atCall < counter l final
  end.

(** The order the other way round, reservation first: at the call the
    hash is already in the lane's dedup set and the counter has already
    moved past its value at the start of the lane. *)
Definition reservedBeforeDispatch (l : Lane) (start : Config.t) (ev : Event) : Prop :=
  match ev with
  | EvLike _ h snapshot =>
      exists atCall,
        snapshot = Some atCall
        /\ h ∈ dedup l atCall
        /\ counter l start < counter l atCall
  end.

(** What a lane does to the world: nothing but its own set and counter
    changes in the configuration, both only grow, and every like submitted
    on the way satisfies [reservedAfterDispatch]. *)
Definition laneRun (l : Lane) (w w' : World) : Prop :=
  hubClient w' = hubClient w
  /\ agentRuntime w' = agentRuntime w
  /\ (is_Some (hubApiClient w) -> is_Some (hubApiClient w'))
  /\ match localConfig w with
     | None => localConfig w' = None /\ trace w' = trace w
     | Some c =>
         exists (c' : Config.t) (evs : list Event),
           localConfig w' = Some c'
           /\ c' = withLedger l (dedup l c') (counter l c') c
           /\ dedup l c ⊆ dedup l c'
           /\ counter l c <= counter l c'
           /\ trace w' = trace w ++ evs
           /\ List.Forall (reservedAfterDispatch l c') evs
     end.

(** The world after a reservation made by lane [l] for the item [cast],
    from the world [w] in which the loop looked at the item. *)
Definition committed (l : Lane) (cast : CastWithAuthor.t) (c : Config.t) (w : World) : World :=
  set_localConfig
    (Some (withLedger l (dedup l c ∪ {[CastWithAuthor.hash cast]}) (counter l c + 1) c))
    (afterLike (CastWithAuthor.fid cast) (CastWithAuthor.hash cast)
       (set_ticks (S (ticks w)) w)).

(** An item the mention loop goes on to like: the hash is not in the
    replied set, the reply cap is not reached, the author is someone else
    and the item is not too old. *)
Definition mentionCandidate (env : Env) (w : World) (c : Config.t) (cast : CastWithAuthor.t) : Prop :=
  localConfig w = Some c
  /\ (CastWithAuthor.hash cast ∉ Config.repliedToHashes c)
  /\ Config.dailyReplies c < Config.maxDailyReplies c
  /\ CastWithAuthor.fid cast <> Config.fid c
  /\ ~ exceedsMaxAge (env_now env (ticks w)) cast c.

(** The like for [cast] leaves for the hub, and the hub rejects it.  The
    call is made one tick after the loop has read the clock. *)
Definition likeRejected (env : Env) (w : World) (c : Config.t) (cast : CastWithAuthor.t) : Prop :=
  hubClient w = true
  /\ Config.dryRun c = false
  /\ env_likeCast env (S (ticks w)) (CastWithAuthor.fid cast) (CastWithAuthor.hash cast) = false.

(** ** The daily reset *)

(** The configuration after the reset of [resetDailyCountersIfNeeded]. *)
Definition resetConfig (today : string) (c : Config.t) : Config.t :=
  Config.set_likedHashes ∅
    (Config.set_repliedToHashes ∅
       (Config.set_lastResetDate today
          (Config.set_dailyPosts 0
             (Config.set_dailyLikes 0
                (Config.set_dailyReplies 0 c))))).

(** ** The configured keyword list *)

(** Replace the configured keyword list, in the configuration and in the
    snapshots carried by the submitted likes. *)
Definition replaceKeywordsEvent (kws : list string) (ev : Event) : Event :=
  match ev with
  | EvLike f h snapshot => EvLike f h (Config.set_scanKeywords kws <$> snapshot)
  end.

Definition replaceKeywords (kws : list string) (w : World) : World :=
  {| hubClient := hubClient w;
     hubApiClient := hubApiClient w;
     localConfig := Config.set_scanKeywords kws <$> localConfig w;
     agentRuntime := agentRuntime w;
     ticks := ticks w;
     trace := map (replaceKeywordsEvent kws) (trace w) |}.

(** Two worlds that differ at most in the configured keyword list. *)
Definition sameUpToKeywords (w1 w2 : World) : Prop :=
  replaceKeywords [] w1 = replaceKeywords [] w2.

(** Running [m] after the keyword list was replaced gives the same
    completion as running [m] and replacing the list afterwards. *)
Definition ignoresKeywords {A : Type} (kws : list string) (m : M A) : Prop :=
  forall env w,
    m env (replaceKeywords kws w) = (fst (m env w), replaceKeywords kws (snd (m env w))).

(** ** Items that are too old *)

(** The hash a submitted like is for. *)
Definition eventHash (ev : Event) : string :=
  match ev with
  | EvLike _ h _ => h
  end.



(** ** Scenarios *)

(** An agent with account 7, a reply cap of 1 and a maximum age of 14
    days, on Sunday 1 November 2026. *)
Definition sampleConfig : Config.t :=
  {| Config.hubHttpUrl := "http://localhost:3381";
     Config.hubGrpcUrl := "localhost:3383";
     Config.hubSsl := false;
     Config.fid := 7;
     Config.privateKey := "0x01";
     Config.dryRun := false;
     Config.enableInteractions := true;
     Config.enableDirectPosting := false;
     Config.interactionIntervalMin := 10 * 60 * 1000;
     Config.interactionIntervalMax := 30 * 60 * 1000;
     Config.postIntervalMin := 240 * 60 * 1000;
     Config.postIntervalMax := 480 * 60 * 1000;
     Config.maxDailyReplies := 1;
     Config.maxDailyLikes := 30;
     Config.maxDailyPosts := 3;
     Config.scanKeywords := ["ethereum"; "defi"; "web3"; "nft"; "crypto"; "blockchain"];
     Config.scanChannels := ["ethereum"; "base"; "farcaster"; "dev"];
     Config.maxCastAge := 14 * 86400;
     Config.repliedToHashes := ∅;
     Config.likedHashes := ∅;
     Config.dailyReplies := 0;
     Config.dailyLikes := 0;
     Config.dailyPosts := 0;
     Config.lastResetDate := "Sun Nov 01 2026" |}.

Definition sampleWorld : World :=
  {| hubClient := true;
     hubApiClient := Some {| httpUrl := "http://localhost:3381"; userCache := ∅ |};
     localConfig := Some sampleConfig;
     agentRuntime := true;
     ticks := 0;
     trace := [] |}.

(** [Date.now()] throughout the scenarios, and protocol timestamps a
    number of days before it. *)
Definition sampleNow : Z := 1793534400000.

Definition daysAgo (days : Z) : Z := unixToFarcaster (sampleNow / 1000 - days * 86400).

Definition castAdd (hash : string) (fid timestamp : Z) (text : string) : Wire.Message :=
  {| Wire.m_hash := hash;
     Wire.m_data :=
       Some {| Wire.d_type := Some "MESSAGE_TYPE_CAST_ADD";
               Wire.d_fid := Some fid;
               Wire.d_timestamp := Some timestamp;
               Wire.d_castAddBody :=
                 Some {| Wire.b_text := Some text;
                         Wire.b_parentCastId := None;
                         Wire.b_parentUrl := None;
                         Wire.b_mentions := None;
                         Wire.b_mentionsPositions := None;
                         Wire.b_embeds := None |};
               Wire.d_userDataBody := None |} |}.

Definition okResponse (messages : list Wire.Message) : Wire.FetchOutcome :=
  Wire.Resolved {| Wire.ok := true; Wire.status := 200;
                   Wire.json := Some {| Wire.messages := Some messages |} |}.

(** A hub that serves two mentions (the older one first) and three channel
    items, has no user data, and rejects every like. *)
Definition sampleEnv : Env :=
  {| env_fetch := fun _ req =>
       match req with
       | Wire.CastsByMention _ _ =>
           okResponse [ castAdd "0xbb" 12 (daysAgo 2) "hello @agent";
                        castAdd "0xaa" 11 (daysAgo 1) "gm @agent" ]
       | Wire.CastsByParent _ _ =>
           okResponse [ castAdd "0xcc" 13 (daysAgo 20) "ethereum is here to stay";
                        castAdd "0xdd" 14 (daysAgo 1) "good morning";
                        castAdd "0xee" 15 (daysAgo 1) "Ethereum rocks" ]
       | Wire.UserDataByFid _ => okResponse []
       end;
     env_now := fun _ => sampleNow;
     env_today := fun _ => "Sun Nov 01 2026";
     env_random := fun _ => 1 # 2;
     env_likeCast := fun _ _ _ => false |}.

(** The same hub with nothing in its channels. *)
Definition quietEnv : Env :=
  {| env_fetch := fun n req =>
       match req with
       | Wire.CastsByParent _ _ => okResponse []
       | _ => env_fetch sampleEnv n req
       end;
     env_now := env_now sampleEnv;
     env_today := env_today sampleEnv;
     env_random := env_random sampleEnv;
     env_likeCast := env_likeCast sampleEnv |}.

(** The same hub when its HTTP endpoint is down. *)
Definition downEnv : Env :=
  {| env_fetch := fun _ _ => Wire.Rejected;
     env_now := env_now sampleEnv;
     env_today := env_today sampleEnv;
     env_random := env_random sampleEnv;
     env_likeCast := env_likeCast sampleEnv |}.

Definition sampleCast (hash : string) (fid timestamp : Z) (text : string) : CastWithAuthor.t :=
  {| CastWithAuthor.hash := hash;
     CastWithAuthor.fid := fid;
     CastWithAuthor.text := text;
     CastWithAuthor.timestamp := timestamp;
     CastWithAuthor.parentHash := None;
     CastWithAuthor.parentFid := None;
     CastWithAuthor.parentUrl := None;
     CastWithAuthor.mentions := [];
     CastWithAuthor.mentionsPositions := [];
     CastWithAuthor.embeds := [];
     CastWithAuthor.author :=
       {| HubUser.fid := fid;
          HubUser.username := "fid:" +:+ decimal fid;
          HubUser.displayName := "User " +:+ decimal fid;
          HubUser.pfpUrl := "";
          HubUser.bio := "" |} |}.

Definition mentionNew : CastWithAuthor.t := sampleCast "0xaa" 11 (daysAgo 1) "gm @agent".
Definition mentionOld : CastWithAuthor.t := sampleCast "0xbb" 12 (daysAgo 2) "hello @agent".
(** "blocKchain" written with the Kelvin sign, and "DEFİ yields" written
    with the dotted capital I. *)
Definition kelvinText : Utf16.t :=
  Utf16.ofString "bloc" ++ [8490%N] ++ Utf16.ofString "chain".

Definition dottedText : Utf16.t :=
  Utf16.ofString "DEF" ++ [304%N] ++ Utf16.ofString " yields".

Definition dullItem : CastWithAuthor.t := sampleCast "0xdd" 14 (daysAgo 1) "good morning".
Definition keenItem : CastWithAuthor.t := sampleCast "0xee" 15 (daysAgo 1) "Ethereum rocks".

(** Late on the previous day: counters used, sets filled, yesterday's
    label. *)
Definition yesterdayWorld : World :=
  set_localConfig
    (Some (Config.set_lastResetDate "Sat Oct 31 2026"
             (Config.set_dailyPosts 2
                (Config.set_dailyLikes 9
                   (Config.set_dailyReplies 1
                      (Config.set_likedHashes {["0x11"; "0x22"]}
                         (Config.set_repliedToHashes {["0x33"]} sampleConfig)))))))
    sampleWorld.

(** The sample world with another configured keyword list. *)
Definition otherKeywordsWorld : World :=
  set_localConfig (Some (Config.set_scanKeywords ["cats"; "dogs"] sampleConfig)) sampleWorld.

(** The world once the two mentions are fetched. *)
Definition fetchedWorld : World :=
  snd (getMentions 7 10 sampleEnv (snd (resetDailyCountersIfNeeded sampleEnv sampleWorld))).

(* ====================================================================== *)
(** * Further vocabulary: quotas, the user cache, fetched batches *)
(* ====================================================================== *)

(** ** The ledger of a lane, audited *)

(** What a run of lane [l] does, with the accounts kept: only the lane's
    own set and counter change; the counter never decreases and never goes
    past the cap (nor past where it started); when likes are really
    submitted there is exactly one per counted slot, and none at all
    otherwise; the hashes of the submitted likes are pairwise different,
    were not in the dedup set at the start and are in it at the end. *)
Definition auditRun (l : Lane) (w w' : World) : Prop :=
  hubClient w' = hubClient w
  /\ match localConfig w with
     | None => localConfig w' = None /\ trace w' = trace w
     | Some c =>
         exists (c' : Config.t) (evs : list Event),
           localConfig w' = Some c'
           /\ c' = withLedger l (dedup l c') (counter l c') c
           /\ trace w' = trace w ++ evs
           /\ counter l c <= counter l c'
           /\ counter l c' <= Z.max (counter l c) (cap l c)
           /\ (if likeDispatched w
               then Z.of_nat (length evs) = counter l c' - counter l c
               else evs = [])
           /\ dedup l c ⊆ dedup l c'
           /\ List.NoDup (map eventHash evs)
           /\ List.Forall (fun ev => (eventHash ev ∉ dedup l c) /\ eventHash ev ∈ dedup l c') evs
     end.

(** The function that runs lane [l]. *)
Definition runLane (l : Lane) : M unit :=
  match l with
  | MentionLane => respondToMentions
  | ChannelLane => scanChannelsForCasts
  end.

(** The world once the cycle has done its reset-if-needed, then once the
    mention lane has run. *)
Definition afterReset (env : Env) (w : World) : World :=
  snd (resetDailyCountersIfNeeded env w).

Definition afterMentionLane (env : Env) (w : World) : World :=
  snd (respondToMentions env (afterReset env w)).

(** The part of a counter that is still there after the reset at the
    start of a cycle begun in [w]: the counter itself when the day label
    is today's, zero on a new day. *)
Definition carriedOver (env : Env) (w : World) (c : Config.t) (n : Z) : Z :=
  if String.eqb (Config.lastResetDate c) (env_today env (ticks w)) then n else 0.

(** ** The user cache and the fetched batches *)

(** The profile [getUser] starts from (lines 215-221). *)
Definition defaultUser (fid : Z) : HubUser.t :=
  {| HubUser.fid := fid;
     HubUser.username := "fid:" +:+ decimal fid;
     HubUser.displayName := "User " +:+ decimal fid;
     HubUser.pfpUrl := "";
     HubUser.bio := "" |}.

(** The request of [getUser] fails: the promise rejects, the status is not
    ok, or the body is not JSON. *)
Definition userLookupFails (env : Env) (w : World) (fid : Z) : Prop :=
  match env_fetch env (ticks w) (Wire.UserDataByFid fid) with
  | Wire.Rejected => True
  | Wire.Resolved r => Wire.ok r = false \/ Wire.json r = None
  end.

(** The request of [getChannelCasts] fails. *)
Definition channelRequestFails (env : Env) (w : World) (url : string) (limit : Z) : Prop :=
  match env_fetch env (ticks w) (Wire.CastsByParent url limit) with
  | Wire.Rejected => True
  | Wire.Resolved r => Wire.ok r = false \/ Wire.json r = None
  end.

(** The messages of a request that succeeds. *)
Definition answers (env : Env) (w : World) (req : Wire.Request)
    (messages : list Wire.Message) : Prop :=
  exists r data,
    env_fetch env (ticks w) req = Wire.Resolved r
    /\ Wire.ok r = true /\ Wire.json r = Some data
    /\ messages = Js.orNil (Wire.messages data).

(** [msg.data?.type === "MESSAGE_TYPE_CAST_ADD"]. *)
Definition isCastAdd (msg : Wire.Message) : bool :=
  bool_decide (Wire.m_data msg ≫= Wire.d_type = Some "MESSAGE_TYPE_CAST_ADD").

(** The casts a batch of messages stands for, in the order of the batch. *)
Definition castsOf (messages : list Wire.Message) : list HubCast.t :=
  map parseCastMessage (List.filter isCastAdd messages).

(** The [HubCast] part of a cast with its author. *)
Definition castOf (cast : CastWithAuthor.t) : HubCast.t :=
  {| HubCast.hash := CastWithAuthor.hash cast;
     HubCast.fid := CastWithAuthor.fid cast;
     HubCast.text := CastWithAuthor.text cast;
     HubCast.timestamp := CastWithAuthor.timestamp cast;
     HubCast.parentHash := CastWithAuthor.parentHash cast;
     HubCast.parentFid := CastWithAuthor.parentFid cast;
     HubCast.parentUrl := CastWithAuthor.parentUrl cast;
     HubCast.mentions := CastWithAuthor.mentions cast;
     HubCast.mentionsPositions := CastWithAuthor.mentionsPositions cast;
     HubCast.embeds := CastWithAuthor.embeds cast |}.

(** The cast carries the profile of its own author. *)
Definition ownAuthor (cast : CastWithAuthor.t) : Prop :=
  HubUser.fid (CastWithAuthor.author cast) = CastWithAuthor.fid cast.

(** Every cached profile is stored under its own fid. *)
Definition cacheSound (w : World) : Prop :=
  forall client,
    hubApiClient w = Some client ->
    map_Forall (fun fid user => HubUser.fid user = fid) (userCache client).

(** Between [w] and [w'] the client stayed, no cached profile was dropped
    or replaced, and the cache stayed sound if it was. *)
Definition cacheRun (w w' : World) : Prop :=
  match hubApiClient w with
  | None => hubApiClient w' = None
  | Some client =>
      exists client',
        hubApiClient w' = Some client'
        /\ httpUrl client' = httpUrl client
        /\ userCache client ⊆ userCache client'
  end
  /\ (cacheSound w -> cacheSound w').

(** ** Channel names *)

(** The one prefix of every channel URL. *)
Definition channelPrefix : string := "https://warpcast.com/~/channel/".

(** The names, among those [toLowerCase] can return, that a JavaScript
    object literal answers from [Object.prototype] rather than from its
    own keys. *)
Definition inheritedNames : list string := ["constructor"; "__proto__"].

(** [channel.toLowerCase()] is a key of the table of [getChannelUrl]. *)
Definition knownChannel (channel : string) : Prop :=
  List.In (Js.toLowerCase channel) (map fst channelUrls).

(* ====================================================================== *)
(** ** [class HubApiClient]: the other methods *)
(* ====================================================================== *)

(** What the hub says about itself; [initializeFarcaster] reads these
    two fields. *)
Record HubInfo : Type := {
  numMessages : option Z;
  dbStats_numMessages : option Z;
}.

(** A response whose JSON body, when it has one, is an [A]. *)
Inductive Fetched (A : Type) : Type :=
| FetchRejected
| FetchResolved (ok : bool) (json : option A).
Arguments FetchRejected {A}.
Arguments FetchResolved {A} ok json.

(** The endpoints beside the three of [Wire.Request], answered by URL;
    the [nat] is [ticks] at the call. *)
Record Endpoints : Type := {
  ep_castById : nat -> string -> Fetched Wire.Message;
  ep_reactionsByCast : nat -> string -> Fetched Wire.Body;
  ep_castsByFid : nat -> string -> Fetched Wire.Body;
  ep_info : nat -> string -> Fetched HubInfo;
}.

(** [await fetch(url)] and the two checks that follow it: [Some] is the
    JSON body of an ok response, [None] a response that is not ok; a
    rejected promise and a body that is not JSON throw. *)
Definition fetchJson {A : Type} (oracle : nat -> string -> Fetched A) (url : string)
    : M (option A) :=
  answer <- ask (fun _ n => oracle n url) ;;
  match answer with
  | FetchRejected => throw "fetch failed"
  | FetchResolved ok json =>
      if negb ok then ret None
      else match json with
           | Some data => ret (Some data)
           | None => throw "SyntaxError"
           end
  end.

(** [hubHttpUrl.replace(/\/$/, "")]: one slash at the end is removed. *)
Fixpoint stripTrailingSlash (s : string) : string :=
  match s with
  | EmptyString => EmptyString
  | String c EmptyString => if Ascii.eqb c "/" then EmptyString else s
  | String c s' => String c (stripTrailingSlash s')
  end.

(** [constructor] (lines 48-50) and [createHubApiClient] (lines 379-381). *)
Definition createHubApiClient (hubHttpUrl : string) : HubApiClient :=
  {| httpUrl := stripTrailingSlash hubHttpUrl; userCache := ∅ |}.

(** [hash.startsWith("0x") ? hash : `0x${hash}`] (lines 183, 273-275). *)
Definition prefixed (hash : string) : string :=
  if Js.startsWith hash "0x" then hash else "0x" +:+ hash.

(** [getCast] (lines 181-205). *)
Definition getCast (ep : Endpoints) (fid : Z) (hash : string) : M (option CastWithAuthor.t) :=
  tryCatch
    (client <- readClient ;;
     let hashParam := prefixed hash in
     let url := httpUrl client +:+ "/v1/castById?fid=" +:+ decimal fid
                +:+ "&hash=" +:+ hashParam in
     response <- fetchJson (ep_castById ep) url ;;
     match response with
     | None => ret None
     | Some msg =>
         if bool_decide (Wire.m_data msg ≫= Wire.d_type ≠ Some "MESSAGE_TYPE_CAST_ADD")
         then ret None
         else
           let cast := parseCastMessage msg in
           author <- getUser (HubCast.fid cast) ;;
           ret (Some (CastWithAuthor.spread cast author))
     end)
    (fun _ => ret None).

(** The [type] of [getReactions]: ["likes" | "recasts"]. *)
Inductive ReactionsOf : Type := likes | recasts.

(** [getReactions] (lines 266-296). *)
Definition getReactions (ep : Endpoints) (targetFid : Z) (targetHash : string)
    (type : ReactionsOf) : M (list Z) :=
  tryCatch
    (client <- readClient ;;
     let reactionType := match type with likes => 1 | recasts => 2 end in
     let hashParam := prefixed targetHash in
     let url := httpUrl client +:+ "/v1/reactionsByCast?targetFid=" +:+ decimal targetFid
                +:+ "&targetHash=" +:+ hashParam
                +:+ "&reactionType=" +:+ decimal reactionType in
     response <- fetchJson (ep_reactionsByCast ep) url ;;
     match response with
     | None => ret []
     | Some data =>
         let messages := Js.orNil (Wire.messages data) in
         ret (omap (fun msg => Js.orNullZ (Wire.m_data msg ≫= Wire.d_fid)) messages)
     end)
    (fun _ => ret []).

(** The loop of [getCastsByFid] (lines 161-169): every cast gets the one
    [author]. *)
Definition castsWithAuthor (author : HubUser.t) (messages : list Wire.Message)
    : list CastWithAuthor.t :=
  omap (fun msg =>
          if bool_decide (Wire.m_data msg ≫= Wire.d_type ≠ Some "MESSAGE_TYPE_CAST_ADD")
          then None
          else Some (CastWithAuthor.spread (parseCastMessage msg) author))
       messages.

(** [getCastsByFid] (lines 142-176). *)
Definition getCastsByFid (ep : Endpoints) (fid : Z) (limit : Z) : M (list CastWithAuthor.t) :=
  tryCatch
    (client <- readClient ;;
     let url := httpUrl client +:+ "/v1/castsByFid?fid=" +:+ decimal fid
                +:+ "&pageSize=" +:+ decimal limit +:+ "&reverse=true" in
     response <- fetchJson (ep_castsByFid ep) url ;;
     match response with
     | None => ret []
     | Some data =>
         let messages := Js.orNil (Wire.messages data) in
         author <- getUser fid ;;
         ret (castsWithAuthor author messages)
     end)
    (fun _ => ret []).

(** [getInfo] (lines 301-315). *)
Definition getInfo (ep : Endpoints) : M (option HubInfo) :=
  tryCatch
    (client <- readClient ;;
     let url := httpUrl client +:+ "/v1/info" in
     fetchJson (ep_info ep) url)
    (fun _ => ret None).

(** [clearCache] (lines 374-376). *)
Definition clearCache : M unit :=
  client <- readClient ;;
  fun _ w =>
    (Normal tt,
     set_hubApiClient (Some {| httpUrl := httpUrl client; userCache := ∅ |}) w).

(** The URL [getCast] asks for. *)
Definition castByIdUrl (client : HubApiClient) (fid : Z) (hash : string) : string :=
  httpUrl client +:+ "/v1/castById?fid=" +:+ decimal fid +:+ "&hash=" +:+ prefixed hash.

(** The URL [getCastsByFid] asks for. *)
Definition castsByFidUrl (client : HubApiClient) (fid limit : Z) : string :=
  httpUrl client +:+ "/v1/castsByFid?fid=" +:+ decimal fid
  +:+ "&pageSize=" +:+ decimal limit +:+ "&reverse=true".

(** The URL [getReactions] asks for. *)
Definition reactionsByCastUrl (client : HubApiClient) (targetFid : Z) (targetHash : string)
    (type : ReactionsOf) : string :=
  httpUrl client +:+ "/v1/reactionsByCast?targetFid=" +:+ decimal targetFid
  +:+ "&targetHash=" +:+ prefixed targetHash
  +:+ "&reactionType=" +:+ match type with likes => "1" | recasts => "2" end.

(** The string ends with a slash. *)
Fixpoint endsWithSlash (s : string) : bool :=
  match s with
  | EmptyString => false
  | String c EmptyString => Ascii.eqb c "/"
  | String _ s' => endsWithSlash s'
  end.

(* ====================================================================== *)
(** ** [class DirectHubClient] ([hub-client.ts]) *)
(* ====================================================================== *)

(** The write side.  Its collaborators are libraries: [hexToBytes] of
    [@noble/hashes], the [URL] class, and the message builders and the gRPC
    client of [@farcaster/hub-nodejs].  What they answer is read from a
    record of oracles; what is asked of them is logged, call by call. *)
Module DirectHubClient.

Definition Bytes : Type := list Z.

(** A signed message, as the library hands it over. *)
Definition Message : Type := list Z.

Inductive FarcasterNetwork : Type := NONE | MAINNET | TESTNET | DEVNET.

Inductive ReactionType : Type := LIKE | RECAST.

(** [interface HubClientConfig]. *)
Record HubClientConfig : Type := {
  c_hubUrl : string;
  c_fid : Z;
  c_privateKey : string;
  c_network : option FarcasterNetwork;
  c_ssl : option bool;
}.

Record CastId : Type := {
  ci_fid : Z;
  ci_hash : Bytes;
}.

(** [interface CastOptions]. *)
Record CastOptions : Type := {
  o_text : string;
  o_parentCastId : option CastId;
  o_parentUrl : option string;
  o_embeds : option (list string);
  o_embedsCastIds : option (list CastId);
  o_mentions : option (list Z);
  o_mentionsPositions : option (list Z);
}.

(** The [type] of [interface ReactionOptions]: ["like" | "recast"]. *)
Inductive ReactionKind : Type := like | recast.

Record ReactionOptions : Type := {
  r_targetFid : Z;
  r_targetHash : Bytes;
  r_type : ReactionKind;
}.

(** The [CastAddBody] handed to [makeCastAdd]. *)
Record CastAddBody : Type := {
  text : string;
  embeds : list string;
  embedsDeprecated : list string;
  mentions : list Z;
  mentionsPositions : list Z;
  type : Z;
  parentCastId : option CastId;
  parentUrl : option string;
}.

(** The body handed to [makeReactionAdd]. *)
Record ReactionBody : Type := {
  rb_type : ReactionType;
  rb_targetCastId : CastId;
}.

(** [{ fid: this.fid, network: this.network }]. *)
Record DataOptions : Type := {
  do_fid : Z;
  do_network : FarcasterNetwork;
}.

(** A library call that returns or throws; for an awaited call, [Thrown]
    is a rejected promise. *)
Inductive Attempt (A : Type) : Type :=
| Returned (a : A)
| Thrown (error : string).
Arguments Returned {A} a.
Arguments Thrown {A} error.

(** The [Result] of [@farcaster/hub-nodejs]: [isErr()] is the second
    case, with [error.message]. *)
Inductive HubResult (A : Type) : Type :=
| Ok (value : A)
| Err (message : string).
Arguments Ok {A} value.
Arguments Err {A} message.

(** What was asked of the libraries.  A gRPC client is named by the
    position of its creation in the log. *)
Inductive Call : Type :=
| Open (ssl : bool) (address : string) (client : nat)
| Close (client : nat)
| MakeCastAdd (body : CastAddBody) (options : DataOptions) (signer : Bytes)
| MakeReactionAdd (body : ReactionBody) (options : DataOptions) (signer : Bytes)
| SubmitMessage (client : nat) (message : Message)
| GetCastsByFid (client : nat) (fid pageSize : Z)
| GetUserDataByFid (client : nat) (fid : Z)
| GetInfo (client : nat).

(** The answers of the libraries; the [nat] is the length of the log at
    the call.  [newURL] gives [url.hostname] and [parseInt(url.port)],
    [None] being [NaN] (no port in the URL). *)
Record Library : Type := {
  hexToBytes : string -> Attempt Bytes;
  newURL : string -> Attempt (string * option Z);
  makeCastAdd : nat -> CastAddBody -> DataOptions -> Bytes -> Attempt (HubResult Message);
  makeReactionAdd : nat -> ReactionBody -> DataOptions -> Bytes -> Attempt (HubResult Message);
  submitMessage : nat -> Message -> Attempt (HubResult Message);
  rpc_getCastsByFid : nat -> Z -> Z -> Attempt (HubResult (list Message));
  rpc_getUserDataByFid : nat -> Z -> Attempt (HubResult (list Message));
  rpc_getInfo : nat -> Attempt (HubResult string);
}.

(** Computations over the log of calls. *)
Definition G (A : Type) : Type := Library -> list Call -> Completion A * list Call.

Definition ret {A : Type} (a : A) : G A := fun _ log => (Normal a, log).

Definition bind {A B : Type} (m : G A) (k : A -> G B) : G B :=
  fun lib log =>
    match m lib log with
    | (Normal a, log') => k a lib log'
    | (Throw e, log') => (Throw e, log')
    end.

Definition throw {A : Type} (e : string) : G A := fun _ log => (Throw e, log).

(** [try { m } finally { f }], for an [f] that ends normally. *)
Definition tryFinally {A : Type} (m : G A) (f : G unit) : G A :=
  fun lib log =>
    match m lib log with
    | (completion, log') =>
        match f lib log' with
        | (Normal _, log'') => (completion, log'')
        | (Throw e, log'') => (Throw e, log'')
        end
    end.

Declare Scope g_scope.
Delimit Scope g_scope with G.
Notation "x <- m ;; k" := (bind m (fun x => k))
  (at level 100, m at next level, right associativity) : g_scope.
Notation "m ;;; k" := (bind m (fun _ => k))
  (at level 100, right associativity) : g_scope.
Local Open Scope g_scope.

(** A call that is logged and answered. *)
Definition call {A : Type} (c : Call) (answer : Library -> nat -> Attempt A) : G A :=
  fun lib log =>
    match answer lib (length log) with
    | Returned a => (Normal a, log ++ [c])
    | Thrown e => (Throw e, log ++ [c])
    end.

(** A pure library function that returns or throws. *)
Definition attempt {A : Type} (answer : Library -> Attempt A) : G A :=
  fun lib log =>
    match answer lib with
    | Returned a => (Normal a, log)
    | Thrown e => (Throw e, log)
    end.

(** [x.startsWith("0x") ? x.slice(2) : x] (lines 72-74, 148, 207, 221). *)
Definition unprefixed (x : string) : string :=
  if Js.startsWith x "0x" then String.substring 2 (String.length x - 2) x else x.

(** The fields of the object. *)
Record t : Type := {
  hubUrl : string;
  fid : Z;
  signer : Bytes;
  network : FarcasterNetwork;
  ssl : bool;
}.

(** [constructor] (lines 66-78); [new NobleEd25519Signer(keyBytes)] keeps
    the key. *)
Definition constructor (config : HubClientConfig) : G t :=
  let network := default MAINNET (c_network config) in
  let ssl := default (Js.startsWith (c_hubUrl config) "https") (c_ssl config) in
  let keyHex := unprefixed (c_privateKey config) in
  keyBytes <- attempt (fun lib => hexToBytes lib keyHex) ;;
  ret {| hubUrl := c_hubUrl config;
         fid := c_fid config;
         signer := keyBytes;
         network := network;
         ssl := ssl |}.

(** [getClient] (lines 80-93): the client is named by the length of the
    log at its creation. *)
Definition getClient (self : t) : G nat :=
  url <- attempt (fun lib =>
           newURL lib (if Js.includes (hubUrl self) "://" then hubUrl self
                       else "https://" +:+ hubUrl self)) ;;
  let host := fst url in
  let port := Js.orZ (snd url) 2283 in
  let address := host +:+ ":" +:+ decimal port in
  fun _ log => (Normal (length log), log ++ [Open (ssl self) address (length log)]).

(** [client.close()]. *)
Definition close (client : nat) : G unit :=
  fun _ log => (Normal tt, log ++ [Close client]).

(** [if (result.isErr()) throw new Error(prefix + message); result.value]. *)
Definition valueOrThrow {A : Type} (prefix : string) (result : HubResult A) : G A :=
  match result with
  | Ok value => ret value
  | Err message => throw (prefix +:+ message)
  end.

(** [publishCast] (lines 98-137). *)
Definition publishCast (self : t) (options : CastOptions) : G Message :=
  client <- getClient self ;;
  tryFinally
    (let castBody :=
       {| text := o_text options;
          embeds := default [] (o_embeds options);
          embedsDeprecated := [];
          mentions := default [] (o_mentions options);
          mentionsPositions := default [] (o_mentionsPositions options);
          type := 0;
          parentCastId := o_parentCastId options;
          parentUrl :=
            match o_parentCastId options with
            | Some _ => None
            | None => Js.orNullString (o_parentUrl options)
            end |} in
     let dataOptions := {| do_fid := fid self; do_network := network self |} in
     castResult <- call (MakeCastAdd castBody dataOptions (signer self))
                     (fun lib n => makeCastAdd lib n castBody dataOptions (signer self)) ;;
     value <- valueOrThrow "Failed to create cast: " castResult ;;
     submitResult <- call (SubmitMessage client value)
                       (fun lib n => submitMessage lib n value) ;;
     valueOrThrow "Failed to submit cast: " submitResult)
    (close client).

(** [publishReply] (lines 142-158). *)
Definition publishReply (self : t) (text : string) (parentFid : Z) (parentHash : string)
    : G Message :=
  hashBytes <- attempt (fun lib => hexToBytes lib (unprefixed parentHash)) ;;
  publishCast self
    {| o_text := text;
       o_parentCastId := Some {| ci_fid := parentFid; ci_hash := hashBytes |};
       o_parentUrl := None;
       o_embeds := None;
       o_embedsCastIds := None;
       o_mentions := None;
       o_mentionsPositions := None |}.

(** [publishReaction] (lines 163-200). *)
Definition publishReaction (self : t) (options : ReactionOptions) : G Message :=
  client <- getClient self ;;
  tryFinally
    (let reactionType := match r_type options with like => LIKE | recast => RECAST end in
     let body :=
       {| rb_type := reactionType;
          rb_targetCastId :=
            {| ci_fid := r_targetFid options; ci_hash := r_targetHash options |} |} in
     let dataOptions := {| do_fid := fid self; do_network := network self |} in
     reactionResult <- call (MakeReactionAdd body dataOptions (signer self))
                         (fun lib n => makeReactionAdd lib n body dataOptions (signer self)) ;;
     value <- valueOrThrow "Failed to create reaction: " reactionResult ;;
     submitResult <- call (SubmitMessage client value)
                       (fun lib n => submitMessage lib n value) ;;
     valueOrThrow "Failed to submit reaction: " submitResult)
    (close client).

(** [likeCast] (lines 205-214). *)
Definition likeCast (self : t) (targetFid : Z) (targetHash : string) : G Message :=
  hashBytes <- attempt (fun lib => hexToBytes lib (unprefixed targetHash)) ;;
  publishReaction self
    {| r_targetFid := targetFid; r_targetHash := hashBytes; r_type := like |}.

(** [recastCast] (lines 219-228). *)
Definition recastCast (self : t) (targetFid : Z) (targetHash : string) : G Message :=
  hashBytes <- attempt (fun lib => hexToBytes lib (unprefixed targetHash)) ;;
  publishReaction self
    {| r_targetFid := targetFid; r_targetHash := hashBytes; r_type := recast |}.

(** [getCastsByFid] (lines 233-247). *)
Definition getCastsByFid (self : t) (fid pageSize : Z) : G (list Message) :=
  client <- getClient self ;;
  tryFinally
    (result <- call (GetCastsByFid client fid pageSize)
                 (fun lib n => rpc_getCastsByFid lib n fid pageSize) ;;
     valueOrThrow "Failed to get casts: " result)
    (close client).

(** [getUserData] (lines 252-266). *)
Definition getUserData (self : t) (fid : Z) : G (list Message) :=
  client <- getClient self ;;
  tryFinally
    (result <- call (GetUserDataByFid client fid)
                 (fun lib n => rpc_getUserDataByFid lib n fid) ;;
     valueOrThrow "Failed to get user data: " result)
    (close client).

(** [getHubInfo] (lines 271-285). *)
Definition getHubInfo (self : t) : G string :=
  client <- getClient self ;;
  tryFinally
    (result <- call (GetInfo client) (fun lib n => rpc_getInfo lib n) ;;
     valueOrThrow "Failed to get hub info: " result)
    (close client).

(** [createHubClient] (lines 288-290). *)
Definition createHubClient (config : HubClientConfig) : G t := constructor config.

(** *** The vocabulary of its properties *)

(** A call on a connection: its creation or its closing. *)
Definition isConnectionCall (c : Call) : bool :=
  match c with
  | Open _ _ _ | Close _ => true
  | _ => false
  end.

(** The calls of one method: none, or the creation of one client, calls
    that create and close nothing, and the closing of that client as the
    last call. *)
Definition opensAndCloses (calls : list Call) : Prop :=
  calls = []
  \/ exists ssl address client middle,
       calls = Open ssl address client :: middle ++ [Close client]
       /\ forallb (fun c => negb (isConnectionCall c)) middle = true.

(** [m] adds to the log only calls that create and close nothing. *)
Definition quiet {A : Type} (m : G A) : Prop :=
  forall lib log,
    exists calls,
      snd (m lib log) = log ++ calls
      /\ forallb (fun c => negb (isConnectionCall c)) calls = true.

(** Whatever the libraries answer, [m] adds to the log the calls of one
    method. *)
Definition closesItsClient {A : Type} (m : G A) : Prop :=
  forall lib log,
    exists calls, snd (m lib log) = log ++ calls /\ opensAndCloses calls.

(** The URL [getClient] parses. *)
Definition target (self : t) : string :=
  if Js.includes (hubUrl self) "://" then hubUrl self else "https://" +:+ hubUrl self.

(** The reaction [likeCast] asks the library to sign. *)
Definition likeOf (targetFid : Z) (hashBytes : Bytes) : ReactionBody :=
  {| rb_type := LIKE;
     rb_targetCastId := {| ci_fid := targetFid; ci_hash := hashBytes |} |}.

(** The sender named in every message of [self]. *)
Definition sender (self : t) : DataOptions :=
  {| do_fid := fid self; do_network := network self |}.

(** A body with at most one parent, and that not an empty URL. *)
Definition oneParent (body : CastAddBody) : Prop :=
  parentUrl body <> Some ""
  /\ (parentCastId body = None \/ parentUrl body = None).

(** The options without the embedded cast ids. *)
Definition withoutEmbedsCastIds (options : CastOptions) : CastOptions :=
  {| o_text := o_text options;
     o_parentCastId := o_parentCastId options;
     o_parentUrl := o_parentUrl options;
     o_embeds := o_embeds options;
     o_embedsCastIds := None;
     o_mentions := o_mentions options;
     o_mentionsPositions := o_mentionsPositions options |}.

(** The messages submitted in a list of calls. *)
Definition submitted (calls : list Call) : list Message :=
  omap (fun c => match c with SubmitMessage _ m => Some m | _ => None end) calls.

End DirectHubClient.

(* ====================================================================== *)
(** ** Initialisation, the two loops and the status ([index.ts]) *)
(* ====================================================================== *)

(** Conventions.  The settings are strings, read from the agent runtime
    and from the process environment.  A timer is an entry in the list of
    the timers that are set; the event loop is the choice of the entry
    that fires next, and a callback runs from start to end before another
    one does.  [parseInt] gives an integer or [NaN]; the configuration of
    the embedding holds integers, so that a run in which a numeric setting
    other than the fid is [NaN] is followed up to the point where the
    configuration is built, and no further. *)

(** [parseInt], [trim] and [split] on strings of 8-bit code units. *)
Module JsText.

(** White space and line terminators among the 8-bit code units: TAB, LF,
    VT, FF, CR, SP, NBSP. *)
Definition isWhiteSpace (c : ascii) : bool :=
  let n := nat_of_ascii c in
  ((n =? 9) || (n =? 10) || (n =? 11) || (n =? 12) || (n =? 13) || (n =? 32) || (n =? 160))%nat.

Fixpoint trimStart (s : string) : string :=
  match s with
  | EmptyString => EmptyString
  | String c s' => if isWhiteSpace c then trimStart s' else s
  end.

Fixpoint trimEnd (s : string) : string :=
  match s with
  | EmptyString => EmptyString
  | String c s' =>
      match trimEnd s' with
      | EmptyString => if isWhiteSpace c then EmptyString else String c EmptyString
      | rest => String c rest
      end
  end.

(** [s.trim()]. *)
Definition trim (s : string) : string := trimEnd (trimStart s).

(** [s.split(",")]: the empty string gives one empty piece. *)
Fixpoint splitComma (s : string) : list string :=
  match s with
  | EmptyString => [EmptyString]
  | String c s' =>
      if Ascii.eqb c "," then EmptyString :: splitComma s'
      else match splitComma s' with
           | piece :: pieces => String c piece :: pieces
           | [] => [String c EmptyString]
           end
  end.

(** The value of a digit in a radix up to 36. *)
Definition digitValue (c : ascii) : option Z :=
  let n := Z.of_nat (nat_of_ascii c) in
  if (48 <=? n) && (n <=? 57) then Some (n - 48)
  else if (97 <=? n) && (n <=? 122) then Some (n - 97 + 10)
  else if (65 <=? n) && (n <=? 90) then Some (n - 65 + 10)
  else None.

(** The value of the longest prefix of [s] made of digits of [radix];
    [acc] is the value read so far, [None] when no digit was read. *)
Fixpoint digits (radix : Z) (s : string) (acc : option Z) : option Z :=
  match s with
  | EmptyString => acc
  | String c s' =>
      match digitValue c with
      | Some d => if d <? radix then digits radix s' (Some (default 0 acc * radix + d)) else acc
      | None => acc
      end
  end.

(** [parseInt(s)], without a radix: leading white space is skipped, a
    sign is read, [0x] or [0X] selects radix 16, and the longest prefix of
    digits is the value; [None] is [NaN]. *)
Definition parseInt (s : string) : option Z :=
  let s := trimStart s in
  let signed :=
    match s with
    | String "-" rest => (-1, rest)
    | String "+" rest => (1, rest)
    | _ => (1, s)
    end in
  let sign := fst signed in
  let s := snd signed in
  let based :=
    if Js.startsWith s "0x" || Js.startsWith s "0X"
    then (16, String.substring 2 (String.length s - 2) s)
    else (10, s) in
  (fun value => sign * value) <$> digits (fst based) (snd based) None.

End JsText.

(** What the host gives: the answers of the environment and of the hub,
    [hexToBytes] and the other libraries, the settings of the agent
    runtime and the variables of the process environment. *)
Record Host : Type := {
  host_env : Env;
  host_endpoints : Endpoints;
  host_library : DirectHubClient.Library;
  runtime_getSetting : string -> option string;
  process_env : string -> option string;
}.

(** The callbacks handed to [setTimeout]: the first scan (lines 354-357),
    the next interaction cycle (lines 347-350), the next post (lines
    372-375). *)
Inductive Callback : Type := InitialScan | InteractionTick | PostTick.

Record Timer : Type := {
  timer_id : nat;
  timer_delay : Q;
  timer_callback : Callback;
}.

(** The module variables of [index.ts] (lines 106-111) with the
    [DirectHubClient] as an object, and the timers of the event loop: those
    set and neither fired nor cleared, and the number created so far. *)
Record Plugin : Type := {
  world : World;
  directHubClient : option DirectHubClient.t;
  interactionTimer : option nat;
  postTimer : option nat;
  pending : list Timer;
  timersCreated : nat;
}.

Definition P (A : Type) : Type := Host -> Plugin -> Completion A * Plugin.

Definition pret {A : Type} (a : A) : P A := fun _ p => (Normal a, p).

Definition pbind {A B : Type} (m : P A) (k : A -> P B) : P B :=
  fun host p =>
    match m host p with
    | (Normal a, p') => k a host p'
    | (Throw e, p') => (Throw e, p')
    end.

Declare Scope p_scope.
Delimit Scope p_scope with P.
Notation "x <- m ;; k" := (pbind m (fun x => k))
  (at level 100, m at next level, right associativity) : p_scope.
Notation "m ;;; k" := (pbind m (fun _ => k))
  (at level 100, right associativity) : p_scope.

Definition set_world (w : World) (p : Plugin) : Plugin :=
  {| world := w; directHubClient := directHubClient p;
     interactionTimer := interactionTimer p; postTimer := postTimer p;
     pending := pending p; timersCreated := timersCreated p |}.

Definition set_directHubClient (c : option DirectHubClient.t) (p : Plugin) : Plugin :=
  {| world := world p; directHubClient := c;
     interactionTimer := interactionTimer p; postTimer := postTimer p;
     pending := pending p; timersCreated := timersCreated p |}.

Definition set_interactionTimer (t : option nat) (p : Plugin) : Plugin :=
  {| world := world p; directHubClient := directHubClient p;
     interactionTimer := t; postTimer := postTimer p;
     pending := pending p; timersCreated := timersCreated p |}.

Definition set_postTimer (t : option nat) (p : Plugin) : Plugin :=
  {| world := world p; directHubClient := directHubClient p;
     interactionTimer := interactionTimer p; postTimer := t;
     pending := pending p; timersCreated := timersCreated p |}.

Definition set_pending (ts : list Timer) (p : Plugin) : Plugin :=
  {| world := world p; directHubClient := directHubClient p;
     interactionTimer := interactionTimer p; postTimer := postTimer p;
     pending := ts; timersCreated := timersCreated p |}.

Definition set_agentRuntime (b : bool) (w : World) : World :=
  {| hubClient := hubClient w; hubApiClient := hubApiClient w;
     localConfig := localConfig w; agentRuntime := b;
     ticks := ticks w; trace := trace w |}.

Definition set_hubClient (b : bool) (w : World) : World :=
  {| hubClient := b; hubApiClient := hubApiClient w;
     localConfig := localConfig w; agentRuntime := agentRuntime w;
     ticks := ticks w; trace := trace w |}.

(** A function of the core, run on the module variables. *)
Definition liftM {A : Type} (m : M A) : P A :=
  fun host p =>
    match m (host_env host) (world p) with
    | (completion, w') => (completion, set_world w' p)
    end.

(** A call that is not awaited: the caller goes on whatever becomes of
    it.  As a cycle runs from start to end, the call has run to its end
    when the caller goes on. *)
Definition detached (m : P unit) : P unit :=
  fun host p =>
    match m host p with
    | (_, p') => (Normal tt, p')
    end.

(** [setTimeout(callback, delay)]. *)
Definition setTimeout (callback : Callback) (delay : Q) : P nat :=
  fun _ p =>
    let id := timersCreated p in
    (Normal id,
     {| world := world p; directHubClient := directHubClient p;
        interactionTimer := interactionTimer p; postTimer := postTimer p;
        pending := pending p ++ [{| timer_id := id; timer_delay := delay;
                                    timer_callback := callback |}];
        timersCreated := S id |}).

(** [clearTimeout(timer)]. *)
Definition clearTimeout (id : nat) : P unit :=
  fun _ p =>
    (Normal tt,
     set_pending (List.filter (fun t => negb (Nat.eqb (timer_id t) id)) (pending p)) p).

(** [getSetting] (lines 117-124). *)
Definition getSetting (host : Host) (key : string) (defaultVal : string) : string :=
  Js.orString (runtime_getSetting host key) (Js.orString (process_env host key) defaultVal).

(** [Math.random() * (max - min) + min] (lines 338-342 and 364-367). *)
Definition interval (random : Q) (min max : Z) : Q :=
  random * inject_Z (max - min) + inject_Z min.

(** [scheduleNext] of [startInteractionLoop] (lines 337-351). *)
Definition scheduleNextInteraction : P unit :=
  (c <- liftM readConfig ;;
   random <- liftM (ask env_random) ;;
   let delay :=
     interval random (Config.interactionIntervalMin c) (Config.interactionIntervalMax c) in
   id <- setTimeout InteractionTick delay ;;
   fun _ p => (Normal tt, set_interactionTimer (Some id) p))%P.

(** [startInteractionLoop] (lines 334-358). *)
Definition startInteractionLoop : P unit :=
  (w <- liftM getWorld ;;
   if negb (bool_decide (is_Some (localConfig w))) then pret tt
   else
     setTimeout InitialScan 30000 ;;;
     pret tt)%P.

(** [scheduleNext] of [startPostLoop] (lines 363-376). *)
Definition scheduleNextPost : P unit :=
  (c <- liftM readConfig ;;
   random <- liftM (ask env_random) ;;
   let delay := interval random (Config.postIntervalMin c) (Config.postIntervalMax c) in
   id <- setTimeout PostTick delay ;;
   fun _ p => (Normal tt, set_postTimer (Some id) p))%P.

(** [startPostLoop] (lines 360-379). *)
Definition startPostLoop : P unit :=
  (w <- liftM getWorld ;;
   if negb (bool_decide (is_Some (localConfig w))) then pret tt
   else scheduleNextPost)%P.

(** What a timer does when it fires. *)
Definition runCallback (callback : Callback) : P unit :=
  match callback with
  | InitialScan => (detached (liftM runInteractionCycle) ;;; scheduleNextInteraction)%P
  | InteractionTick => (liftM runInteractionCycle ;;; scheduleNextInteraction)%P
  | PostTick => (liftM generateAndPost ;;; scheduleNextPost)%P
  end.

(** The event loop fires the timer [id], if it is still set. *)
Definition fire (id : nat) : P unit :=
  fun host p =>
    match find (fun t => Nat.eqb (timer_id t) id) (pending p) with
    | None => (Normal tt, p)
    | Some t =>
        runCallback (timer_callback t) host
          (set_pending (List.filter (fun t => negb (Nat.eqb (timer_id t) id)) (pending p)) p)
    end.

(** [stopFarcaster] (lines 509-519). *)
Definition stopFarcaster : P unit :=
  (p <- (fun _ p => (Normal p, p)) ;;
   match interactionTimer p with
   | Some id => clearTimeout id ;;; fun _ p => (Normal tt, set_interactionTimer None p)
   | None => pret tt
   end ;;;
   p <- (fun _ p => (Normal p, p)) ;;
   match postTimer p with
   | Some id => clearTimeout id ;;; fun _ p => (Normal tt, set_postTimer None p)
   | None => pret tt
   end)%P.

(** The numeric settings other than the fid (lines 209-233), [None] when
    one of them is not a number. *)
Record Numbers : Type := {
  n_interactionIntervalMin : Z;
  n_interactionIntervalMax : Z;
  n_postIntervalMin : Z;
  n_postIntervalMax : Z;
  n_maxDailyReplies : Z;
  n_maxDailyLikes : Z;
  n_maxDailyPosts : Z;
  n_maxCastAge : Z;
}.

Definition readNumbers (host : Host) : option Numbers :=
  a ← JsText.parseInt (getSetting host "INTERACTION_INTERVAL_MIN" "10") ;
  b ← JsText.parseInt (getSetting host "INTERACTION_INTERVAL_MAX" "30") ;
  c ← JsText.parseInt (getSetting host "CAST_INTERVAL_MIN" "240") ;
  d ← JsText.parseInt (getSetting host "CAST_INTERVAL_MAX" "480") ;
  e ← JsText.parseInt (getSetting host "MAX_DAILY_REPLIES" "15") ;
  f ← JsText.parseInt (getSetting host "MAX_DAILY_LIKES" "30") ;
  g ← JsText.parseInt (getSetting host "MAX_DAILY_POSTS" "3") ;
  h ← JsText.parseInt (getSetting host "MAX_CAST_AGE_DAYS" "14") ;
  Some {| n_interactionIntervalMin := a * 60 * 1000;
          n_interactionIntervalMax := b * 60 * 1000;
          n_postIntervalMin := c * 60 * 1000;
          n_postIntervalMax := d * 60 * 1000;
          n_maxDailyReplies := e;
          n_maxDailyLikes := f;
          n_maxDailyPosts := g;
          n_maxCastAge := h * 86400 |}.

(** The configuration object of lines 261-286. *)
Definition initialConfig (host : Host) (fid : Z) (numbers : Numbers) (today : string)
    : Config.t :=
  {| Config.hubHttpUrl := getSetting host "FARCASTER_HUB_HTTP_URL" "http://localhost:3381";
     Config.hubGrpcUrl := getSetting host "FARCASTER_HUB_URL" "localhost:3383";
     Config.hubSsl := String.eqb (getSetting host "FARCASTER_HUB_SSL" "false") "true";
     Config.fid := fid;
     Config.privateKey := getSetting host "FARCASTER_PRIVATE_KEY" "";
     Config.dryRun := String.eqb (getSetting host "FARCASTER_DRY_RUN" "false") "true";
     Config.enableInteractions :=
       negb (String.eqb (getSetting host "ENABLE_INTERACTIONS" "true") "false");
     Config.enableDirectPosting :=
       String.eqb (getSetting host "ENABLE_DIRECT_POSTING" "false") "true";
     Config.interactionIntervalMin := n_interactionIntervalMin numbers;
     Config.interactionIntervalMax := n_interactionIntervalMax numbers;
     Config.postIntervalMin := n_postIntervalMin numbers;
     Config.postIntervalMax := n_postIntervalMax numbers;
     Config.maxDailyReplies := n_maxDailyReplies numbers;
     Config.maxDailyLikes := n_maxDailyLikes numbers;
     Config.maxDailyPosts := n_maxDailyPosts numbers;
     Config.scanKeywords :=
       map JsText.trim
         (JsText.splitComma
            (getSetting host "SCAN_KEYWORDS" "ethereum,defi,web3,nft,crypto,blockchain"));
     Config.scanChannels :=
       map JsText.trim
         (JsText.splitComma (getSetting host "SCAN_CHANNELS" "ethereum,base,farcaster,dev"));
     Config.maxCastAge := n_maxCastAge numbers;
     Config.repliedToHashes := ∅;
     Config.likedHashes := ∅;
     Config.dailyReplies := 0;
     Config.dailyLikes := 0;
     Config.dailyPosts := 0;
     Config.lastResetDate := today |}.

(** How far [initializeFarcaster] is followed.  With a numeric setting
    that is not a number the configuration object holds [NaN], which
    [Config.t] cannot; the run is then left at the point where the object
    would be stored. *)
Inductive Initialised : Type := Followed | NotANumber.

(** [initializeFarcaster] (lines 184-328). *)
Definition initializeFarcaster : P Initialised :=
  fun host =>
    let fid := JsText.parseInt (getSetting host "FARCASTER_FID" "0") in
    let privateKey := getSetting host "FARCASTER_PRIVATE_KEY" "" in
    ((fun _ p => (Normal tt, set_world (set_agentRuntime true (world p)) p)) ;;;
     if Js.orZ fid 0 =? 0 then pret Followed
     else if String.eqb privateKey "" then pret Followed
     else
       match readNumbers host with
       | None => pret NotANumber
       | Some numbers =>
           today <- liftM (ask env_today) ;;
           let config := initialConfig host (Js.orZ fid 0) numbers today in
           liftM (fun _ w => (Normal tt, set_localConfig (Some config) w)) ;;;
           liftM (fun _ w =>
                    (Normal tt,
                     set_hubApiClient
                       (Some (createHubApiClient (Config.hubHttpUrl config))) w)) ;;;
           client <- (fun host p =>
                        match DirectHubClient.createHubClient
                                {| DirectHubClient.c_hubUrl := Config.hubGrpcUrl config;
                                   DirectHubClient.c_fid := Config.fid config;
                                   DirectHubClient.c_privateKey := Config.privateKey config;
                                   DirectHubClient.c_network := None;
                                   DirectHubClient.c_ssl := Some (Config.hubSsl config) |}
                                (host_library host) [] with
                        | (completion, _) => (completion, p)
                        end) ;;
           (fun _ p =>
              (Normal tt,
               set_directHubClient (Some client) (set_world (set_hubClient true (world p)) p))) ;;;
           (fun host p =>
              match getInfo (host_endpoints host) (host_env host) (world p) with
              | (_, w') => (Normal tt, set_world w' p)
              end) ;;;
           (if Config.enableInteractions config && negb (Config.dryRun config)
            then startInteractionLoop else pret tt) ;;;
           (if Config.enableDirectPosting config && negb (Config.dryRun config)
            then startPostLoop else pret tt) ;;;
           pret Followed
       end)%P host.

(** The status object of the provider (lines 553-563). *)
Record Status : Type := {
  status_fid : option Z;
  status_hubConnected : bool;
  status_dailyReplies : Z;
  status_dailyLikes : Z;
  status_dailyPosts : Z;
}.

Definition providerGet (w : World) : Status :=
  {| status_fid := Config.fid <$> localConfig w;
     status_hubConnected := bool_decide (is_Some (hubApiClient w));
     status_dailyReplies := Js.orZ (Config.dailyReplies <$> localConfig w) 0;
     status_dailyLikes := Js.orZ (Config.dailyLikes <$> localConfig w) 0;
     status_dailyPosts := Js.orZ (Config.dailyPosts <$> localConfig w) 0 |}.

(** The plugin before [init]: nothing set, no timer. *)
Definition unloaded : Plugin :=
  {| world := {| hubClient := false; hubApiClient := None; localConfig := None;
                 agentRuntime := false; ticks := 0; trace := [] |};
     directHubClient := None;
     interactionTimer := None;
     postTimer := None;
     pending := [];
     timersCreated := 0 |}.

(** The settings [initializeFarcaster] insists on. *)
Definition fidSetting (host : Host) : Z :=
  Js.orZ (JsText.parseInt (getSetting host "FARCASTER_FID" "0")) 0.

Definition keySetting (host : Host) : string := getSetting host "FARCASTER_PRIVATE_KEY" "".

(** The string has a comma in it. *)
Fixpoint hasComma (s : string) : bool :=
  match s with
  | EmptyString => false
  | String c s' => Ascii.eqb c "," || hasComma s'
  end.

(** The timers are named apart, by numbers already given out. *)
Definition timersOk (p : Plugin) : Prop :=
  List.Forall (fun t => (timer_id t < timersCreated p)%nat) (pending p)
  /\ List.NoDup (map timer_id (pending p)).

(** The timers left when the timer [id] is taken out. *)
Definition without (id : nat) (timers : list Timer) : list Timer :=
  List.filter (fun t => negb (Nat.eqb (timer_id t) id)) timers.

(** The loop a callback belongs to, told by the callback that loop sets
    next; what the callback runs; and the bounds of the delay it draws. *)
Definition nextCallback (callback : Callback) : Callback :=
  match callback with
  | PostTick => PostTick
  | InitialScan | InteractionTick => InteractionTick
  end.

Definition ranBy (callback : Callback) : M unit :=
  match callback with
  | PostTick => generateAndPost
  | InitialScan | InteractionTick => runInteractionCycle
  end.

Definition intervalMin (callback : Callback) (c : Config.t) : Z :=
  match callback with
  | PostTick => Config.postIntervalMin c
  | InitialScan | InteractionTick => Config.interactionIntervalMin c
  end.

Definition intervalMax (callback : Callback) (c : Config.t) : Z :=
  match callback with
  | PostTick => Config.postIntervalMax c
  | InitialScan | InteractionTick => Config.interactionIntervalMax c
  end.

(** The plugin after the timer [t] has fired in [p]: the world is the one
    its callback leaves, one draw of the random source later, and the
    timer is replaced by the next one of its loop. *)
Definition afterFire (host : Host) (p : Plugin) (c : Config.t) (t : Timer) : Plugin :=
  let callback := timer_callback t in
  let w1 := snd (ranBy callback (host_env host) (world p)) in
  let delay :=
    interval (env_random (host_env host) (ticks w1))
      (intervalMin callback c) (intervalMax callback c) in
  let id := timersCreated p in
  {| world := set_ticks (S (ticks w1)) w1;
     directHubClient := directHubClient p;
     interactionTimer :=
       match callback with PostTick => interactionTimer p | _ => Some id end;
     postTimer := match callback with PostTick => Some id | _ => postTimer p end;
     pending :=
       without (timer_id t) (pending p)
       ++ [{| timer_id := id; timer_delay := delay; timer_callback := nextCallback callback |}];
     timersCreated := S id |}.

(** The timers of the interaction loop and of the post loop. *)
Definition isInteraction (t : Timer) : bool :=
  match timer_callback t with
  | InitialScan | InteractionTick => true
  | PostTick => false
  end.

Definition isPost (t : Timer) : bool :=
  match timer_callback t with
  | PostTick => true
  | _ => false
  end.

(** ** Further scenarios *)

(** The sample world with an empty channel list. *)
Definition noChannelWorld : World :=
  set_localConfig
    (Some {| Config.hubHttpUrl := Config.hubHttpUrl sampleConfig;
             Config.hubGrpcUrl := Config.hubGrpcUrl sampleConfig;
             Config.hubSsl := Config.hubSsl sampleConfig;
             Config.fid := Config.fid sampleConfig;
             Config.privateKey := Config.privateKey sampleConfig;
             Config.dryRun := Config.dryRun sampleConfig;
             Config.enableInteractions := Config.enableInteractions sampleConfig;
             Config.enableDirectPosting := Config.enableDirectPosting sampleConfig;
             Config.interactionIntervalMin := Config.interactionIntervalMin sampleConfig;
             Config.interactionIntervalMax := Config.interactionIntervalMax sampleConfig;
             Config.postIntervalMin := Config.postIntervalMin sampleConfig;
             Config.postIntervalMax := Config.postIntervalMax sampleConfig;
             Config.maxDailyReplies := Config.maxDailyReplies sampleConfig;
             Config.maxDailyLikes := Config.maxDailyLikes sampleConfig;
             Config.maxDailyPosts := Config.maxDailyPosts sampleConfig;
             Config.scanKeywords := Config.scanKeywords sampleConfig;
             Config.scanChannels := [];
             Config.maxCastAge := Config.maxCastAge sampleConfig;
             Config.repliedToHashes := Config.repliedToHashes sampleConfig;
             Config.likedHashes := Config.likedHashes sampleConfig;
             Config.dailyReplies := Config.dailyReplies sampleConfig;
             Config.dailyLikes := Config.dailyLikes sampleConfig;
             Config.dailyPosts := Config.dailyPosts sampleConfig;
             Config.lastResetDate := Config.lastResetDate sampleConfig |})
    sampleWorld.

(** The sample configuration in a dry run. *)
Definition dryRunWorld : World :=
  set_localConfig
    (Some {| Config.hubHttpUrl := Config.hubHttpUrl sampleConfig;
             Config.hubGrpcUrl := Config.hubGrpcUrl sampleConfig;
             Config.hubSsl := Config.hubSsl sampleConfig;
             Config.fid := Config.fid sampleConfig;
             Config.privateKey := Config.privateKey sampleConfig;
             Config.dryRun := true;
             Config.enableInteractions := Config.enableInteractions sampleConfig;
             Config.enableDirectPosting := Config.enableDirectPosting sampleConfig;
             Config.interactionIntervalMin := Config.interactionIntervalMin sampleConfig;
             Config.interactionIntervalMax := Config.interactionIntervalMax sampleConfig;
             Config.postIntervalMin := Config.postIntervalMin sampleConfig;
             Config.postIntervalMax := Config.postIntervalMax sampleConfig;
             Config.maxDailyReplies := Config.maxDailyReplies sampleConfig;
             Config.maxDailyLikes := Config.maxDailyLikes sampleConfig;
             Config.maxDailyPosts := Config.maxDailyPosts sampleConfig;
             Config.scanKeywords := Config.scanKeywords sampleConfig;
             Config.scanChannels := Config.scanChannels sampleConfig;
             Config.maxCastAge := Config.maxCastAge sampleConfig;
             Config.repliedToHashes := Config.repliedToHashes sampleConfig;
             Config.likedHashes := Config.likedHashes sampleConfig;
             Config.dailyReplies := Config.dailyReplies sampleConfig;
             Config.dailyLikes := Config.dailyLikes sampleConfig;
             Config.dailyPosts := Config.dailyPosts sampleConfig;
             Config.lastResetDate := Config.lastResetDate sampleConfig |})
    sampleWorld.

(** A library that accepts everything, and a client of the local hub. *)
Definition sampleLibrary : DirectHubClient.Library :=
  {| DirectHubClient.hexToBytes := fun hex =>
       if String.eqb hex "" then DirectHubClient.Thrown "hex string expected"
       else DirectHubClient.Returned [171];
     DirectHubClient.newURL := fun _ => DirectHubClient.Returned ("localhost", Some 3383);
     DirectHubClient.makeCastAdd := fun _ _ _ _ =>
       DirectHubClient.Returned (DirectHubClient.Ok [1]);
     DirectHubClient.makeReactionAdd := fun _ _ _ _ =>
       DirectHubClient.Returned (DirectHubClient.Ok [2]);
     DirectHubClient.submitMessage := fun _ message =>
       DirectHubClient.Returned (DirectHubClient.Ok message);
     DirectHubClient.rpc_getCastsByFid := fun _ _ _ =>
       DirectHubClient.Returned (DirectHubClient.Ok []);
     DirectHubClient.rpc_getUserDataByFid := fun _ _ =>
       DirectHubClient.Returned (DirectHubClient.Ok []);
     DirectHubClient.rpc_getInfo := fun _ =>
       DirectHubClient.Returned (DirectHubClient.Ok "{}") |}.

Definition sampleHubClient : DirectHubClient.t :=
  {| DirectHubClient.hubUrl := "localhost:3383";
     DirectHubClient.fid := 7;
     DirectHubClient.signer := [1];
     DirectHubClient.network := DirectHubClient.MAINNET;
     DirectHubClient.ssl := false |}.

Definition sampleCastOptions : DirectHubClient.CastOptions :=
  {| DirectHubClient.o_text := "gm";
     DirectHubClient.o_parentCastId :=
       Some {| DirectHubClient.ci_fid := 12; DirectHubClient.ci_hash := [171] |};
     DirectHubClient.o_parentUrl := Some "https://warpcast.com/~/channel/dev";
     DirectHubClient.o_embeds := None;
     DirectHubClient.o_embedsCastIds := None;
     DirectHubClient.o_mentions := None;
     DirectHubClient.o_mentionsPositions := None |}.

(** A hub that knows the cast 0xaa of fid 12 and two reactions to it. *)
Definition sampleEndpoints : Endpoints :=
  {| ep_castById := fun _ _ =>
       FetchResolved true (Some (castAdd "0xaa" 12 (daysAgo 1) "gm @agent"));
     ep_reactionsByCast := fun _ _ =>
       FetchResolved true
         (Some {| Wire.messages :=
                    Some [ castAdd "0x01" 21 (daysAgo 1) "";
                           castAdd "0x02" 0 (daysAgo 1) "";
                           castAdd "0x03" 22 (daysAgo 1) "" ] |});
     ep_castsByFid := fun _ _ =>
       FetchResolved true
         (Some {| Wire.messages :=
                    Some [ castAdd "0xaa" 12 (daysAgo 1) "gm @agent";
                           castAdd "0xab" 13 (daysAgo 2) "hello" ] |});
     ep_info := fun _ _ =>
       FetchResolved true (Some {| numMessages := Some 1000; dbStats_numMessages := None |}) |}.

(** A host whose settings give the fid and the key and nothing else. *)
Definition sampleHost : Host :=
  {| host_env := sampleEnv;
     host_endpoints := sampleEndpoints;
     host_library := sampleLibrary;
     runtime_getSetting := fun key =>
       if String.eqb key "FARCASTER_FID" then Some "7"
       else if String.eqb key "FARCASTER_PRIVATE_KEY" then Some "0x01"
       else None;
     process_env := fun _ => None |}.

(** The numeric settings by default. *)
Definition sampleNumbers : Numbers :=
  {| n_interactionIntervalMin := 10 * 60 * 1000;
     n_interactionIntervalMax := 30 * 60 * 1000;
     n_postIntervalMin := 240 * 60 * 1000;
     n_postIntervalMax := 480 * 60 * 1000;
     n_maxDailyReplies := 15;
     n_maxDailyLikes := 30;
     n_maxDailyPosts := 3;
     n_maxCastAge := 14 * 86400 |}.

(** The sample host without a fid, and with a key that is no hex string. *)
Definition fidlessHost : Host :=
  {| host_env := sampleEnv;
     host_endpoints := sampleEndpoints;
     host_library := sampleLibrary;
     runtime_getSetting := fun key =>
       if String.eqb key "FARCASTER_PRIVATE_KEY" then Some "0x01" else None;
     process_env := fun _ => None |}.

Definition badKeyHost : Host :=
  {| host_env := sampleEnv;
     host_endpoints := sampleEndpoints;
     host_library := sampleLibrary;
     runtime_getSetting := fun key =>
       if String.eqb key "FARCASTER_FID" then Some "7"
       else if String.eqb key "FARCASTER_PRIVATE_KEY" then Some "0x"
       else None;
     process_env := fun _ => None |}.

(** The sample module with the first scan set and nothing else. *)
Definition firstScan : Timer :=
  {| timer_id := 0; timer_delay := 30000; timer_callback := InitialScan |}.

Definition armedPlugin : Plugin :=
  {| world := sampleWorld;
     directHubClient := Some sampleHubClient;
     interactionTimer := None;
     postTimer := None;
     pending := [firstScan];
     timersCreated := 1 |}.

(* ====================================================================== *)
(** * Properties *)
(* ====================================================================== *)

(** ** The epoch converter *)

Lemma round_exact (z : Z) : Z.abs z <= 2 ^ 53 -> Number.round z = z.
Proof.
  intros Hz. unfold Number.round. cbv zeta.
  destruct (Z.eq_dec (Z.abs z) (2 ^ 53)) as [Heq|Hne].
  - destruct (Z.abs_spec z) as [[_ Habs]|[_ Habs]]; rewrite Habs in Heq.
    + subst z. reflexivity.
    + assert (Hz' : z = - 2 ^ 53) by lia. subst z. reflexivity.
  - assert (Hlt : Z.abs z < 2 ^ 53) by lia.
    assert (Hlog : Z.log2 (Z.abs z) - 52 <= 0).
    { destruct (Z.eq_dec (Z.abs z) 0) as [H0|H0]; [rewrite H0; simpl; lia |].
      assert (Z.log2 (Z.abs z) < 53) by (apply Z.log2_lt_pow2; lia). lia. }
    destruct (Z.leb_spec (Z.log2 (Z.abs z) - 52) 0); [reflexivity | lia].
Qed.

(** C2, within the integers a double holds exactly: for [t] of magnitude
    at most [2 ^ 53 - 1609459200] the two conversions add and subtract the
    epoch offset and are inverse to each other in both directions, negative
    [t] included, and [farcasterToUnix 0] is the offset itself. *)
Theorem epoch_round_trip :
  forall t : Z,
    Z.abs t <= 2 ^ 53 - FARCASTER_EPOCH ->
    farcasterToUnix t = t + 1609459200
    /\ unixToFarcaster t = t - 1609459200
    /\ unixToFarcaster (farcasterToUnix t) = t
    /\ farcasterToUnix (unixToFarcaster t) = t
    /\ farcasterToUnix 0 = 1609459200.
Proof.
  intros t Ht. unfold FARCASTER_EPOCH in Ht.
  assert (Hup : farcasterToUnix t = t + 1609459200).
  { unfold farcasterToUnix, Number.add, FARCASTER_EPOCH. apply round_exact. lia. }
  assert (Hdown : unixToFarcaster t = t - 1609459200).
  { unfold unixToFarcaster, Number.sub, FARCASTER_EPOCH. apply round_exact. lia. }
  split; [exact Hup |]. split; [exact Hdown |]. split; [| split; [| reflexivity]].
  - rewrite Hup. unfold unixToFarcaster, Number.sub, FARCASTER_EPOCH.
    rewrite round_exact by lia. lia.
  - rewrite Hdown. unfold farcasterToUnix, Number.add, FARCASTER_EPOCH.
    rewrite round_exact by lia. lia.
Qed.

Lemma epoch_round_trip_witness :
  farcasterToUnix (-1609459201) = -1
  /\ unixToFarcaster (farcasterToUnix (-1609459201)) = -1609459201
  /\ farcasterToUnix (unixToFarcaster 1793491200) = 1793491200.
Proof.
  assert (Hneg : Z.abs (-1609459201) <= 2 ^ 53 - FARCASTER_EPOCH) by (vm_compute; discriminate).
  assert (Hpos : Z.abs 1793491200 <= 2 ^ 53 - FARCASTER_EPOCH) by (vm_compute; discriminate).
  destruct (epoch_round_trip (-1609459201) Hneg) as (H1 & _ & H3 & _).
  destruct (epoch_round_trip 1793491200 Hpos) as (_ & _ & _ & H4 & _).
  split; [exact H1 |]. split; [exact H3 | exact H4].
Defined.

(** The largest integer below [2 ^ 53] is a double; its sum with the
    offset is odd and above [2 ^ 53], so it is rounded (to the even
    neighbour above), and the way back gives the next integer. *)
Lemma epoch_round_trip_beyond_2_53 :
  Number.representable Number.MAX_SAFE_INTEGER
  /\ Number.MAX_SAFE_INTEGER = 9007199254740991
  /\ farcasterToUnix Number.MAX_SAFE_INTEGER = 9007200864200192
  /\ farcasterToUnix Number.MAX_SAFE_INTEGER <> Number.MAX_SAFE_INTEGER + 1609459200
  /\ unixToFarcaster (farcasterToUnix Number.MAX_SAFE_INTEGER) = Number.MAX_SAFE_INTEGER + 1
  /\ unixToFarcaster (farcasterToUnix Number.MAX_SAFE_INTEGER) <> Number.MAX_SAFE_INTEGER.
Proof.
  split; [vm_compute; reflexivity |]. split; [reflexivity |].
  split; [vm_compute; reflexivity |]. split; [vm_compute; discriminate |].
  split; [vm_compute; reflexivity | vm_compute; discriminate].
Qed.

Example farcasterToUnix_negative : farcasterToUnix (-1609459201) = -1.
Proof. reflexivity. Qed.

(** ** Substring search *)

Section Includes.

Lemma startsWith_spec (s p : string) :
  Js.startsWith s p = true <-> exists post, s = String.append p post.
Proof.
  revert s. induction p as [|a p IH]; intros s; simpl.
  - split; [intros _; now exists s | reflexivity].
  - destruct s as [|b s].
    + split; [discriminate | intros [post H]; discriminate].
    + destruct (Ascii.eqb_spec a b) as [->|Hne].
      * rewrite IH. split; intros [post H]; exists post.
        -- now rewrite H.
        -- now inversion H.
      * split; [discriminate | intros [post H]; simpl in H; inversion H; congruence].
Qed.

Lemma includes_spec (s kw : string) :
  Js.includes s kw = true <-> Js.substring_of kw s.
Proof.
  unfold Js.substring_of. induction s as [|c s IH].
  - cbn [Js.includes]. destruct (Js.startsWith "" kw) eqn:E.
    + split; [intros _ | reflexivity].
      apply startsWith_spec in E as [post E]. now exists "", post.
    + split; [discriminate |]. intros ([|? ?] & post & H); [| discriminate].
      simpl in H. assert (Js.startsWith "" kw = true) by (apply startsWith_spec; eauto).
      congruence.
  - cbn [Js.includes]. destruct (Js.startsWith (String c s) kw) eqn:E.
    + split; [intros _ | reflexivity].
      apply startsWith_spec in E as [post E]. now exists "", post.
    + rewrite IH. split.
      * intros (pre & post & H). exists (String c pre), post. simpl. now rewrite H.
      * intros ([|c' pre] & post & H).
        -- simpl in H.
           assert (Js.startsWith (String c s) kw = true) by (apply startsWith_spec; eauto).
           congruence.
        -- simpl in H. inversion H; subst. now exists pre, post.
Qed.

Lemma countMatches_acc (t : string) (kws : list string) (acc : Z) :
  fold_left (fun matches kw => if Js.includes t kw then matches + 1 else matches) kws acc
  = acc + Z.of_nat (length (List.filter (Js.includes t) kws)).
Proof.
  revert acc. induction kws as [|kw kws IH]; intros acc; simpl; [lia |].
  rewrite IH. destruct (Js.includes t kw); simpl; lia.
Qed.

Lemma countMatches_filter (t : string) (kws : list string) :
  countMatches t kws = Z.of_nat (length (List.filter (Js.includes t) kws)).
Proof. unfold countMatches. now rewrite countMatches_acc. Qed.

(** The count depends on the text only through the keywords that occur. *)
Lemma countMatches_ext (t1 t2 : string) (kws : list string) :
  (forall kw, In kw kws -> Js.includes t1 kw = Js.includes t2 kw) ->
  countMatches t1 kws = countMatches t2 kws.
Proof.
  intros H. rewrite !countMatches_filter. f_equal. f_equal.
  induction kws as [|kw kws IH]; [reflexivity |]. simpl.
  rewrite (H kw (or_introl eq_refl)), IH; [reflexivity |].
  intros kw' Hin. apply H. now right.
Qed.

End Includes.

Lemma lowerChar_idem (c : ascii) : Js.lowerChar (Js.lowerChar c) = Js.lowerChar c.
Proof. destruct c as [[] [] [] [] [] [] [] []]; reflexivity. Qed.

Lemma toLowerCase_idem (s : string) : Js.toLowerCase (Js.toLowerCase s) = Js.toLowerCase s.
Proof. induction s as [|c s IH]; simpl; [reflexivity |]. now rewrite lowerChar_idem, IH. Qed.

Example toLowerCase_sample : Js.toLowerCase "Web3 & DeFi: GM!" = "web3 & defi: gm!".
Proof. reflexivity. Qed.

Lemma mediumKeywords_NoDup : List.NoDup mediumKeywords.
Proof.
  unfold mediumKeywords.
  repeat (constructor; [simpl; intros H; repeat (destruct H as [H|H]; [discriminate H |]); exact H |]).
  constructor.
Qed.

(** ** The relevance classifier *)

Lemma utf16_startsWith_spec (s p : Utf16.t) :
  Utf16.startsWith s p = true <-> exists post, s = p ++ post.
Proof.
  revert s. induction p as [|a p IH]; intros s; simpl.
  - split; [intros _; now exists s | reflexivity].
  - destruct s as [|b s]; [split; [discriminate | intros [post H]; discriminate] |].
    destruct (N.eqb_spec a b) as [->|Hne].
    + rewrite IH. split; intros [post H]; exists post; [now rewrite H | now inversion H].
    + split; [discriminate | intros [post H]; inversion H; congruence].
Qed.

Lemma utf16_includes_spec (s kw : Utf16.t) :
  Utf16.includes s kw = true <-> Utf16.substring_of kw s.
Proof.
  unfold Utf16.substring_of. induction s as [|c s IH]; cbn [Utf16.includes].
  - destruct (Utf16.startsWith [] kw) eqn:E.
    + split; [intros _ | reflexivity].
      apply utf16_startsWith_spec in E as [post E]. now exists [], post.
    + split; [discriminate |]. intros ([|? ?] & post & H); [| discriminate].
      assert (Utf16.startsWith [] kw = true) by (apply utf16_startsWith_spec; eauto).
      congruence.
  - destruct (Utf16.startsWith (c :: s) kw) eqn:E.
    + split; [intros _ | reflexivity].
      apply utf16_startsWith_spec in E as [post E]. now exists [], post.
    + rewrite IH. split.
      * intros (pre & post & H). exists (c :: pre), post. simpl. now rewrite H.
      * intros ([|c' pre] & post & H).
        -- assert (Utf16.startsWith (c :: s) kw = true) by (apply utf16_startsWith_spec; eauto).
           congruence.
        -- simpl in H. inversion H; subst. now exists pre, post.
Qed.

Lemma utf16_ofString_inj (a b : string) : Utf16.ofString a = Utf16.ofString b -> a = b.
Proof.
  unfold Utf16.ofString. revert b. induction a as [|x a IH]; intros [|y b] H; simpl in H;
    try discriminate; [reflexivity |].
  inversion H as [[Hx Hab]]. f_equal; [| now apply IH].
  rewrite <- (ascii_N_embedding x), <- (ascii_N_embedding y). now rewrite Hx.
Qed.

Lemma utf16_countMatches_filter (lowerText : Utf16.t) (kws : list string) :
  Utf16.countMatches lowerText kws
  = Z.of_nat (length (List.filter (fun kw => Utf16.includes lowerText (Utf16.ofString kw)) kws)).
Proof.
  unfold Utf16.countMatches.
  enough (H : forall acc,
             fold_left (fun matches kw =>
                          if Utf16.includes lowerText (Utf16.ofString kw)
                          then matches + 1 else matches) kws acc
             = acc + Z.of_nat (length (List.filter
                                 (fun kw => Utf16.includes lowerText (Utf16.ofString kw)) kws)))
    by (now rewrite H).
  induction kws as [|kw kws IH]; intros acc; simpl; [lia |].
  rewrite IH. destruct (Utf16.includes lowerText (Utf16.ofString kw)); simpl; lia.
Qed.

Lemma utf16_one_match (lowerText : Utf16.t) (kws : list string) :
  1 <= Utf16.countMatches lowerText kws
  <-> exists kw, In kw kws /\ Utf16.substring_of (Utf16.ofString kw) lowerText.
Proof.
  rewrite utf16_countMatches_filter.
  set (occurs := fun kw => Utf16.includes lowerText (Utf16.ofString kw)).
  split.
  - destruct (List.filter occurs kws) as [|kw l] eqn:E; [simpl; lia | intros _].
    assert (Hin : In kw (List.filter occurs kws)) by (rewrite E; now left).
    apply filter_In in Hin as [Hin Hinc]. exists kw. split; [exact Hin |].
    now apply utf16_includes_spec.
  - intros (kw & Hin & Hsub).
    assert (Hf : In kw (List.filter occurs kws)).
    { apply filter_In. split; [exact Hin | now apply utf16_includes_spec]. }
    destruct (List.filter occurs kws); [destruct Hf | simpl; lia].
Qed.

Lemma utf16_two_matches (lowerText : Utf16.t) (kws : list string) :
  List.NoDup kws ->
  2 <= Utf16.countMatches lowerText kws
  <-> exists k1 k2, In k1 kws /\ In k2 kws /\ k1 <> k2
                    /\ Utf16.substring_of (Utf16.ofString k1) lowerText
                    /\ Utf16.substring_of (Utf16.ofString k2) lowerText.
Proof.
  intros Hnd. rewrite utf16_countMatches_filter.
  set (occurs := fun kw => Utf16.includes lowerText (Utf16.ofString kw)).
  assert (Hndf : List.NoDup (List.filter occurs kws)) by now apply List.NoDup_filter.
  assert (Hocc : forall kw, In kw (List.filter occurs kws)
                            <-> In kw kws /\ Utf16.substring_of (Utf16.ofString kw) lowerText).
  { intros kw. rewrite filter_In. unfold occurs. now rewrite utf16_includes_spec. }
  destruct (List.filter occurs kws) as [|k1 [|k2 l]]; simpl.
  - split; [lia |]. intros (k1 & _ & H1 & _ & _ & S1 & _).
    exfalso. apply (Hocc k1). now split.
  - split; [lia |]. intros (a & b & Ha & Hb & Hne & Sa & Sb). exfalso.
    destruct (proj2 (Hocc a) (conj Ha Sa)) as [<-|[]].
    destruct (proj2 (Hocc b) (conj Hb Sb)) as [<-|[]]. now apply Hne.
  - split; [intros _ | lia].
    destruct (proj1 (Hocc k1) (or_introl eq_refl)) as [H1 S1].
    destruct (proj1 (Hocc k2) (or_intror (or_introl eq_refl))) as [H2 S2].
    exists k1, k2. repeat split; try assumption.
    inversion Hndf as [|? ? Hnotin _]; subst. intros ->. apply Hnotin. now left.
Qed.

(** C7: [evaluateRelevance] lower-cases its input and is "high" as soon as
    one high-tier keyword occurs in the lower-cased text, whatever the
    medium tier says; failing that it is "medium" when two different
    medium-tier keywords occur in it, and "low" otherwise (so with a single
    medium-tier match); the empty text, lower-cased to itself, is "low".
    This holds of every string of 16-bit code units and of whatever
    [toLowerCase] makes of it; texts with the same lower-cased form are
    classified alike. *)
Theorem evaluateRelevance_spec :
  forall (toLowerCase : Utf16.t -> Utf16.t) (text : Utf16.t),
    (Utf16.highOccurs toLowerCase text -> Utf16.evaluateRelevance toLowerCase text = high)
    /\ (~ Utf16.highOccurs toLowerCase text -> Utf16.twoMediumOccur toLowerCase text ->
        Utf16.evaluateRelevance toLowerCase text = medium)
    /\ (~ Utf16.highOccurs toLowerCase text -> ~ Utf16.twoMediumOccur toLowerCase text ->
        Utf16.evaluateRelevance toLowerCase text = low)
    /\ (toLowerCase [] = [] -> Utf16.evaluateRelevance toLowerCase [] = low)
    /\ (forall text', toLowerCase text' = toLowerCase text ->
        Utf16.evaluateRelevance toLowerCase text' = Utf16.evaluateRelevance toLowerCase text).
Proof.
  intros toLowerCase text.
  pose proof (utf16_one_match (toLowerCase text) highKeywords) as Hh.
  pose proof (utf16_two_matches (toLowerCase text) mediumKeywords mediumKeywords_NoDup) as Hm.
  fold (Utf16.highOccurs toLowerCase text) in Hh.
  fold (Utf16.twoMediumOccur toLowerCase text) in Hm.
  unfold Utf16.evaluateRelevance. cbv zeta.
  split; [| split; [| split; [| split]]].
  - intros A. apply Hh in A.
    destruct (Z.geb_spec (Utf16.countMatches (toLowerCase text) highKeywords) 1); [reflexivity | lia].
  - intros A B. apply Hm in B.
    destruct (Z.geb_spec (Utf16.countMatches (toLowerCase text) highKeywords) 1) as [H1|H1];
      [exfalso; apply A, Hh; lia |].
    destruct (Z.geb_spec (Utf16.countMatches (toLowerCase text) mediumKeywords) 2); [reflexivity | lia].
  - intros A B.
    destruct (Z.geb_spec (Utf16.countMatches (toLowerCase text) highKeywords) 1) as [H1|H1];
      [exfalso; apply A, Hh; lia |].
    destruct (Z.geb_spec (Utf16.countMatches (toLowerCase text) mediumKeywords) 2) as [H2|H2];
      [exfalso; apply B, Hm; lia | reflexivity].
  - intros ->. reflexivity.
  - intros text' ->. reflexivity.
Qed.



(** On the source text's own strings the two classifiers are one. *)
Lemma utf16_startsWith_ofString (s p : string) :
  Utf16.startsWith (Utf16.ofString s) (Utf16.ofString p) = Js.startsWith s p.
Proof.
  revert s. induction p as [|a p IH]; intros [|b s]; try reflexivity.
  change (Utf16.ofString (String a p)) with (N_of_ascii a :: Utf16.ofString p).
  change (Utf16.ofString (String b s)) with (N_of_ascii b :: Utf16.ofString s).
  cbn [Utf16.startsWith Js.startsWith]. rewrite IH.
  destruct (Ascii.eqb_spec a b) as [->|Hne]; [now rewrite N.eqb_refl |].
  destruct (N.eqb_spec (N_of_ascii a) (N_of_ascii b)) as [Heq|_]; [| reflexivity].
  exfalso. apply Hne. rewrite <- (ascii_N_embedding a), <- (ascii_N_embedding b). now rewrite Heq.
Qed.

Lemma utf16_includes_ofString (s kw : string) :
  Utf16.includes (Utf16.ofString s) (Utf16.ofString kw) = Js.includes s kw.
Proof.
  induction s as [|c s IH].
  - change (Utf16.ofString "") with (@nil N). cbn [Utf16.includes Js.includes].
    change (@nil N) with (Utf16.ofString ""). now rewrite utf16_startsWith_ofString.
  - cbn [Js.includes]. rewrite <- utf16_startsWith_ofString, <- IH. reflexivity.
Qed.

Lemma toLowerCaseLatin_ofString (s : string) :
  Utf16.toLowerCaseLatin (Utf16.ofString s) = Utf16.ofString (Js.toLowerCase s).
Proof.
  induction s as [|c s IH]; [reflexivity |].
  change (Utf16.ofString (String c s)) with (N_of_ascii c :: Utf16.ofString s).
  change (Utf16.toLowerCaseLatin (N_of_ascii c :: Utf16.ofString s))
    with (Utf16.lowerUnit (N_of_ascii c) ++ Utf16.toLowerCaseLatin (Utf16.ofString s)).
  rewrite IH. cbn [Js.toLowerCase].
  change (Utf16.ofString (String (Js.lowerChar c) (Js.toLowerCase s)))
    with ([N_of_ascii (Js.lowerChar c)] ++ Utf16.ofString (Js.toLowerCase s)).
  f_equal. destruct c as [[] [] [] [] [] [] [] []]; reflexivity.
Qed.

Lemma utf16_evaluateRelevance_ofString (toLowerCase : Utf16.t -> Utf16.t) (s : string) :
  toLowerCase (Utf16.ofString s) = Utf16.ofString (Js.toLowerCase s) ->
  Utf16.evaluateRelevance toLowerCase (Utf16.ofString s) = evaluateRelevance s.
Proof.
  intros H. unfold Utf16.evaluateRelevance, evaluateRelevance. rewrite H.
  assert (Hc : forall kws, Utf16.countMatches (Utf16.ofString (Js.toLowerCase s)) kws
                           = countMatches (Js.toLowerCase s) kws).
  { intros kws. rewrite utf16_countMatches_filter, countMatches_filter. do 2 f_equal.
    apply List.filter_ext. intros kw. apply utf16_includes_ofString. }
  now rewrite !Hc.
Qed.


Lemma evaluateRelevance_on_code_units (s : string) :
  evaluateRelevance s = Utf16.evaluateRelevance Utf16.toLowerCaseLatin (Utf16.ofString s).
Proof.
  symmetry. apply utf16_evaluateRelevance_ofString, toLowerCaseLatin_ofString.
Qed.

(** ** Sorting and slicing *)

Section SortSlice.

Context {A : Type} (key : A -> Z).

Local Abbreviation desc := (desc key).
Local Abbreviation cmp := (fun a b : A => key b - key a).

Lemma sortInsert_Forall (P : A -> Prop) (x : A) (l : list A) :
  P x -> List.Forall P l -> List.Forall P (Js.sortInsert cmp x l).
Proof.
  intros Hx Hl. induction Hl as [|y l Hy Hl IH]; simpl.
  - now constructor.
  - destruct (cmp x y <=? 0); repeat constructor; assumption.
Qed.

Lemma sortInsert_sorted (x : A) (l : list A) :
  StronglySorted desc l -> StronglySorted desc (Js.sortInsert cmp x l).
Proof.
  induction 1 as [|y l Hs IH Hall]; simpl.
  - repeat constructor.
  - destruct (Z.leb_spec (key y - key x) 0) as [Hle|Hgt].
    + constructor; [now constructor |].
      constructor; [unfold desc; lia |].
      eapply List.Forall_impl; [| exact Hall]. unfold desc. intros; lia.
    + constructor; [exact IH |].
      apply sortInsert_Forall; [unfold desc; lia | exact Hall].
Qed.

Lemma sort_sorted (l : list A) : StronglySorted desc (Js.sort cmp l).
Proof.
  induction l as [|x l IH]; simpl; [constructor | now apply sortInsert_sorted].
Qed.

Lemma sortInsert_perm (x : A) (l : list A) :
  Permutation (x :: l) (Js.sortInsert cmp x l).
Proof.
  induction l as [|y l IH]; simpl; [reflexivity |].
  destruct (cmp x y <=? 0); [reflexivity |].
  rewrite perm_swap. now constructor.
Qed.

Lemma sort_perm (l : list A) : Permutation l (Js.sort cmp l).
Proof.
  induction l as [|x l IH]; simpl; [constructor |].
  rewrite <- sortInsert_perm. now constructor.
Qed.

Lemma firstn_sorted (n : nat) (l : list A) :
  StronglySorted desc l -> StronglySorted desc (firstn n l).
Proof.
  intros Hs. revert n. induction Hs as [|x l Hs IH Hall]; intros [|n]; simpl;
    try constructor.
  - apply IH.
  - apply List.Forall_forall. intros y Hy. apply (proj1 (List.Forall_forall _ _) Hall).
    revert Hy. clear. revert n. induction l as [|z l IHl]; intros [|n]; simpl; try tauto.
    intros [->|H]; [now left | right; eauto].
Qed.

Lemma slice0_sorted (l : list A) (end_ : Z) :
  StronglySorted desc l -> StronglySorted desc (Js.slice0 l end_).
Proof. intros H. unfold Js.slice0. now apply firstn_sorted. Qed.

Lemma slice0_length (l : list A) (end_ : Z) :
  0 <= end_ -> Z.of_nat (length (Js.slice0 l end_)) <= end_.
Proof.
  intros H. unfold Js.slice0. rewrite List.length_firstn.
  destruct (Z.ltb_spec end_ 0); lia.
Qed.

End SortSlice.

(** ** Reasoning about computations in [M] *)

Section Post.

Context {A B : Type}.

Lemma post_ret (a : A) (Q : A -> Prop) : Q a -> post (ret a) Q.
Proof. intros H env w. exact H. Qed.

Lemma post_bind (m : M A) (k : A -> M B) (Q : B -> Prop) :
  (forall a, post (k a) Q) -> post (bind m k) Q.
Proof.
  intros H env w. unfold bind. destruct (m env w) as [[a|e] w']; [apply H | exact I].
Qed.

Lemma post_tryCatch (m : M A) (h : string -> M A) (Q : A -> Prop) :
  post m Q -> (forall e, post (h e) Q) -> post (tryCatch m h) Q.
Proof.
  intros Hm Hh env w. unfold tryCatch. specialize (Hm env w).
  destruct (m env w) as [[a|e] w']; [exact Hm | apply Hh].
Qed.

Lemma neverThrows_tryCatch (m : M A) (h : string -> M A) :
  (forall e, neverThrows (h e)) -> neverThrows (tryCatch m h).
Proof.
  intros Hh env w. unfold tryCatch.
  destruct (m env w) as [[a|e] w']; [now exists a | apply Hh].
Qed.

Lemma neverThrows_ret (a : A) : neverThrows (ret a).
Proof. intros env w. now exists a. Qed.

End Post.

Section Preserves.

Variable R : World -> World -> Prop.
Hypothesis R_refl : forall w, R w w.
Hypothesis R_trans : forall w1 w2 w3, R w1 w2 -> R w2 w3 -> R w1 w3.

Lemma preserves_ret {A : Type} (a : A) : preserves R (ret a).
Proof. intros env w. apply R_refl. Qed.

Lemma preserves_throw {A : Type} (e : string) : preserves R (@throw A e).
Proof. intros env w. apply R_refl. Qed.

Lemma preserves_bind {A B : Type} (m : M A) (k : A -> M B) :
  preserves R m -> (forall a, preserves R (k a)) -> preserves R (bind m k).
Proof.
  intros Hm Hk env w. unfold bind. specialize (Hm env w).
  destruct (m env w) as [[a|e] w']; simpl in *; [| exact Hm].
  eapply R_trans; [exact Hm | apply Hk].
Qed.

Lemma preserves_tryCatch {A : Type} (m : M A) (h : string -> M A) :
  preserves R m -> (forall e, preserves R (h e)) -> preserves R (tryCatch m h).
Proof.
  intros Hm Hh env w. unfold tryCatch. specialize (Hm env w).
  destruct (m env w) as [[a|e] w']; simpl in *; [exact Hm |].
  eapply R_trans; [exact Hm | apply Hh].
Qed.

Lemma preserves_forOf {A : Type} (body : A -> M LoopCtl) (xs : list A) :
  (forall x, preserves R (body x)) -> preserves R (forOf body xs).
Proof.
  intros Hb. induction xs as [|x xs IH]; simpl.
  - apply preserves_ret.
  - apply preserves_bind; [apply Hb |]. intros [|]; [exact IH | apply preserves_ret].
Qed.

Lemma preserves_getWorld : preserves R getWorld.
Proof. intros env w. apply R_refl. Qed.

Lemma preserves_readConfig : preserves R readConfig.
Proof. intros env w. unfold readConfig. destruct (localConfig w); apply R_refl. Qed.

Lemma preserves_readClient : preserves R readClient.
Proof. intros env w. unfold readClient. destruct (hubApiClient w); apply R_refl. Qed.

Lemma preserves_responseJson (r : Wire.Response) : preserves R (responseJson r).
Proof. unfold responseJson. destruct (Wire.json r); [apply preserves_ret | apply preserves_throw]. Qed.

End Preserves.

(** ** Reading the module state *)

Lemma bind_getWorld {A : Type} (k : World -> M A) (env : Env) (w : World) :
  bind getWorld k env w = k w env w.
Proof. reflexivity. Qed.

Lemma bind_readConfig_some {A : Type} (k : Config.t -> M A) (env : Env) (w : World) (c : Config.t) :
  localConfig w = Some c -> bind readConfig k env w = k c env w.
Proof. intros Hc. unfold bind, readConfig. now rewrite Hc. Qed.

Lemma bind_readConfig_none {A : Type} (k : Config.t -> M A) (env : Env) (w : World) :
  localConfig w = None -> bind readConfig k env w = (Throw "TypeError", w).
Proof. intros Hc. unfold bind, readConfig. now rewrite Hc. Qed.

(** ** The hub API client leaves the core's state alone *)

Lemma apiFrame_refl (w : World) : apiFrame w w.
Proof. unfold apiFrame. tauto. Qed.

Lemma apiFrame_trans (w1 w2 w3 : World) :
  apiFrame w1 w2 -> apiFrame w2 w3 -> apiFrame w1 w3.
Proof. unfold apiFrame. intros (?&?&?&?&?) (?&?&?&?&?). repeat split; try congruence. tauto. Qed.

(** One step of a frame proof for a relation [R] with reflexivity [Hr] and
    transitivity [Ht]: peel the outermost construct of the computation. *)
Create HintDb frame.

Ltac frame_with R Hr Ht :=
  repeat first
    [ assumption
    | solve [auto 1 with frame nocore]
    | apply (preserves_ret R Hr)
    | apply (preserves_throw R Hr)
    | apply (preserves_getWorld R Hr)
    | apply (preserves_readConfig R Hr)
    | apply (preserves_readClient R Hr)
    | apply (preserves_responseJson R Hr)
    | apply (preserves_bind R Ht); [| intros ?]
    | apply (preserves_tryCatch R Ht); [| intros ?]
    | match goal with
      | |- preserves _ (if ?b then _ else _) => destruct b
      | |- preserves _ (match ?o with Some _ => _ | None => _ end) => destruct o
      | |- preserves _ (match ?o with Wire.Rejected => _ | Wire.Resolved _ => _ end) =>
          destruct o
      end ].

Ltac api_frame := frame_with apiFrame apiFrame_refl apiFrame_trans.

Lemma fetch_apiFrame (req : Wire.Request) : preserves apiFrame (fetch req).
Proof. unfold fetch. api_frame. Qed.
#[local] Hint Resolve fetch_apiFrame : frame.

Lemma userCache_set_apiFrame (fid : Z) (u : HubUser.t) :
  preserves apiFrame (userCache_set fid u).
Proof.
  unfold userCache_set. api_frame.
  intros env w. unfold apiFrame. simpl. repeat split; eauto.
Qed.
#[local] Hint Resolve userCache_set_apiFrame : frame.

Lemma getUser_apiFrame (fid : Z) : preserves apiFrame (getUser fid).
Proof. unfold getUser. api_frame. Qed.
#[local] Hint Resolve getUser_apiFrame : frame.

Lemma collectCasts_apiFrame (messages : list Wire.Message) :
  preserves apiFrame (collectCasts messages).
Proof. induction messages as [|msg rest IH]; simpl; api_frame. Qed.
#[local] Hint Resolve collectCasts_apiFrame : frame.

Lemma getMentions_apiFrame (fid limit : Z) : preserves apiFrame (getMentions fid limit).
Proof. unfold getMentions. api_frame. Qed.

Lemma getChannelCasts_apiFrame (url : string) (limit : Z) :
  preserves apiFrame (getChannelCasts url limit).
Proof. unfold getChannelCasts. api_frame. Qed.

(** ** [getMentions] *)

Lemma getMentions_neverThrows (fid limit : Z) : neverThrows (getMentions fid limit).
Proof.
  unfold getMentions. apply neverThrows_tryCatch. intros e. apply neverThrows_ret.
Qed.

Lemma getMentions_post (fid limit : Z) :
  post (getMentions fid limit)
       (fun casts =>
          StronglySorted (desc CastWithAuthor.timestamp) casts
          /\ (0 <= limit -> Z.of_nat (length casts) <= limit)).
Proof.
  assert (Hnil : StronglySorted (desc CastWithAuthor.timestamp) []
                 /\ (0 <= limit -> Z.of_nat (@length CastWithAuthor.t []) <= limit)).
  { split; [constructor | simpl; lia]. }
  unfold getMentions. apply post_tryCatch.
  - apply post_bind. intros r. destruct (negb (Wire.ok r)); [now apply post_ret |].
    apply post_bind. intros data. apply post_bind. intros casts. apply post_ret. split.
    + apply slice0_sorted. unfold byTimestampDesc.
      apply (sort_sorted CastWithAuthor.timestamp).
    + apply slice0_length.
  - intros e. now apply post_ret.
Qed.

Lemma getMentions_failure (env : Env) (w : World) (fid limit : Z) :
  mentionsRequestFails env w fid limit ->
  fst (getMentions fid limit env w) = Normal [].
Proof.
  unfold mentionsRequestFails, getMentions, fetch, responseJson, tryCatch, bind, ask.
  cbv beta.
  destruct (env_fetch env (ticks w) (Wire.CastsByMention fid limit)) as [|r]; simpl.
  - reflexivity.
  - intros [Hok|Hjson].
    + rewrite Hok. reflexivity.
    + destruct (Wire.ok r); simpl; [| reflexivity]. rewrite Hjson. reflexivity.
Qed.

(** C8, as the code has it: whatever the hub answers, [getMentions] ends
    normally with a sequence in descending order of timestamp; for a limit
    that is not negative the sequence has at most [limit] elements; and
    when the request fails the sequence is empty. *)
Theorem getMentions_sorted_bounded :
  forall (fid limit : Z) (env : Env) (w : World),
  exists casts,
    fst (getMentions fid limit env w) = Normal casts
    /\ StronglySorted (desc CastWithAuthor.timestamp) casts
    /\ (0 <= limit -> Z.of_nat (length casts) <= limit)
    /\ (mentionsRequestFails env w fid limit -> casts = []).
Proof.
  intros fid limit env w.
  destruct (getMentions_neverThrows fid limit env w) as [casts Hc].
  exists casts. split; [exact Hc |].
  pose proof (getMentions_post fid limit env w) as Hp. rewrite Hc in Hp.
  destruct Hp as [Hs Hl]. repeat split; try assumption.
  intros Hf. apply (getMentions_failure env w fid limit) in Hf. congruence.
Qed.

(** ** What one call of [likeCast] and one turn of each loop do *)

Lemma tooOld_spec (nowMs timestamp maxCastAge : Z) :
  tooOld nowMs timestamp maxCastAge = true
  <-> (inject_Z maxCastAge < castAge nowMs timestamp)%Q.
Proof.
  unfold tooOld. rewrite negb_true_iff, <- not_true_iff_false, Qle_bool_iff.
  split; [apply Qnot_le_lt | apply Qlt_not_le].
Qed.

Lemma likeCast_run (targetFid : Z) (targetHash : string) (env : Env) (w : World) :
  likeCast targetFid targetHash env w = (Normal tt, afterLike targetFid targetHash w).
Proof.
  unfold likeCast, afterLike, likeDispatched, bind, getWorld, tryCatch, hubClient_likeCast, ret.
  destruct (localConfig w) as [c|] eqn:Hc; [| reflexivity].
  destruct (hubClient w); simpl; [| reflexivity].
  destruct (Config.dryRun c); simpl; [reflexivity |].
  rewrite Hc. destruct (env_likeCast env (ticks w) targetFid targetHash); reflexivity.
Qed.

Lemma respondToMentions_body_run (cast : CastWithAuthor.t) (env : Env) (w : World) (c : Config.t) :
  localConfig w = Some c ->
  respondToMentions_body cast env w =
    if bool_decide (CastWithAuthor.hash cast ∈ Config.repliedToHashes c) then (Normal Continue, w)
    else if Config.dailyReplies c >=? Config.maxDailyReplies c then (Normal Break, w)
    else if CastWithAuthor.fid cast =? Config.fid c then (Normal Continue, w)
    else
      let w1 := set_ticks (S (ticks w)) w in
      if tooOld (env_now env (ticks w)) (CastWithAuthor.timestamp cast) (Config.maxCastAge c)
      then (Normal Continue, w1)
      else
        (Normal Continue,
         set_localConfig (Some (replyCommitted (CastWithAuthor.hash cast) c))
           (afterLike (CastWithAuthor.fid cast) (CastWithAuthor.hash cast) w1)).
Proof.
  intros Hc. unfold respondToMentions_body, bind at 1, readConfig. rewrite Hc.
  case_bool_decide; [reflexivity |].
  destruct (Config.dailyReplies c >=? Config.maxDailyReplies c); [reflexivity |].
  destruct (CastWithAuthor.fid cast =? Config.fid c); [reflexivity |].
  unfold bind at 1, ask. cbv beta.
  destruct (tooOld _ _ _); [reflexivity |].
  unfold bind at 1. rewrite likeCast_run.
  unfold bind, updateConfig, afterLike, likeDispatched, ret. simpl. rewrite Hc.
  destruct (hubClient w && negb (Config.dryRun c)); simpl; rewrite Hc; reflexivity.
Qed.

Lemma scanChannelsForCasts_body_run (cast : CastWithAuthor.t) (env : Env) (w : World) (c : Config.t) :
  localConfig w = Some c ->
  scanChannelsForCasts_body cast env w =
    if Config.dailyLikes c >=? Config.maxDailyLikes c then (Normal Break, w)
    else if CastWithAuthor.fid cast =? Config.fid c then (Normal Continue, w)
    else if bool_decide (CastWithAuthor.hash cast ∈ Config.likedHashes c) then (Normal Continue, w)
    else
      let w1 := set_ticks (S (ticks w)) w in
      if tooOld (env_now env (ticks w)) (CastWithAuthor.timestamp cast) (Config.maxCastAge c)
      then (Normal Continue, w1)
      else
        match evaluateRelevance (CastWithAuthor.text cast) with
        | low => (Normal Continue, w1)
        | _ =>
            (Normal Continue,
             set_localConfig (Some (likeCommitted (CastWithAuthor.hash cast) c))
               (afterLike (CastWithAuthor.fid cast) (CastWithAuthor.hash cast) w1))
        end.
Proof.
  intros Hc. unfold scanChannelsForCasts_body, bind at 1, readConfig. rewrite Hc.
  destruct (Config.dailyLikes c >=? Config.maxDailyLikes c); [reflexivity |].
  destruct (CastWithAuthor.fid cast =? Config.fid c); [reflexivity |].
  case_bool_decide; [reflexivity |].
  unfold bind at 1, ask. cbv beta.
  destruct (tooOld _ _ _); [reflexivity |].
  destruct (evaluateRelevance (CastWithAuthor.text cast)); [| | reflexivity].
  all: unfold bind at 1; rewrite likeCast_run;
    unfold bind, updateConfig, afterLike, likeDispatched, ret; simpl; rewrite Hc;
    destruct (hubClient w && negb (Config.dryRun c)); simpl; rewrite Hc; reflexivity.
Qed.

(** Without a configuration the body stops at its first statement. *)
Lemma respondToMentions_body_null (cast : CastWithAuthor.t) (env : Env) (w : World) :
  localConfig w = None -> respondToMentions_body cast env w = (Throw "TypeError", w).
Proof. intros Hc. unfold respondToMentions_body, bind, readConfig. now rewrite Hc. Qed.

Lemma scanChannelsForCasts_body_null (cast : CastWithAuthor.t) (env : Env) (w : World) :
  localConfig w = None -> scanChannelsForCasts_body cast env w = (Throw "TypeError", w).
Proof. intros Hc. unfold scanChannelsForCasts_body, bind, readConfig. now rewrite Hc. Qed.

(** ** Freshness: items older than the maximum age *)


(** ** The channel-scan lane classifies before it reserves *)

Lemma scanCandidate_run (env : Env) (w : World) (c : Config.t) (cast : CastWithAuthor.t) :
  scanCandidate env w c cast ->
  scanChannelsForCasts_body cast env w =
    match evaluateRelevance (CastWithAuthor.text cast) with
    | low => (Normal Continue, set_ticks (S (ticks w)) w)
    | _ =>
        (Normal Continue,
         set_localConfig (Some (likeCommitted (CastWithAuthor.hash cast) c))
           (afterLike (CastWithAuthor.fid cast) (CastWithAuthor.hash cast)
              (set_ticks (S (ticks w)) w)))
    end.
Proof.
  intros (Hc & Hcap & Hself & Hnew & Hfresh).
  rewrite (scanChannelsForCasts_body_run cast env w c Hc). cbv zeta.
  destruct (Z.geb_spec (Config.dailyLikes c) (Config.maxDailyLikes c)); [lia |].
  destruct (Z.eqb_spec (CastWithAuthor.fid cast) (Config.fid c)); [contradiction |].
  case_bool_decide; [contradiction |].
  destruct (tooOld _ _ _) eqn:Hold; [| reflexivity].
  apply tooOld_spec in Hold. contradiction.
Qed.

(** C4, as the code has it: in the channel-scan lane the classification
    comes first.  For an item the loop goes on to classify, an item
    classified "low" consumes no reservation and gets no like (the
    configuration and the submitted likes are unchanged), and an item
    classified "high" or "medium" consumes one (counter plus one, hash in
    the liked set). *)
Theorem scan_reserves_after_classification :
  forall (env : Env) (w : World) (c : Config.t) (cast : CastWithAuthor.t),
    scanCandidate env w c cast ->
    let w' := snd (scanChannelsForCasts_body cast env w) in
    (evaluateRelevance (CastWithAuthor.text cast) = low ->
       localConfig w' = Some c /\ trace w' = trace w)
    /\ (evaluateRelevance (CastWithAuthor.text cast) <> low ->
          localConfig w' = Some (likeCommitted (CastWithAuthor.hash cast) c)
          /\ likeReservationConsumed (CastWithAuthor.hash cast) w w').
Proof.
  intros env w c cast Hcand. pose proof Hcand as (Hc & _).
  rewrite (scanCandidate_run env w c cast Hcand). cbv zeta. split.
  - intros ->. now split.
  - intros Hrel.
    assert (Hw' : localConfig
              (set_localConfig (Some (likeCommitted (CastWithAuthor.hash cast) c))
                 (afterLike (CastWithAuthor.fid cast) (CastWithAuthor.hash cast)
                    (set_ticks (S (ticks w)) w)))
            = Some (likeCommitted (CastWithAuthor.hash cast) c)) by reflexivity.
    destruct (evaluateRelevance (CastWithAuthor.text cast)); try contradiction;
      (split; [exact Hw' |]);
      exists c, (likeCommitted (CastWithAuthor.hash cast) c);
      (split; [exact Hc | split; [exact Hw' | split; [reflexivity | simpl; set_solver]]]).
Qed.

(** ** What a lane does to the world *)

Lemma withLedger_id (l : Lane) (c : Config.t) :
  c = withLedger l (dedup l c) (counter l c) c.
Proof. destruct l, c; reflexivity. Qed.

Lemma reservedAfterDispatch_mono (l : Lane) (c c' : Config.t) (ev : Event) :
  dedup l c ⊆ dedup l c' -> counter l c <= counter l c' ->
  reservedAfterDispatch l c ev -> reservedAfterDispatch l c' ev.
Proof.
  intros Hs Hn. destruct ev as [f h snap]. simpl.
  intros (cs & -> & Hnot & Hcap & Hin & Hlt). exists cs.
  repeat split; try assumption; [set_solver | lia].
Qed.

Lemma laneRun_refl (l : Lane) (w : World) : laneRun l w w.
Proof.
  unfold laneRun. repeat split; try tauto.
  destruct (localConfig w) as [c|]; [| now split].
  exists c, []. repeat split; try reflexivity; try lia.
  - apply withLedger_id.
  - now rewrite List.app_nil_r.
  - constructor.
Qed.

Lemma laneRun_trans (l : Lane) (w1 w2 w3 : World) :
  laneRun l w1 w2 -> laneRun l w2 w3 -> laneRun l w1 w3.
Proof.
  unfold laneRun. intros (Ha & Hb & Hc & H12) (Ha' & Hb' & Hc' & H23).
  repeat split; try congruence; try tauto.
  destruct (localConfig w1) as [c1|].
  - destruct H12 as (c2 & evs12 & Hc2 & Heq2 & Hs2 & Hn2 & Ht2 & Hf2).
    rewrite Hc2 in H23.
    destruct H23 as (c3 & evs23 & Hc3 & Heq3 & Hs3 & Hn3 & Ht3 & Hf3).
    exists c3, (evs12 ++ evs23). repeat split.
    + exact Hc3.
    + rewrite Heq3 at 1. rewrite Heq2. destruct l; reflexivity.
    + set_solver.
    + lia.
    + rewrite Ht3, Ht2. now rewrite List.app_assoc.
    + apply List.Forall_app. split; [| exact Hf3].
      eapply List.Forall_impl; [| exact Hf2].
      intros ev. now apply reservedAfterDispatch_mono.
  - destruct H12 as [Hc2 Ht2]. rewrite Hc2 in H23. destruct H23 as [Hc3 Ht3].
    split; congruence.
Qed.

Lemma apiFrame_laneRun (l : Lane) (w w' : World) : apiFrame w w' -> laneRun l w w'.
Proof.
  intros (Ha & Hb & Hc & Hd & He). unfold laneRun. repeat split; try assumption.
  rewrite Hb. destruct (localConfig w) as [c|]; [| now split].
  exists c, []. repeat split; try reflexivity; try lia.
  - apply withLedger_id.
  - now rewrite List.app_nil_r.
  - constructor.
Qed.

Lemma preserves_weaken {A : Type} (R R' : World -> World -> Prop) (m : M A) :
  (forall w w', R w w' -> R' w w') -> preserves R m -> preserves R' m.
Proof. intros H Hm env w. apply H, Hm. Qed.

Lemma withLedger_dedup (l : Lane) (s : gset string) (n : Z) (c : Config.t) :
  dedup l (withLedger l s n c) = s.
Proof. destruct l; reflexivity. Qed.

Lemma withLedger_counter (l : Lane) (s : gset string) (n : Z) (c : Config.t) :
  counter l (withLedger l s n c) = n.
Proof. destruct l; reflexivity. Qed.

Lemma committed_laneRun (l : Lane) (cast : CastWithAuthor.t) (c : Config.t) (w : World) :
  localConfig w = Some c ->
  CastWithAuthor.hash cast ∉ dedup l c ->
  counter l c < cap l c ->
  laneRun l w (committed l cast c w).
Proof.
  intros Hc Hnew Hcap. unfold laneRun, committed, afterLike.
  change (likeDispatched (set_ticks (S (ticks w)) w)) with (likeDispatched w).
  set (c' := withLedger l (dedup l c ∪ {[CastWithAuthor.hash cast]}) (counter l c + 1) c).
  assert (Hok : reservedAfterDispatch l c'
                  (EvLike (CastWithAuthor.fid cast) (CastWithAuthor.hash cast) (Some c))).
  { simpl. exists c. subst c'. rewrite withLedger_dedup, withLedger_counter.
    repeat split; try assumption; [set_solver | lia]. }
  assert (Hshape : c' = withLedger l (dedup l c') (counter l c') c).
  { subst c'. rewrite withLedger_dedup, withLedger_counter. reflexivity. }
  assert (Hsub : dedup l c ⊆ dedup l c').
  { subst c'. rewrite withLedger_dedup. apply union_subseteq_l. }
  assert (Hle : counter l c <= counter l c').
  { subst c'. rewrite withLedger_counter. lia. }
  destruct (likeDispatched w); simpl; rewrite Hc;
    (split; [reflexivity |]); (split; [reflexivity |]); (split; [tauto |]).
  - exists c', [EvLike (CastWithAuthor.fid cast) (CastWithAuthor.hash cast) (Some c)].
    repeat split; try assumption. now repeat constructor.
  - exists c', []. repeat split; try assumption; [now rewrite List.app_nil_r | constructor].
Qed.

Lemma respondToMentions_body_laneRun (cast : CastWithAuthor.t) :
  preserves (laneRun MentionLane) (respondToMentions_body cast).
Proof.
  intros env w. destruct (localConfig w) as [c|] eqn:Hc.
  - rewrite (respondToMentions_body_run cast env w c Hc). cbv zeta.
    case_bool_decide as Hseen; [apply laneRun_refl |].
    destruct (Z.geb_spec (Config.dailyReplies c) (Config.maxDailyReplies c)); [apply laneRun_refl |].
    destruct (_ =? _); [apply laneRun_refl |].
    destruct (tooOld _ _ _).
    + apply apiFrame_laneRun. unfold apiFrame. simpl. tauto.
    + apply (committed_laneRun MentionLane cast c w Hc); [exact Hseen | simpl; lia].
  - rewrite (respondToMentions_body_null cast env w Hc). apply laneRun_refl.
Qed.

Lemma scanChannelsForCasts_body_laneRun (cast : CastWithAuthor.t) :
  preserves (laneRun ChannelLane) (scanChannelsForCasts_body cast).
Proof.
  intros env w. destruct (localConfig w) as [c|] eqn:Hc.
  - rewrite (scanChannelsForCasts_body_run cast env w c Hc). cbv zeta.
    destruct (Z.geb_spec (Config.dailyLikes c) (Config.maxDailyLikes c)); [apply laneRun_refl |].
    destruct (_ =? _); [apply laneRun_refl |].
    case_bool_decide as Hseen; [apply laneRun_refl |].
    destruct (tooOld _ _ _); [apply apiFrame_laneRun; unfold apiFrame; simpl; tauto |].
    destruct (evaluateRelevance _);
      try (apply (committed_laneRun ChannelLane cast c w Hc); [exact Hseen | simpl; lia]).
    apply apiFrame_laneRun. unfold apiFrame. simpl. tauto.
  - rewrite (scanChannelsForCasts_body_null cast env w Hc). apply laneRun_refl.
Qed.

(** ** Items that are too old, over a whole loop *)



Section StaleInLane.

Variable l : Lane.
Variable body : CastWithAuthor.t -> M LoopCtl.
Variable env : Env.

(** What a turn of the loop can do: nothing, read the clock, or like and
    reserve an item that is not too old. *)
Hypothesis body_cases :
  forall cast w c,
    localConfig w = Some c ->
    snd (body cast env w) = w
    \/ snd (body cast env w) = set_ticks (S (ticks w)) w
    \/ (snd (body cast env w) = committed l cast c w
        /\ ~ exceedsMaxAge (env_now env (ticks w)) cast c).





End StaleInLane.




Ltac lane_frame l := frame_with (laneRun l) (laneRun_refl l) (laneRun_trans l).

Lemma forOf_laneRun {A : Type} (l : Lane) (body : A -> M LoopCtl) (xs : list A) :
  (forall x, preserves (laneRun l) (body x)) -> preserves (laneRun l) (forOf body xs).
Proof. apply preserves_forOf; [apply laneRun_refl | apply laneRun_trans]. Qed.

Lemma getMentions_laneRun (l : Lane) (fid limit : Z) :
  preserves (laneRun l) (getMentions fid limit).
Proof.
  apply (preserves_weaken apiFrame); [apply apiFrame_laneRun | apply getMentions_apiFrame].
Qed.

Lemma getChannelCasts_laneRun (l : Lane) (url : string) (limit : Z) :
  preserves (laneRun l) (getChannelCasts url limit).
Proof.
  apply (preserves_weaken apiFrame); [apply apiFrame_laneRun | apply getChannelCasts_apiFrame].
Qed.

Lemma ask_laneRun {A : Type} (l : Lane) (oracle : Env -> nat -> A) :
  preserves (laneRun l) (ask oracle).
Proof. intros env w. apply apiFrame_laneRun. unfold apiFrame. simpl. tauto. Qed.

Lemma mentionsLoop_laneRun (casts : list CastWithAuthor.t) :
  preserves (laneRun MentionLane) (forOf respondToMentions_body casts).
Proof. apply forOf_laneRun, respondToMentions_body_laneRun. Qed.

Lemma channelLoop_laneRun (casts : list CastWithAuthor.t) :
  preserves (laneRun ChannelLane) (forOf scanChannelsForCasts_body casts).
Proof. apply forOf_laneRun, scanChannelsForCasts_body_laneRun. Qed.

#[local] Hint Resolve getMentions_laneRun getChannelCasts_laneRun ask_laneRun
  mentionsLoop_laneRun channelLoop_laneRun : frame.

Lemma respondToMentions_laneRun : preserves (laneRun MentionLane) respondToMentions.
Proof. unfold respondToMentions. lane_frame MentionLane. Qed.

Lemma scanChannelsForCasts_laneRun : preserves (laneRun ChannelLane) scanChannelsForCasts.
Proof. unfold scanChannelsForCasts. lane_frame ChannelLane. Qed.

Lemma reserve_run (l : Lane) (hash : string) (env : Env) (v : World) (cv : Config.t) :
  localConfig v = Some cv ->
  reserve l hash env v
  = (Normal tt,
     set_localConfig (Some (withLedger l (dedup l cv ∪ {[hash]}) (counter l cv + 1) cv)) v).
Proof.
  intros Hv. destruct l; unfold reserve, bind, updateConfig; rewrite Hv; reflexivity.
Qed.

Lemma likeCast_call (targetFid : Z) (targetHash : string) (env : Env) (v : World) :
  localConfig (snd (likeCast targetFid targetHash env v)) = localConfig v
  /\ (trace (snd (likeCast targetFid targetHash env v)) = trace v
      \/ trace (snd (likeCast targetFid targetHash env v))
         = trace v ++ [EvLike targetFid targetHash (localConfig v)]).
Proof.
  rewrite likeCast_run. unfold afterLike. destruct (likeDispatched v); simpl; tauto.
Qed.

Lemma call_then_reserve (l : Lane) (fid : Z) (hash : string) (env : Env) (v : World) (c : Config.t) :
  localConfig v = Some c ->
  (likeCast fid hash ;;; reserve l hash ;;; ret Continue) env v
  = (Normal Continue,
     set_localConfig (Some (withLedger l (dedup l c ∪ {[hash]}) (counter l c + 1) c))
       (afterLike fid hash v)).
Proof.
  intros Hv. unfold bind at 1. rewrite likeCast_run. unfold bind at 1.
  rewrite (reserve_run l hash env _ c); [reflexivity |].
  unfold afterLike. destruct (likeDispatched v); exact Hv.
Qed.

Lemma turn_shape (l : Lane) (env : Env) (w : World) (c : Config.t) (cast : CastWithAuthor.t) :
  localConfig w = Some c ->
  (localConfig (snd (turn l cast env w)) = Some c
   /\ trace (snd (turn l cast env w)) = trace w)
  \/ ((CastWithAuthor.hash cast ∉ dedup l c)
      /\ turn l cast env w
         = (likeCast (CastWithAuthor.fid cast) (CastWithAuthor.hash cast) ;;;
            reserve l (CastWithAuthor.hash cast) ;;; ret Continue)
             env (set_ticks (S (ticks w)) w)).
Proof.
  intros Hc. destruct l; cbn [turn dedup].
  - rewrite (call_then_reserve MentionLane _ _ env (set_ticks (S (ticks w)) w) c Hc).
    rewrite (respondToMentions_body_run cast env w c Hc). cbv zeta.
    case_bool_decide as Hseen; [left; now split |].
    destruct (_ >=? _); [left; now split |]. destruct (_ =? _); [left; now split |].
    destruct (tooOld _ _ _); [left; now split |].
    right. split; [exact Hseen | reflexivity].
  - rewrite (call_then_reserve ChannelLane _ _ env (set_ticks (S (ticks w)) w) c Hc).
    rewrite (scanChannelsForCasts_body_run cast env w c Hc). cbv zeta.
    destruct (_ >=? _); [left; now split |]. destruct (_ =? _); [left; now split |].
    case_bool_decide as Hseen; [left; now split |].
    destruct (tooOld _ _ _); [left; now split |].
    destruct (evaluateRelevance _); [right | right | left; now split];
      (split; [exact Hseen | reflexivity]).
Qed.

(** C1, as the code has it: in both lanes the reservation follows the
    dispatch.  Every like a lane submits is dispatched while the item's
    hash is not in the lane's dedup set.  A turn of the loop either leaves
    the configuration and the submitted likes as they are, or it is the
    call of [likeCast], issued on the configuration the turn found, with the
    hash not in the set, followed by the reservation.  The call changes
    nothing in the configuration; the reservation, made once the awaited
    call has returned, adds the hash and increments the counter in the
    configuration as it is by then. *)
Theorem like_reserved_after_dispatch :
  forall (l : Lane) (env : Env) (w : World) (c : Config.t),
    localConfig w = Some c ->
    (exists evs,
       trace (snd (runLane l env w)) = trace w ++ evs
       /\ List.Forall (dispatchedUnreserved l) evs)
    /\ (forall cast,
          (localConfig (snd (turn l cast env w)) = Some c
           /\ trace (snd (turn l cast env w)) = trace w)
          \/ ((CastWithAuthor.hash cast ∉ dedup l c)
              /\ turn l cast env w
                 = (likeCast (CastWithAuthor.fid cast) (CastWithAuthor.hash cast) ;;;
                    reserve l (CastWithAuthor.hash cast) ;;; ret Continue)
                     env (set_ticks (S (ticks w)) w)))
    /\ (forall fid hash env' v,
          localConfig (snd (likeCast fid hash env' v)) = localConfig v
          /\ (trace (snd (likeCast fid hash env' v)) = trace v
              \/ trace (snd (likeCast fid hash env' v))
                 = trace v ++ [EvLike fid hash (localConfig v)]))
    /\ (forall hash env' v cv,
          localConfig v = Some cv ->
          reserve l hash env' v
          = (Normal tt,
             set_localConfig
               (Some (withLedger l (dedup l cv ∪ {[hash]}) (counter l cv + 1) cv)) v)).
Proof.
  intros l env w c Hc. split; [| split; [| split]].
  - assert (Hrun : laneRun l w (snd (runLane l env w))).
    { destruct l; [apply respondToMentions_laneRun | apply scanChannelsForCasts_laneRun]. }
    destruct Hrun as (_ & _ & _ & H). rewrite Hc in H.
    destruct H as (c' & evs & _ & _ & _ & _ & Ht & Hall). exists evs. split; [exact Ht |].
    eapply List.Forall_impl; [| exact Hall].
    intros [f h snap] (atCall & Hsnap & Hnot & _). now exists atCall.
  - intros cast. now apply turn_shape.
  - intros fid hash env' v. apply likeCast_call.
  - intros hash env' v cv. apply reserve_run.
Qed.

(** ** A like that fails still uses up the quota *)

Lemma mentionCandidate_run (env : Env) (w : World) (c : Config.t) (cast : CastWithAuthor.t) :
  mentionCandidate env w c cast ->
  respondToMentions_body cast env w = (Normal Continue, committed MentionLane cast c w).
Proof.
  intros (Hc & Hnew & Hcap & Hself & Hfresh).
  rewrite (respondToMentions_body_run cast env w c Hc). cbv zeta.
  case_bool_decide; [contradiction |].
  destruct (Z.geb_spec (Config.dailyReplies c) (Config.maxDailyReplies c)); [lia |].
  destruct (Z.eqb_spec (CastWithAuthor.fid cast) (Config.fid c)); [contradiction |].
  destruct (tooOld _ _ _) eqn:Hold; [| reflexivity].
  apply tooOld_spec in Hold. contradiction.
Qed.

Lemma committed_reserved (l : Lane) (cast : CastWithAuthor.t) (c : Config.t) (w : World) :
  localConfig w = Some c ->
  exists c',
    localConfig (committed l cast c w) = Some c'
    /\ counter l c' = counter l c + 1
    /\ CastWithAuthor.hash cast ∈ dedup l c'.
Proof.
  intros Hc. eexists. split; [reflexivity |].
  rewrite withLedger_counter, withLedger_dedup. split; [reflexivity |].
  apply elem_of_union_r, elem_of_singleton. reflexivity.
Qed.

Lemma committed_trace (l : Lane) (cast : CastWithAuthor.t) (c : Config.t) (w : World) :
  localConfig w = Some c -> hubClient w = true -> Config.dryRun c = false ->
  trace (committed l cast c w)
  = trace w ++ [EvLike (CastWithAuthor.fid cast) (CastWithAuthor.hash cast) (Some c)].
Proof.
  intros Hc Hh Hd. unfold committed, afterLike, likeDispatched.
  cbn [localConfig hubClient set_ticks]. rewrite Hc, Hh, Hd. reflexivity.
Qed.

(** Once its hash is in the lane's dedup set, an item is passed over. *)
Lemma handled_item_passed_over (env : Env) (w : World) (c : Config.t) (cast : CastWithAuthor.t) :
  localConfig w = Some c ->
  (CastWithAuthor.hash cast ∈ Config.repliedToHashes c ->
     snd (respondToMentions_body cast env w) = w)
  /\ (CastWithAuthor.hash cast ∈ Config.likedHashes c ->
        snd (scanChannelsForCasts_body cast env w) = w).
Proof.
  intros Hc. rewrite (respondToMentions_body_run cast env w c Hc),
                     (scanChannelsForCasts_body_run cast env w c Hc). split; intros Hin.
  - case_bool_decide; [reflexivity | contradiction].
  - destruct (_ >=? _); [reflexivity |]. destruct (_ =? _); [reflexivity |].
    case_bool_decide; [reflexivity | contradiction].
Qed.

(** C9: [likeCast] always ends normally, whatever the hub answers.  So for
    an item a lane goes on to like, the turn of the loop ends with the
    reservation made (counter plus one, hash in the dedup set) whether the
    hub accepted the like or not; in particular when the like left for the
    hub and the hub rejected it.  From then on the item counts as handled:
    a later turn of the loop on an item whose hash is in the dedup set
    leaves the world as it is. *)
Theorem failed_like_still_reserved :
  (forall targetFid targetHash env w, fst (likeCast targetFid targetHash env w) = Normal tt)
  /\ (forall env w c cast,
        localConfig w = Some c ->
        (CastWithAuthor.hash cast ∈ Config.repliedToHashes c ->
           snd (respondToMentions_body cast env w) = w)
        /\ (CastWithAuthor.hash cast ∈ Config.likedHashes c ->
              snd (scanChannelsForCasts_body cast env w) = w))
  /\ (forall env w c cast,
        mentionCandidate env w c cast ->
        let r := respondToMentions_body cast env w in
        fst r = Normal Continue
        /\ replyReservationConsumed (CastWithAuthor.hash cast) w (snd r)
        /\ (likeRejected env w c cast ->
              fst (hubClient_likeCast (CastWithAuthor.fid cast) (CastWithAuthor.hash cast)
                     env (set_ticks (S (ticks w)) w))
              = Throw "hub rejected the message"
              /\ trace (snd r)
                 = trace w ++ [EvLike (CastWithAuthor.fid cast) (CastWithAuthor.hash cast) (Some c)]))
  /\ (forall env w c cast,
        scanCandidate env w c cast ->
        evaluateRelevance (CastWithAuthor.text cast) <> low ->
        let r := scanChannelsForCasts_body cast env w in
        fst r = Normal Continue
        /\ likeReservationConsumed (CastWithAuthor.hash cast) w (snd r)
        /\ (likeRejected env w c cast ->
              fst (hubClient_likeCast (CastWithAuthor.fid cast) (CastWithAuthor.hash cast)
                     env (set_ticks (S (ticks w)) w))
              = Throw "hub rejected the message"
              /\ trace (snd r)
                 = trace w ++ [EvLike (CastWithAuthor.fid cast) (CastWithAuthor.hash cast) (Some c)])).
Proof.
  split; [intros; now rewrite likeCast_run |].
  split; [intros env w c cast Hc; now apply handled_item_passed_over |]. split.
  - intros env w c cast Hcand. pose proof Hcand as (Hc & _).
    rewrite (mentionCandidate_run env w c cast Hcand). cbv zeta. simpl fst. simpl snd.
    split; [reflexivity |]. split.
    + destruct (committed_reserved MentionLane cast c w Hc) as (c' & H1 & H2 & H3).
      now exists c, c'.
    + intros (Hh & Hd & Hrej). split.
      * unfold hubClient_likeCast. simpl. now rewrite Hrej.
      * now apply committed_trace.
  - intros env w c cast Hcand Hrel. pose proof Hcand as (Hc & _).
    rewrite (scanCandidate_run env w c cast Hcand). cbv zeta.
    assert (Hrun : match evaluateRelevance (CastWithAuthor.text cast) with
                   | low => (Normal Continue, set_ticks (S (ticks w)) w)
                   | _ => (Normal Continue,
                           set_localConfig
                             (Some (likeCommitted (CastWithAuthor.hash cast) c))
                             (afterLike (CastWithAuthor.fid cast) (CastWithAuthor.hash cast)
                                (set_ticks (S (ticks w)) w)))
                   end = (Normal Continue, committed ChannelLane cast c w)).
    { destruct (evaluateRelevance (CastWithAuthor.text cast)); try reflexivity. contradiction. }
    rewrite Hrun. simpl fst. simpl snd.
    split; [reflexivity |]. split.
    + destruct (committed_reserved ChannelLane cast c w Hc) as (c' & H1 & H2 & H3).
      now exists c, c'.
    + intros (Hh & Hd & Hrej). split.
      * unfold hubClient_likeCast. simpl. now rewrite Hrej.
      * now apply committed_trace.
Qed.

(** ** The daily reset *)

Lemma resetDailyCountersIfNeeded_run (env : Env) (w : World) (c : Config.t) :
  localConfig w = Some c ->
  resetDailyCountersIfNeeded env w =
    let today := env_today env (ticks w) in
    let w1 := set_ticks (S (ticks w)) w in
    if String.eqb (Config.lastResetDate c) today then (Normal tt, w1)
    else (Normal tt, set_localConfig (Some (resetConfig today c)) w1).
Proof.
  intros Hc. unfold resetDailyCountersIfNeeded, bind, ask, getWorld. simpl. rewrite Hc.
  destruct (String.eqb (Config.lastResetDate c) (env_today env (ticks w))); simpl; [reflexivity |].
  unfold updateConfig. simpl. rewrite Hc. reflexivity.
Qed.

(** C6: the reset happens exactly when the stored day label differs from
    the current date.  It then zeroes the three counters, empties the two
    dedup sets, stores the current date as the label and leaves the rest
    of the configuration alone; otherwise the configuration is unchanged.
    A second call on the same date changes nothing. *)
Theorem daily_reset_spec :
  forall (env : Env) (w : World) (c : Config.t),
    localConfig w = Some c ->
    let today := env_today env (ticks w) in
    let w' := snd (resetDailyCountersIfNeeded env w) in
    (Config.lastResetDate c <> today ->
       exists c',
         localConfig w' = Some c'
         /\ c' = resetConfig today c
         /\ Config.dailyReplies c' = 0 /\ Config.dailyLikes c' = 0 /\ Config.dailyPosts c' = 0
         /\ Config.repliedToHashes c' = ∅ /\ Config.likedHashes c' = ∅
         /\ Config.lastResetDate c' = today)
    /\ (Config.lastResetDate c = today -> localConfig w' = Some c)
    /\ (env_today env (ticks w') = today ->
          localConfig (snd (resetDailyCountersIfNeeded env w')) = localConfig w').
Proof.
  intros env w c Hc today w'. subst w'.
  rewrite (resetDailyCountersIfNeeded_run env w c Hc). cbv zeta. fold today.
  destruct (String.eqb_spec (Config.lastResetDate c) today) as [Heq|Hne]; simpl snd.
  - split; [intros; contradiction |]. split; [intros _; exact Hc |].
    intros Hsame.
    rewrite (resetDailyCountersIfNeeded_run env (set_ticks (S (ticks w)) w) c Hc).
    cbv zeta. rewrite Hsame, Heq, String.eqb_refl. reflexivity.
  - split; [| split; [intros; contradiction |]].
    + intros _. exists (resetConfig today c). now repeat split.
    + intros Hsame.
      rewrite (resetDailyCountersIfNeeded_run env
                 (set_localConfig (Some (resetConfig today c)) (set_ticks (S (ticks w)) w))
                 (resetConfig today c) eq_refl).
      cbv zeta. rewrite Hsame. simpl Config.lastResetDate.
      rewrite String.eqb_refl. reflexivity.
Qed.

(** ** The reply cap *)

(** At the cap, an item not yet in the replied set stops the loop. *)
Lemma respondToMentions_body_at_cap (cast : CastWithAuthor.t) (env : Env) (w : World) (c : Config.t) :
  localConfig w = Some c ->
  CastWithAuthor.hash cast ∉ Config.repliedToHashes c ->
  Config.maxDailyReplies c <= Config.dailyReplies c ->
  respondToMentions_body cast env w = (Normal Break, w).
Proof.
  intros Hc Hnew Hcap. rewrite (respondToMentions_body_run cast env w c Hc).
  case_bool_decide; [contradiction |].
  destruct (Z.geb_spec (Config.dailyReplies c) (Config.maxDailyReplies c)); [reflexivity | lia].
Qed.

(** The mention lane alone: cap 1, counter 0, a batch that starts with two
    new mentions. *)
Lemma respondToMentions_cap_one :
  forall (env : Env) (w w1 : World) (c : Config.t) (m1 m2 : CastWithAuthor.t)
         (rest : list CastWithAuthor.t),
    notReady w = false ->
    hubClient w = true ->
    localConfig w = Some c ->
    Config.dryRun c = false ->
    Config.maxDailyReplies c = 1 ->
    Config.dailyReplies c = 0 ->
    getMentions (Config.fid c) 10 env w = (Normal (m1 :: m2 :: rest), w1) ->
    CastWithAuthor.hash m1 ∉ Config.repliedToHashes c ->
    CastWithAuthor.hash m2 ∉ Config.repliedToHashes c ->
    CastWithAuthor.hash m1 <> CastWithAuthor.hash m2 ->
    CastWithAuthor.fid m1 <> Config.fid c ->
    ~ exceedsMaxAge (env_now env (ticks w1)) m1 c ->
    let w' := snd (respondToMentions env w) in
    fst (respondToMentions env w) = Normal tt
    /\ trace w' = trace w ++ [EvLike (CastWithAuthor.fid m1) (CastWithAuthor.hash m1) (Some c)]
    /\ (exists c', localConfig w' = Some c'
                   /\ Config.dailyReplies c' = 1
                   /\ Config.repliedToHashes c'
                      = Config.repliedToHashes c ∪ {[CastWithAuthor.hash m1]})
    /\ respondToMentions_body m2 env w' = (Normal Break, w').
Proof.
  intros env w w1 c m1 m2 rest Hready Hhub Hc Hdry Hmax Hzero Hget Hn1 Hn2 Hne Hself Hfresh.
  pose proof (getMentions_apiFrame (Config.fid c) 10 env w) as Hframe.
  rewrite Hget in Hframe. destruct Hframe as (Hh1 & Hc1 & _ & Ht1 & _). simpl in Hh1, Hc1, Ht1.
  rewrite Hc in Hc1. rewrite Hhub in Hh1.
  assert (Hcand : mentionCandidate env w1 c m1).
  { repeat split; try assumption. lia. }
  set (w2 := committed MentionLane m1 c w1).
  assert (Hc2 : localConfig w2 = Some (replyCommitted (CastWithAuthor.hash m1) c)) by reflexivity.
  assert (Hbreak : respondToMentions_body m2 env w2 = (Normal Break, w2)).
  { apply (respondToMentions_body_at_cap m2 env w2 _ Hc2); simpl.
    - intros [Hin|Hin]%elem_of_union; [contradiction |].
      apply elem_of_singleton in Hin. congruence.
    - lia. }
  assert (Hrun : respondToMentions env w = (Normal tt, w2)).
  { unfold respondToMentions, bind at 1, getWorld. rewrite Hready.
    unfold tryCatch, bind at 1, readConfig. rewrite Hc.
    unfold bind at 1. rewrite Hget. cbn [forOf].
    unfold bind at 1. rewrite (mentionCandidate_run env w1 c m1 Hcand). fold w2.
    unfold bind at 1. rewrite Hbreak. reflexivity. }
  rewrite Hrun. cbv zeta. simpl fst. simpl snd.
  split; [reflexivity |]. split; [| split; [| exact Hbreak]].
  - subst w2. rewrite (committed_trace MentionLane m1 c w1 Hc1 Hh1 Hdry). now rewrite Ht1.
  - exists (replyCommitted (CastWithAuthor.hash m1) c). split; [exact Hc2 |].
    simpl. split; [lia | reflexivity].
Qed.

Lemma resetDailyCountersIfNeeded_frame (env : Env) (w : World) :
  notReady w = false ->
  fst (resetDailyCountersIfNeeded env w) = Normal tt
  /\ notReady (snd (resetDailyCountersIfNeeded env w)) = false
  /\ hubClient (snd (resetDailyCountersIfNeeded env w)) = hubClient w
  /\ trace (snd (resetDailyCountersIfNeeded env w)) = trace w.
Proof.
  intros Hready. unfold notReady in *.
  destruct (localConfig w) as [c|] eqn:Hc.
  - rewrite (resetDailyCountersIfNeeded_run env w c Hc). cbv zeta.
    destruct (String.eqb _ _); simpl; rewrite ?Hc; repeat split; try exact Hready;
      destruct (hubApiClient w), (agentRuntime w); try discriminate Hready; reflexivity.
  - destruct (hubApiClient w); discriminate Hready.
Qed.

(** The world at the end of a cycle is the world the channel-scan lane
    leaves, started where the mention lane ended. *)
Lemma runInteractionCycle_run (env : Env) (w : World) :
  notReady w = false ->
  fst (respondToMentions env (snd (resetDailyCountersIfNeeded env w))) = Normal tt ->
  runInteractionCycle env w
  = (Normal tt,
     snd (scanChannelsForCasts env
            (snd (respondToMentions env (snd (resetDailyCountersIfNeeded env w)))))).
Proof.
  intros Hready Hm. destruct (resetDailyCountersIfNeeded_frame env w Hready) as (Hr & _).
  unfold runInteractionCycle. rewrite bind_getWorld, Hready.
  unfold tryCatch, bind.
  destruct (resetDailyCountersIfNeeded env w) as [r0 w0].
  simpl in Hr, Hm |- *. subst r0.
  destruct (respondToMentions env w0) as [rm wm]. simpl in Hm |- *. subst rm.
  destruct (scanChannelsForCasts env wm) as [[[]|e] wc]; reflexivity.
Qed.

(** C5: a cycle starts, the reset-if-needed is done, the reply cap is 1
    and no reply is counted yet; the fetched batch starts with two mentions
    by other authors, with different hashes that are not in the replied
    set, the first of them fresh.  Then the mention lane submits exactly
    one like, the one for the first mention, and the reply counter becomes
    1; on the second mention the loop breaks, the counter having met the
    cap, so that whatever follows in the batch is not looked at.  The cycle
    ends normally where the channel-scan lane ends, with the reply counter
    still 1; and when the channel-scan lane submits nothing, that like is
    the only one of the cycle. *)
Theorem reply_cap_one_single_like :
  forall (env : Env) (w w1 : World) (c : Config.t) (m1 m2 : CastWithAuthor.t)
         (rest : list CastWithAuthor.t),
    notReady w = false ->
    hubClient w = true ->
    localConfig (snd (resetDailyCountersIfNeeded env w)) = Some c ->
    Config.dryRun c = false ->
    Config.maxDailyReplies c = 1 ->
    Config.dailyReplies c = 0 ->
    getMentions (Config.fid c) 10 env (snd (resetDailyCountersIfNeeded env w))
    = (Normal (m1 :: m2 :: rest), w1) ->
    CastWithAuthor.hash m1 ∉ Config.repliedToHashes c ->
    CastWithAuthor.hash m2 ∉ Config.repliedToHashes c ->
    CastWithAuthor.hash m1 <> CastWithAuthor.hash m2 ->
    CastWithAuthor.fid m1 <> Config.fid c ->
    ~ exceedsMaxAge (env_now env (ticks w1)) m1 c ->
    let afterMentions := snd (respondToMentions env (snd (resetDailyCountersIfNeeded env w))) in
    let afterCycle := snd (runInteractionCycle env w) in
    trace afterMentions
    = trace w ++ [EvLike (CastWithAuthor.fid m1) (CastWithAuthor.hash m1) (Some c)]
    /\ (exists c', localConfig afterMentions = Some c'
                   /\ Config.dailyReplies c' = 1
                   /\ Config.repliedToHashes c'
                      = Config.repliedToHashes c ∪ {[CastWithAuthor.hash m1]})
    /\ respondToMentions_body m2 env afterMentions = (Normal Break, afterMentions)
    /\ fst (runInteractionCycle env w) = Normal tt
    /\ afterCycle = snd (scanChannelsForCasts env afterMentions)
    /\ (exists c'', localConfig afterCycle = Some c''
                    /\ Config.dailyReplies c'' = 1
                    /\ Config.repliedToHashes c''
                       = Config.repliedToHashes c ∪ {[CastWithAuthor.hash m1]})
    /\ (trace (snd (scanChannelsForCasts env afterMentions)) = trace afterMentions ->
          trace afterCycle
          = trace w ++ [EvLike (CastWithAuthor.fid m1) (CastWithAuthor.hash m1) (Some c)]).
Proof.
  intros env w w1 c m1 m2 rest Hready Hhub Hc Hdry Hmax Hzero Hget Hn1 Hn2 Hne Hself Hfresh.
  destruct (resetDailyCountersIfNeeded_frame env w Hready) as (_ & Hready0 & Hhub0 & Htrace0).
  rewrite Hhub in Hhub0.
  destruct (respondToMentions_cap_one env _ w1 c m1 m2 rest Hready0 Hhub0 Hc Hdry Hmax Hzero Hget
              Hn1 Hn2 Hne Hself Hfresh) as (Hnormal & Htrace & (cm & Hcm & Hone & Hset) & Hbreak).
  pose proof (runInteractionCycle_run env w Hready Hnormal) as Hcycle.
  assert (Hend : snd (runInteractionCycle env w)
                 = snd (scanChannelsForCasts env
                          (snd (respondToMentions env (snd (resetDailyCountersIfNeeded env w))))))
    by now rewrite Hcycle.
  apply (f_equal fst) in Hcycle. cbn [fst] in Hcycle.
  cbv zeta. rewrite Htrace0 in Htrace.
  split; [exact Htrace |]. split; [now exists cm |]. split; [exact Hbreak |].
  split; [exact Hcycle |]. split; [exact Hend |].
  rewrite Hend. split.
  - destruct (scanChannelsForCasts_laneRun env
                (snd (respondToMentions env (snd (resetDailyCountersIfNeeded env w)))))
      as (_ & _ & _ & Hlane).
    rewrite Hcm in Hlane. destruct Hlane as (cc & evs & Hcc & Hshape & _).
    exists cc. split; [exact Hcc |]. rewrite Hshape. simpl. now split.
  - intros Hquiet. now rewrite Hquiet.
Qed.

(** ** The configured keyword list plays no part *)

Section IgnoresKeywords.

Variable kws : list string.

Lemma ignoresKeywords_ret {A : Type} (a : A) : ignoresKeywords kws (ret a).
Proof. intros env w. reflexivity. Qed.

Lemma ignoresKeywords_throw {A : Type} (e : string) : ignoresKeywords kws (@throw A e).
Proof. intros env w. reflexivity. Qed.

Lemma ignoresKeywords_bind {A B : Type} (m : M A) (k : A -> M B) :
  ignoresKeywords kws m -> (forall a, ignoresKeywords kws (k a)) ->
  ignoresKeywords kws (bind m k).
Proof.
  intros Hm Hk env w. unfold bind. rewrite Hm.
  destruct (m env w) as [[a|e] w']; simpl; [apply Hk | reflexivity].
Qed.

Lemma ignoresKeywords_tryCatch {A : Type} (m : M A) (h : string -> M A) :
  ignoresKeywords kws m -> (forall e, ignoresKeywords kws (h e)) ->
  ignoresKeywords kws (tryCatch m h).
Proof.
  intros Hm Hh env w. unfold tryCatch. rewrite Hm.
  destruct (m env w) as [[a|e] w']; simpl; [reflexivity | apply Hh].
Qed.

Lemma ignoresKeywords_forOf {A : Type} (body : A -> M LoopCtl) (xs : list A) :
  (forall x, ignoresKeywords kws (body x)) -> ignoresKeywords kws (forOf body xs).
Proof.
  intros Hb. induction xs as [|x xs IH]; simpl.
  - apply ignoresKeywords_ret.
  - apply ignoresKeywords_bind; [apply Hb |].
    intros [|]; [exact IH | apply ignoresKeywords_ret].
Qed.

Lemma ignoresKeywords_ask {A : Type} (oracle : Env -> nat -> A) :
  ignoresKeywords kws (ask oracle).
Proof. intros env w. reflexivity. Qed.

Lemma ignoresKeywords_readClient : ignoresKeywords kws readClient.
Proof. intros env w. unfold readClient. simpl. now destruct (hubApiClient w). Qed.

Lemma ignoresKeywords_responseJson (r : Wire.Response) :
  ignoresKeywords kws (responseJson r).
Proof. intros env w. unfold responseJson. now destruct (Wire.json r). Qed.

Ltac ignores_step :=
  repeat first
    [ assumption
    | apply ignoresKeywords_ret
    | apply ignoresKeywords_throw
    | apply ignoresKeywords_ask
    | apply ignoresKeywords_readClient
    | apply ignoresKeywords_responseJson
    | apply ignoresKeywords_bind; [| intros ?]
    | apply ignoresKeywords_tryCatch; [| intros ?]
    | match goal with
      | |- ignoresKeywords _ (if ?b then _ else _) => destruct b
      | |- ignoresKeywords _ (match ?o with Some _ => _ | None => _ end) => destruct o
      | |- ignoresKeywords _ (match ?o with Wire.Rejected => _ | Wire.Resolved _ => _ end) =>
          destruct o
      end ].

Lemma ignoresKeywords_fetch (req : Wire.Request) : ignoresKeywords kws (fetch req).
Proof. unfold fetch. ignores_step. Qed.

Lemma ignoresKeywords_userCache_set (fid : Z) (u : HubUser.t) :
  ignoresKeywords kws (userCache_set fid u).
Proof.
  unfold userCache_set. apply ignoresKeywords_bind; [apply ignoresKeywords_readClient |].
  intros client env w. reflexivity.
Qed.

Lemma ignoresKeywords_getUser (fid : Z) : ignoresKeywords kws (getUser fid).
Proof.
  unfold getUser. apply ignoresKeywords_bind; [apply ignoresKeywords_readClient |].
  intros client. destruct (userCache client !! fid); [apply ignoresKeywords_ret |].
  apply ignoresKeywords_tryCatch; [| intros e; apply ignoresKeywords_ret].
  apply ignoresKeywords_bind; [apply ignoresKeywords_fetch |].
  intros r. destruct (negb (Wire.ok r)); [apply ignoresKeywords_ret |].
  apply ignoresKeywords_bind; [apply ignoresKeywords_responseJson |].
  intros data. apply ignoresKeywords_bind; [apply ignoresKeywords_userCache_set |].
  intros _. apply ignoresKeywords_ret.
Qed.

Lemma ignoresKeywords_collectCasts (messages : list Wire.Message) :
  ignoresKeywords kws (collectCasts messages).
Proof.
  induction messages as [|msg rest IH]; simpl; [apply ignoresKeywords_ret |].
  case_bool_decide; [exact IH |].
  apply ignoresKeywords_bind; [apply ignoresKeywords_getUser |].
  intros author. apply ignoresKeywords_bind; [exact IH |].
  intros casts. apply ignoresKeywords_ret.
Qed.

Lemma ignoresKeywords_getChannelCasts (url : string) (limit : Z) :
  ignoresKeywords kws (getChannelCasts url limit).
Proof.
  unfold getChannelCasts.
  apply ignoresKeywords_tryCatch; [| intros e; apply ignoresKeywords_ret].
  apply ignoresKeywords_bind; [apply ignoresKeywords_fetch |].
  intros r. destruct (negb (Wire.ok r)); [apply ignoresKeywords_ret |].
  apply ignoresKeywords_bind; [apply ignoresKeywords_responseJson |].
  intros data. apply ignoresKeywords_collectCasts.
Qed.

Lemma replaceKeywords_notReady (w : World) : notReady (replaceKeywords kws w) = notReady w.
Proof. unfold notReady. simpl. now destruct (localConfig w). Qed.

Lemma ignoresKeywords_scan_body (cast : CastWithAuthor.t) :
  ignoresKeywords kws (scanChannelsForCasts_body cast).
Proof.
  intros env w. destruct (localConfig w) as [c|] eqn:Hc.
  - assert (Hc' : localConfig (replaceKeywords kws w) = Some (Config.set_scanKeywords kws c))
      by (simpl; now rewrite Hc).
    rewrite (scanChannelsForCasts_body_run cast env _ _ Hc'),
            (scanChannelsForCasts_body_run cast env w c Hc).
    cbv zeta. simpl Config.dailyLikes. simpl Config.maxDailyLikes. simpl Config.fid.
    simpl Config.likedHashes. simpl Config.maxCastAge. simpl ticks.
    destruct (_ >=? _); [reflexivity |]. destruct (_ =? _); [reflexivity |].
    case_bool_decide; [reflexivity |]. destruct (tooOld _ _ _); [reflexivity |].
    destruct (evaluateRelevance _); try reflexivity;
      unfold afterLike, likeDispatched; simpl; rewrite Hc; simpl;
      destruct (hubClient w && negb (Config.dryRun c)); simpl;
      unfold replaceKeywords; simpl; rewrite ?Hc, ?map_app; reflexivity.
  - assert (Hc' : localConfig (replaceKeywords kws w) = None) by (simpl; now rewrite Hc).
    rewrite (scanChannelsForCasts_body_null cast env _ Hc'),
            (scanChannelsForCasts_body_null cast env w Hc). reflexivity.
Qed.

Lemma ignoresKeywords_scan : ignoresKeywords kws scanChannelsForCasts.
Proof.
  intros env w. unfold scanChannelsForCasts. rewrite !bind_getWorld.
  rewrite replaceKeywords_notReady. destruct (notReady w); [reflexivity |].
  destruct (localConfig w) as [c|] eqn:Hc.
  - assert (Hc' : localConfig (replaceKeywords kws w) = Some (Config.set_scanKeywords kws c))
      by (simpl; now rewrite Hc).
    rewrite !(bind_readConfig_some _ env w c Hc), (bind_readConfig_some _ env _ _ Hc').
    simpl Config.scanChannels.
    apply ignoresKeywords_bind; [apply ignoresKeywords_ask |].
    intros random. destruct (pickChannel random (Config.scanChannels c));
      [| apply ignoresKeywords_throw].
    apply ignoresKeywords_tryCatch; [| intros e; apply ignoresKeywords_ret].
    apply ignoresKeywords_bind; [apply ignoresKeywords_getChannelCasts |].
    intros casts. apply ignoresKeywords_forOf, ignoresKeywords_scan_body.
  - assert (Hc' : localConfig (replaceKeywords kws w) = None) by (simpl; now rewrite Hc).
    rewrite !(bind_readConfig_none _ env w Hc), (bind_readConfig_none _ env _ Hc'). reflexivity.
Qed.

End IgnoresKeywords.

(** C10: the configured keyword list never reaches the classification.
    [evaluateRelevance] is a function of the text alone, and of the text
    only through the hard-coded high-tier and medium-tier keywords that
    occur in it: two texts in which the same hard-coded keywords occur are
    classified alike.  And in the channel-scan lane, where it is called,
    two worlds that differ only in the configured keyword list make the
    same decisions: one turn of the loop, and the whole lane, end the same
    way, submit the same likes and leave worlds that again differ only in
    the keyword list. *)
Theorem relevance_ignores_scanKeywords :
  (forall t1 t2 : string,
     (forall kw, In kw (highKeywords ++ mediumKeywords) ->
                 Js.includes (Js.toLowerCase t1) kw = Js.includes (Js.toLowerCase t2) kw) ->
     evaluateRelevance t1 = evaluateRelevance t2)
  /\ (forall (env : Env) (w1 w2 : World),
        sameUpToKeywords w1 w2 ->
        (forall cast,
           fst (scanChannelsForCasts_body cast env w1)
           = fst (scanChannelsForCasts_body cast env w2)
           /\ sameUpToKeywords (snd (scanChannelsForCasts_body cast env w1))
                               (snd (scanChannelsForCasts_body cast env w2)))
        /\ fst (scanChannelsForCasts env w1) = fst (scanChannelsForCasts env w2)
        /\ sameUpToKeywords (snd (scanChannelsForCasts env w1))
                            (snd (scanChannelsForCasts env w2))).
Proof.
  split.
  - intros t1 t2 H. unfold evaluateRelevance.
    rewrite (countMatches_ext (Js.toLowerCase t1) (Js.toLowerCase t2) highKeywords),
            (countMatches_ext (Js.toLowerCase t1) (Js.toLowerCase t2) mediumKeywords);
      [reflexivity | |]; intros kw Hin; apply H, List.in_or_app; tauto.
  - intros env w1 w2 Hsame. unfold sameUpToKeywords in *.
    assert (Hgen : forall (A : Type) (m : M A), ignoresKeywords [] m ->
              fst (m env w1) = fst (m env w2)
              /\ replaceKeywords [] (snd (m env w1)) = replaceKeywords [] (snd (m env w2))).
    { intros A m Hm. pose proof (Hm env w1) as H1. pose proof (Hm env w2) as H2.
      rewrite Hsame, H2 in H1.
      pose proof (f_equal fst H1) as Hf. pose proof (f_equal snd H1) as Hs.
      cbn [fst snd] in Hf, Hs. now split. }
    split.
    + intros cast. apply Hgen, ignoresKeywords_scan_body.
    + apply Hgen, ignoresKeywords_scan.
Qed.

(* ====================================================================== *)
(** * The properties on the scenarios *)
(* ====================================================================== *)

Example sample_getMentions :
  getMentions 7 10 sampleEnv (snd (resetDailyCountersIfNeeded sampleEnv sampleWorld))
  = (Normal [mentionNew; mentionOld], fetchedWorld).
Proof. vm_compute. reflexivity. Qed.

Example sample_fetchedWorld :
  ticks fetchedWorld = 4%nat
  /\ localConfig fetchedWorld = Some sampleConfig
  /\ (userCache <$> hubApiClient fetchedWorld)
     = Some {[ 11 := CastWithAuthor.author mentionNew; 12 := CastWithAuthor.author mentionOld ]}.
Proof. vm_compute. repeat split. Qed.

Example sample_cycle :
  let w' := snd (runInteractionCycle sampleEnv sampleWorld) in
  fst (runInteractionCycle sampleEnv sampleWorld) = Normal tt
  /\ map (fun ev => match ev with EvLike f h _ => (f, h) end) (trace w')
     = [(11, "0xaa"); (15, "0xee")]
  /\ (Config.dailyReplies <$> localConfig w') = Some 1
  /\ (Config.dailyLikes <$> localConfig w') = Some 1.
Proof. vm_compute. repeat split. Qed.

(** The sample cycle under the conditions of C5: the reply cap is 1, the
    batch holds two mentions by other accounts, neither replied to nor too
    old.  The mention lane submits one like and the channel-scan lane of
    the same cycle a second one. *)
Lemma reply_cap_one_cycle_two_likes :
  Config.maxDailyReplies sampleConfig = 1
  /\ getMentions 7 10 sampleEnv (snd (resetDailyCountersIfNeeded sampleEnv sampleWorld))
     = (Normal [mentionNew; mentionOld], fetchedWorld)
  /\ List.Forall
       (fun m => (CastWithAuthor.hash m ∉ Config.repliedToHashes sampleConfig)
                 /\ CastWithAuthor.fid m <> Config.fid sampleConfig
                 /\ ~ exceedsMaxAge sampleNow m sampleConfig)
       [mentionNew; mentionOld]
  /\ fst (runInteractionCycle sampleEnv sampleWorld) = Normal tt
  /\ map (fun ev => match ev with EvLike f h _ => (f, h) end)
         (trace (snd (runInteractionCycle sampleEnv sampleWorld)))
     = [(11, "0xaa"); (15, "0xee")]
  /\ length (trace (snd (runInteractionCycle sampleEnv sampleWorld))) <> 1%nat
  /\ (Config.dailyReplies <$> localConfig (snd (runInteractionCycle sampleEnv sampleWorld)))
     = Some 1.
Proof.
  split; [reflexivity |]. split; [vm_compute; reflexivity |].
  split.
  { repeat constructor; try apply not_elem_of_empty; try discriminate;
      vm_compute; discriminate. }
  split; [vm_compute; reflexivity |]. split; [vm_compute; reflexivity |].
  split; [vm_compute; discriminate | vm_compute; reflexivity].
Qed.

Lemma like_reserved_after_dispatch_witness :
  (exists evs,
     trace (snd (respondToMentions sampleEnv sampleWorld)) = trace sampleWorld ++ evs
     /\ List.Forall (dispatchedUnreserved MentionLane) evs)
  /\ turn MentionLane mentionNew sampleEnv fetchedWorld
     = (likeCast 11 "0xaa" ;;; reserve MentionLane "0xaa" ;;; ret Continue)
         sampleEnv (set_ticks (S (ticks fetchedWorld)) fetchedWorld).
Proof.
  assert (Hc : localConfig fetchedWorld = Some sampleConfig) by (vm_compute; reflexivity).
  assert (Hturn : localConfig (snd (turn MentionLane mentionNew sampleEnv fetchedWorld))
                  = Some (replyCommitted "0xaa" sampleConfig)) by (vm_compute; reflexivity).
  destruct (like_reserved_after_dispatch MentionLane sampleEnv sampleWorld sampleConfig eq_refl)
    as (Hlane & _).
  destruct (like_reserved_after_dispatch MentionLane sampleEnv fetchedWorld sampleConfig Hc)
    as (_ & Hshape & _).
  split; [exact Hlane |].
  destruct (Hshape mentionNew) as [[Hsame _]|[_ Heq]]; [| exact Heq].
  rewrite Hturn in Hsame. discriminate Hsame.
Defined.

(** The mention lane of the sample cycle submits the like for "0xaa" while
    "0xaa" is not in the replied set and the reply counter is still 0; the
    channel-scan lane submits the like for "0xee" while "0xee" is not in
    the liked set and the like counter is still 0. *)
Lemma mention_like_not_reserved_before_dispatch :
  (trace (snd (respondToMentions sampleEnv sampleWorld)) = [EvLike 11 "0xaa" (Some sampleConfig)]
   /\ ~ List.Forall (reservedBeforeDispatch MentionLane sampleConfig)
          (trace (snd (respondToMentions sampleEnv sampleWorld))))
  /\ (trace (snd (scanChannelsForCasts sampleEnv sampleWorld))
      = [EvLike 15 "0xee" (Some sampleConfig)]
      /\ ~ List.Forall (reservedBeforeDispatch ChannelLane sampleConfig)
             (trace (snd (scanChannelsForCasts sampleEnv sampleWorld)))).
Proof.
  assert (Hm : trace (snd (respondToMentions sampleEnv sampleWorld))
               = [EvLike 11 "0xaa" (Some sampleConfig)]) by (vm_compute; reflexivity).
  assert (Hs : trace (snd (scanChannelsForCasts sampleEnv sampleWorld))
               = [EvLike 15 "0xee" (Some sampleConfig)]) by (vm_compute; reflexivity).
  split; (split; [assumption |]).
  - rewrite Hm. intros H. inversion H as [|ev evs Hev _]; subst.
    destruct Hev as (atCall & Hsnap & Hin & _). inversion Hsnap; subst atCall.
    simpl in Hin. exact (not_elem_of_empty _ Hin).
  - rewrite Hs. intros H. inversion H as [|ev evs Hev _]; subst.
    destruct Hev as (atCall & Hsnap & Hin & _). inversion Hsnap; subst atCall.
    simpl in Hin. exact (not_elem_of_empty _ Hin).
Qed.


Lemma dullItem_scanCandidate : scanCandidate sampleEnv sampleWorld sampleConfig dullItem.
Proof.
  split; [reflexivity |]. split; [vm_compute; reflexivity |].
  split; [discriminate |]. split; [apply not_elem_of_empty |].
  vm_compute. discriminate.
Defined.

Lemma keenItem_scanCandidate : scanCandidate sampleEnv sampleWorld sampleConfig keenItem.
Proof.
  split; [reflexivity |]. split; [vm_compute; reflexivity |].
  split; [discriminate |]. split; [apply not_elem_of_empty |].
  vm_compute. discriminate.
Defined.

Lemma scan_reserves_after_classification_witness :
  (localConfig (snd (scanChannelsForCasts_body dullItem sampleEnv sampleWorld)) = Some sampleConfig
   /\ trace (snd (scanChannelsForCasts_body dullItem sampleEnv sampleWorld)) = trace sampleWorld)
  /\ likeReservationConsumed "0xee" sampleWorld
       (snd (scanChannelsForCasts_body keenItem sampleEnv sampleWorld)).
Proof.
  split.
  - apply (scan_reserves_after_classification sampleEnv sampleWorld sampleConfig dullItem
             dullItem_scanCandidate).
    vm_compute. reflexivity.
  - apply (scan_reserves_after_classification sampleEnv sampleWorld sampleConfig keenItem
             keenItem_scanCandidate).
    vm_compute. discriminate.
Defined.

(** "good morning" is a fresh item by another author, not yet liked, with
    the like cap far away; it is classified "low", and no reservation is
    consumed for it. *)
Lemma low_item_consumes_no_reservation :
  scanCandidate sampleEnv sampleWorld sampleConfig dullItem
  /\ evaluateRelevance (CastWithAuthor.text dullItem) = low
  /\ ~ likeReservationConsumed (CastWithAuthor.hash dullItem) sampleWorld
         (snd (scanChannelsForCasts_body dullItem sampleEnv sampleWorld)).
Proof.
  split; [exact dullItem_scanCandidate |]. split; [vm_compute; reflexivity |].
  rewrite (scanCandidate_run _ _ _ _ dullItem_scanCandidate).
  assert (Hlow : evaluateRelevance (CastWithAuthor.text dullItem) = low) by (vm_compute; reflexivity).
  rewrite Hlow. intros (c & c' & H1 & H2 & H3 & _).
  simpl in H1, H2. inversion H1; subst c. inversion H2; subst c'. discriminate H3.
Qed.

Lemma mentionNew_candidate : mentionCandidate sampleEnv fetchedWorld sampleConfig mentionNew.
Proof.
  split; [reflexivity |]. split; [apply not_elem_of_empty |].
  split; [vm_compute; reflexivity |]. split; [discriminate |].
  vm_compute. discriminate.
Defined.

Lemma reply_cap_one_single_like_witness :
  let afterMentions :=
    snd (respondToMentions quietEnv (snd (resetDailyCountersIfNeeded quietEnv sampleWorld))) in
  let afterCycle := snd (runInteractionCycle quietEnv sampleWorld) in
  trace afterMentions = trace sampleWorld ++ [EvLike 11 "0xaa" (Some sampleConfig)]
  /\ (exists c', localConfig afterMentions = Some c'
                 /\ Config.dailyReplies c' = 1
                 /\ Config.repliedToHashes c' = Config.repliedToHashes sampleConfig ∪ {["0xaa"]})
  /\ respondToMentions_body mentionOld quietEnv afterMentions = (Normal Break, afterMentions)
  /\ fst (runInteractionCycle quietEnv sampleWorld) = Normal tt
  /\ (exists c'', localConfig afterCycle = Some c''
                  /\ Config.dailyReplies c'' = 1
                  /\ Config.repliedToHashes c'' = Config.repliedToHashes sampleConfig ∪ {["0xaa"]})
  /\ trace afterCycle = trace sampleWorld ++ [EvLike 11 "0xaa" (Some sampleConfig)].
Proof.
  destruct (reply_cap_one_single_like quietEnv sampleWorld fetchedWorld sampleConfig
              mentionNew mentionOld [])
    as (H1 & H2 & H3 & H4 & _ & H6 & H7).
  - reflexivity.
  - reflexivity.
  - reflexivity.
  - reflexivity.
  - reflexivity.
  - reflexivity.
  - vm_compute. reflexivity.
  - apply not_elem_of_empty.
  - apply not_elem_of_empty.
  - discriminate.
  - discriminate.
  - vm_compute. discriminate.
  - cbv zeta. split; [exact H1 |]. split; [exact H2 |]. split; [exact H3 |].
    split; [exact H4 |]. split; [exact H6 |]. apply H7. vm_compute. reflexivity.
Defined.

Lemma daily_reset_spec_witness :
  let w' := snd (resetDailyCountersIfNeeded sampleEnv yesterdayWorld) in
  (exists c',
     localConfig w' = Some c'
     /\ Config.dailyReplies c' = 0 /\ Config.dailyLikes c' = 0 /\ Config.dailyPosts c' = 0
     /\ Config.repliedToHashes c' = ∅ /\ Config.likedHashes c' = ∅
     /\ Config.lastResetDate c' = "Sun Nov 01 2026")
  /\ localConfig (snd (resetDailyCountersIfNeeded sampleEnv w')) = localConfig w'
  /\ localConfig (snd (resetDailyCountersIfNeeded sampleEnv sampleWorld)) = Some sampleConfig.
Proof.
  cbv zeta.
  destruct (daily_reset_spec sampleEnv yesterdayWorld _ eq_refl) as (Hreset & _ & Hagain).
  destruct (daily_reset_spec sampleEnv sampleWorld _ eq_refl) as (_ & Hsame & _).
  split; [| split].
  - destruct Hreset as (c' & H1 & _ & H2); [vm_compute; discriminate |].
    exists c'. split; [exact H1 | exact H2].
  - apply Hagain. reflexivity.
  - apply Hsame. reflexivity.
Defined.

Lemma evaluateRelevance_spec_witness :
  Utf16.evaluateRelevance Utf16.toLowerCaseLatin
    (Utf16.ofString "Web3 airdrop: vote on the treasury proposal") = high
  /\ Utf16.evaluateRelevance Utf16.toLowerCaseLatin
       (Utf16.ofString "Vote on the Treasury proposal") = medium
  /\ Utf16.evaluateRelevance Utf16.toLowerCaseLatin (Utf16.ofString "a community call") = low
  /\ Utf16.evaluateRelevance Utf16.toLowerCaseLatin [] = low
  /\ Utf16.evaluateRelevance Utf16.toLowerCaseLatin kelvinText = high
  /\ Utf16.evaluateRelevance Utf16.toLowerCaseLatin dottedText = high.
Proof.
  assert (Hnone : forall text,
            (Utf16.countMatches (Utf16.toLowerCaseLatin text) highKeywords <? 1) = true ->
            ~ Utf16.highOccurs Utf16.toLowerCaseLatin text).
  { intros text Hlt Hocc. apply utf16_one_match in Hocc. apply Z.ltb_lt in Hlt. lia. }
  assert (Hfew : forall text,
            (Utf16.countMatches (Utf16.toLowerCaseLatin text) mediumKeywords <? 2) = true ->
            ~ Utf16.twoMediumOccur Utf16.toLowerCaseLatin text).
  { intros text Hlt Hocc. apply (utf16_two_matches _ _ mediumKeywords_NoDup) in Hocc.
    apply Z.ltb_lt in Hlt. lia. }
  assert (Hsome : forall text kw,
            In kw highKeywords ->
            Utf16.includes (Utf16.toLowerCaseLatin text) (Utf16.ofString kw) = true ->
            Utf16.highOccurs Utf16.toLowerCaseLatin text).
  { intros text kw Hin Hinc. exists kw. split; [exact Hin | now apply utf16_includes_spec]. }
  split; [| split; [| split; [| split; [| split]]]].
  - destruct (evaluateRelevance_spec Utf16.toLowerCaseLatin
                (Utf16.ofString "Web3 airdrop: vote on the treasury proposal")) as (Hhigh & _).
    apply Hhigh, (Hsome _ "web3"); [simpl; tauto | vm_compute; reflexivity].
  - destruct (evaluateRelevance_spec Utf16.toLowerCaseLatin
                (Utf16.ofString "Vote on the Treasury proposal")) as (_ & Hmedium & _).
    apply Hmedium.
    + apply Hnone. vm_compute. reflexivity.
    + exists "vote", "treasury". split; [simpl; tauto |]. split; [simpl; tauto |].
      split; [discriminate |].
      split; apply utf16_includes_spec; vm_compute; reflexivity.
  - destruct (evaluateRelevance_spec Utf16.toLowerCaseLatin (Utf16.ofString "a community call"))
      as (_ & _ & Hlow & _).
    apply Hlow; [apply Hnone | apply Hfew]; vm_compute; reflexivity.
  - destruct (evaluateRelevance_spec Utf16.toLowerCaseLatin []) as (_ & _ & _ & Hempty & _).
    apply Hempty. reflexivity.
  - destruct (evaluateRelevance_spec Utf16.toLowerCaseLatin kelvinText) as (Hhigh & _).
    apply Hhigh, (Hsome _ "blockchain"); [simpl; tauto | vm_compute; reflexivity].
  - destruct (evaluateRelevance_spec Utf16.toLowerCaseLatin dottedText) as (Hhigh & _).
    apply Hhigh, (Hsome _ "defi"); [simpl; tauto | vm_compute; reflexivity].
Defined.

Lemma getMentions_sorted_bounded_witness :
  (exists casts,
     fst (getMentions 7 10 sampleEnv sampleWorld) = Normal casts
     /\ StronglySorted (desc CastWithAuthor.timestamp) casts
     /\ Z.of_nat (length casts) <= 10)
  /\ fst (getMentions 7 10 downEnv sampleWorld) = Normal [].
Proof.
  split.
  - destruct (getMentions_sorted_bounded 7 10 sampleEnv sampleWorld) as (casts & H1 & H2 & H3 & _).
    exists casts. split; [exact H1 |]. split; [exact H2 | apply H3; lia].
  - destruct (getMentions_sorted_bounded 7 10 downEnv sampleWorld) as (casts & H1 & _ & _ & H4).
    rewrite H1. f_equal. apply H4. exact I.
Defined.

(** With a limit of -1, [slice(0, -1)] drops the last of the two mentions
    and keeps one: more than the limit. *)
Lemma getMentions_negative_limit :
  exists casts,
    fst (getMentions 7 (-1) sampleEnv sampleWorld) = Normal casts
    /\ casts = [mentionNew]
    /\ ~ Z.of_nat (length casts) <= -1.
Proof.
  exists [mentionNew]. split; [vm_compute; reflexivity |]. split; [reflexivity |].
  simpl. lia.
Qed.

Lemma failed_like_still_reserved_witness :
  let afterTurn := snd (respondToMentions_body mentionNew sampleEnv fetchedWorld) in
  (fst (respondToMentions_body mentionNew sampleEnv fetchedWorld) = Normal Continue
   /\ replyReservationConsumed "0xaa" fetchedWorld afterTurn
   /\ fst (hubClient_likeCast 11 "0xaa" sampleEnv (set_ticks (S (ticks fetchedWorld)) fetchedWorld))
      = Throw "hub rejected the message"
   /\ snd (respondToMentions_body mentionNew sampleEnv afterTurn) = afterTurn)
  /\ (fst (scanChannelsForCasts_body keenItem sampleEnv sampleWorld) = Normal Continue
      /\ likeReservationConsumed "0xee" sampleWorld
           (snd (scanChannelsForCasts_body keenItem sampleEnv sampleWorld))
      /\ fst (hubClient_likeCast 15 "0xee" sampleEnv (set_ticks (S (ticks sampleWorld)) sampleWorld))
         = Throw "hub rejected the message").
Proof.
  destruct failed_like_still_reserved as (_ & Hpassed & Hmention & Hscan). split.
  - destruct (Hmention sampleEnv fetchedWorld sampleConfig mentionNew mentionNew_candidate)
      as (H1 & H2 & H3).
    split; [exact H1 |]. split; [exact H2 |]. split; [apply H3; now repeat split |].
    apply (Hpassed sampleEnv _ (replyCommitted "0xaa" sampleConfig) mentionNew).
    + vm_compute. reflexivity.
    + apply elem_of_union_r, elem_of_singleton. reflexivity.
  - destruct (Hscan sampleEnv sampleWorld sampleConfig keenItem keenItem_scanCandidate)
      as (H1 & H2 & H3); [vm_compute; discriminate |].
    split; [exact H1 |]. split; [exact H2 |]. apply H3. now repeat split.
Defined.

Lemma relevance_ignores_scanKeywords_witness :
  evaluateRelevance "Ethereum rocks" = evaluateRelevance "gm, ETHEREUM people"
  /\ fst (scanChannelsForCasts sampleEnv sampleWorld)
     = fst (scanChannelsForCasts sampleEnv otherKeywordsWorld)
  /\ sameUpToKeywords (snd (scanChannelsForCasts sampleEnv sampleWorld))
                      (snd (scanChannelsForCasts sampleEnv otherKeywordsWorld)).
Proof.
  destruct relevance_ignores_scanKeywords as (Htext & Hlane). split.
  - apply Htext. intros kw Hin. simpl in Hin.
    repeat (destruct Hin as [<-|Hin]; [vm_compute; reflexivity |]). destruct Hin.
  - apply (Hlane sampleEnv sampleWorld otherKeywordsWorld). reflexivity.
Defined.

(* ====================================================================== *)
(** * Further properties *)
(* ====================================================================== *)

(** ** The accounts of a lane *)

Lemma withLedger_static (l : Lane) (s : gset string) (n : Z) (c : Config.t) :
  cap l (withLedger l s n c) = cap l c
  /\ Config.dryRun (withLedger l s n c) = Config.dryRun c
  /\ Config.lastResetDate (withLedger l s n c) = Config.lastResetDate c.
Proof. destruct l; repeat split. Qed.

Lemma auditRun_refl (l : Lane) (w : World) : auditRun l w w.
Proof.
  split; [reflexivity |]. destruct (localConfig w) as [c|] eqn:Hc; [| now split].
  exists c, []. split; [reflexivity |]. split; [apply withLedger_id |].
  split; [now rewrite List.app_nil_r |]. split; [lia |]. split; [lia |].
  split; [destruct (likeDispatched w); simpl; [lia | reflexivity] |].
  split; [reflexivity |]. split; constructor.
Qed.

Lemma likeDispatched_eq (w w' : World) (c c' : Config.t) :
  hubClient w' = hubClient w -> localConfig w = Some c -> localConfig w' = Some c' ->
  Config.dryRun c' = Config.dryRun c -> likeDispatched w' = likeDispatched w.
Proof. intros Hh Hc Hc' Hd. unfold likeDispatched. now rewrite Hc, Hc', Hh, Hd. Qed.

Lemma auditRun_trans (l : Lane) (w1 w2 w3 : World) :
  auditRun l w1 w2 -> auditRun l w2 w3 -> auditRun l w1 w3.
Proof.
  intros (Hh & H12) (Hh' & H23). split; [congruence |].
  destruct (localConfig w1) as [c1|] eqn:Hc1.
  - destruct H12 as (c2 & evs & Hc2 & Hshape & Ht & Hle & Hmax & Hlen & Hsub & Hnd & Hall).
    assert (Hld : likeDispatched w2 = likeDispatched w1).
    { apply (likeDispatched_eq w1 w2 c1 c2 Hh Hc1 Hc2). rewrite Hshape.
      apply withLedger_static. }
    rewrite Hc2, Hld in H23.
    destruct H23 as (c3 & evs' & Hc3 & Hshape' & Ht' & Hle' & Hmax' & Hlen' & Hsub' & Hnd' & Hall').
    assert (Hcap : cap l c2 = cap l c1) by (rewrite Hshape; apply withLedger_static).
    exists c3, (evs ++ evs'). split; [exact Hc3 |].
    split; [rewrite Hshape' at 1; rewrite Hshape; destruct l; reflexivity |].
    split; [rewrite Ht', Ht; now rewrite List.app_assoc |].
    split; [lia |]. split; [lia |].
    split; [destruct (likeDispatched w1);
            [rewrite List.length_app; lia | now rewrite Hlen, Hlen'] |].
    split; [intros x Hx; apply Hsub', Hsub, Hx |].
    rewrite List.Forall_forall in Hall, Hall'.
    split.
    + rewrite List.map_app. apply List.NoDup_app; [exact Hnd | exact Hnd' |].
      intros h Hin Hin'. apply List.in_map_iff in Hin as (ev & <- & Hev).
      apply List.in_map_iff in Hin' as (ev' & Heq & Hev').
      destruct (Hall ev Hev) as (_ & Hin2). destruct (Hall' ev' Hev') as (Hnot2 & _).
      rewrite Heq in Hnot2. contradiction.
    + apply List.Forall_forall. intros ev [Hev|Hev]%List.in_app_or.
      * destruct (Hall ev Hev) as (Hnot & Hin). split; [exact Hnot | apply Hsub', Hin].
      * destruct (Hall' ev Hev) as (Hnot & Hin). split; [| exact Hin].
        intros Hin1. apply Hnot, Hsub, Hin1.
  - destruct H12 as (Hc2 & Ht). rewrite Hc2 in H23. destruct H23 as (Hc3 & Ht').
    split; congruence.
Qed.

Lemma apiFrame_auditRun (l : Lane) (w w' : World) : apiFrame w w' -> auditRun l w w'.
Proof.
  intros (Ha & Hb & _ & Hd & _). split; [exact Ha |]. rewrite Hb.
  destruct (localConfig w) as [c|]; [| now split].
  exists c, []. split; [reflexivity |]. split; [apply withLedger_id |].
  split; [now rewrite List.app_nil_r |]. split; [lia |]. split; [lia |].
  split; [destruct (likeDispatched w); simpl; [lia | reflexivity] |].
  split; [reflexivity |]. split; constructor.
Qed.

Lemma committed_auditRun (l : Lane) (cast : CastWithAuthor.t) (c : Config.t) (w : World) :
  localConfig w = Some c ->
  CastWithAuthor.hash cast ∉ dedup l c ->
  counter l c < cap l c ->
  auditRun l w (committed l cast c w).
Proof.
  intros Hc Hnew Hcap. unfold auditRun, committed, afterLike.
  change (likeDispatched (set_ticks (S (ticks w)) w)) with (likeDispatched w).
  set (c' := withLedger l (dedup l c ∪ {[CastWithAuthor.hash cast]}) (counter l c + 1) c).
  assert (Hd : dedup l c' = dedup l c ∪ {[CastWithAuthor.hash cast]})
    by (subst c'; apply withLedger_dedup).
  assert (Hn : counter l c' = counter l c + 1) by (subst c'; apply withLedger_counter).
  assert (Hshape : c' = withLedger l (dedup l c') (counter l c') c)
    by (rewrite Hd, Hn; reflexivity).
  assert (Hin : CastWithAuthor.hash cast ∈ dedup l c')
    by (rewrite Hd; apply elem_of_union_r, elem_of_singleton; reflexivity).
  assert (Hsub : dedup l c ⊆ dedup l c') by (rewrite Hd; apply union_subseteq_l).
  destruct (likeDispatched w) eqn:Hld; simpl; rewrite Hc; (split; [reflexivity |]).
  - exists c', [EvLike (CastWithAuthor.fid cast) (CastWithAuthor.hash cast) (Some c)].
    split; [reflexivity |]. split; [exact Hshape |]. split; [reflexivity |].
    split; [lia |]. split; [lia |]. split; [simpl; lia |]. split; [exact Hsub |].
    split; [repeat constructor; intros [] |]. repeat constructor; assumption.
  - exists c', []. split; [reflexivity |]. split; [exact Hshape |].
    split; [now rewrite List.app_nil_r |]. split; [lia |]. split; [lia |].
    split; [reflexivity |]. split; [exact Hsub |]. split; constructor.
Qed.

Lemma respondToMentions_body_auditRun (cast : CastWithAuthor.t) :
  preserves (auditRun MentionLane) (respondToMentions_body cast).
Proof.
  intros env w. destruct (localConfig w) as [c|] eqn:Hc.
  - rewrite (respondToMentions_body_run cast env w c Hc). cbv zeta.
    case_bool_decide as Hseen; [apply auditRun_refl |].
    destruct (Z.geb_spec (Config.dailyReplies c) (Config.maxDailyReplies c));
      [apply auditRun_refl |].
    destruct (_ =? _); [apply auditRun_refl |].
    destruct (tooOld _ _ _).
    + apply apiFrame_auditRun. unfold apiFrame. simpl. tauto.
    + apply (committed_auditRun MentionLane cast c w Hc); [exact Hseen | simpl; lia].
  - rewrite (respondToMentions_body_null cast env w Hc). apply auditRun_refl.
Qed.

Lemma scanChannelsForCasts_body_auditRun (cast : CastWithAuthor.t) :
  preserves (auditRun ChannelLane) (scanChannelsForCasts_body cast).
Proof.
  intros env w. destruct (localConfig w) as [c|] eqn:Hc.
  - rewrite (scanChannelsForCasts_body_run cast env w c Hc). cbv zeta.
    destruct (Z.geb_spec (Config.dailyLikes c) (Config.maxDailyLikes c));
      [apply auditRun_refl |].
    destruct (_ =? _); [apply auditRun_refl |].
    case_bool_decide as Hseen; [apply auditRun_refl |].
    destruct (tooOld _ _ _); [apply apiFrame_auditRun; unfold apiFrame; simpl; tauto |].
    destruct (evaluateRelevance _);
      try (apply (committed_auditRun ChannelLane cast c w Hc); [exact Hseen | simpl; lia]).
    apply apiFrame_auditRun. unfold apiFrame. simpl. tauto.
  - rewrite (scanChannelsForCasts_body_null cast env w Hc). apply auditRun_refl.
Qed.

Lemma getMentions_auditRun (l : Lane) (fid limit : Z) :
  preserves (auditRun l) (getMentions fid limit).
Proof.
  apply (preserves_weaken apiFrame); [apply apiFrame_auditRun | apply getMentions_apiFrame].
Qed.

Lemma getChannelCasts_auditRun (l : Lane) (url : string) (limit : Z) :
  preserves (auditRun l) (getChannelCasts url limit).
Proof.
  apply (preserves_weaken apiFrame); [apply apiFrame_auditRun | apply getChannelCasts_apiFrame].
Qed.

Lemma ask_auditRun {A : Type} (l : Lane) (oracle : Env -> nat -> A) :
  preserves (auditRun l) (ask oracle).
Proof. intros env w. apply apiFrame_auditRun. unfold apiFrame. simpl. tauto. Qed.

Lemma mentionsLoop_auditRun (casts : list CastWithAuthor.t) :
  preserves (auditRun MentionLane) (forOf respondToMentions_body casts).
Proof.
  apply preserves_forOf;
    [apply auditRun_refl | apply auditRun_trans | apply respondToMentions_body_auditRun].
Qed.

Lemma channelLoop_auditRun (casts : list CastWithAuthor.t) :
  preserves (auditRun ChannelLane) (forOf scanChannelsForCasts_body casts).
Proof.
  apply preserves_forOf;
    [apply auditRun_refl | apply auditRun_trans | apply scanChannelsForCasts_body_auditRun].
Qed.

#[local] Hint Resolve getMentions_auditRun getChannelCasts_auditRun ask_auditRun
  mentionsLoop_auditRun channelLoop_auditRun : frame.

Ltac audit_frame l := frame_with (auditRun l) (auditRun_refl l) (auditRun_trans l).

Lemma respondToMentions_auditRun : preserves (auditRun MentionLane) respondToMentions.
Proof. unfold respondToMentions. audit_frame MentionLane. Qed.

Lemma scanChannelsForCasts_auditRun : preserves (auditRun ChannelLane) scanChannelsForCasts.
Proof. unfold scanChannelsForCasts. audit_frame ChannelLane. Qed.

Lemma runLane_auditRun (l : Lane) : preserves (auditRun l) (runLane l).
Proof. destruct l; [apply respondToMentions_auditRun | apply scanChannelsForCasts_auditRun]. Qed.

Lemma auditRun_likeDispatched (l : Lane) (w w' : World) :
  auditRun l w w' -> likeDispatched w' = likeDispatched w.
Proof.
  intros (Hh & H). destruct (localConfig w) as [c|] eqn:Hc.
  - destruct H as (c' & evs & Hc' & Hshape & _).
    apply (likeDispatched_eq w w' c c' Hh Hc Hc'). rewrite Hshape. apply withLedger_static.
  - destruct H as (Hc' & _). unfold likeDispatched. now rewrite Hc, Hc'.
Qed.

(** X1: a lane keeps to its daily cap, in a run of the lane from start to
    end (no other callback of the module runs while the lane is suspended
    at an [await]) and with a cap that is a number.  Started with its
    counter at or below the cap, a run of the mention lane or of the channel-scan lane
    leaves the counter between its old value and the cap, leaves the cap
    as it is, and submits at most as many likes as the cap had room for;
    started at or above the cap it counts nothing and submits nothing. *)
Theorem lane_respects_cap :
  forall (l : Lane) (env : Env) (w : World) (c : Config.t),
    localConfig w = Some c ->
    exists (c' : Config.t) (evs : list Event),
      localConfig (snd (runLane l env w)) = Some c'
      /\ trace (snd (runLane l env w)) = trace w ++ evs
      /\ cap l c' = cap l c
      /\ (counter l c <= cap l c ->
            counter l c <= counter l c' <= cap l c
            /\ Z.of_nat (length evs) <= cap l c - counter l c)
      /\ (cap l c <= counter l c -> counter l c' = counter l c /\ evs = []).
Proof.
  intros l env w c Hc. destruct (runLane_auditRun l env w) as (_ & H). rewrite Hc in H.
  destruct H as (c' & evs & Hc' & Hshape & Ht & Hle & Hmax & Hlen & _).
  exists c', evs. split; [exact Hc' |]. split; [exact Ht |].
  split; [rewrite Hshape; apply withLedger_static |].
  assert (Hlen' : Z.of_nat (length evs) <= counter l c' - counter l c).
  { destruct (likeDispatched w); [lia | subst evs; simpl; lia]. }
  split.
  - intros Hroom. split; lia.
  - intros Hfull. assert (Heq : counter l c' = counter l c) by lia. split; [exact Heq |].
    destruct evs; [reflexivity | simpl in Hlen'; lia].
Qed.

Lemma lane_respects_cap_witness :
  exists (c' : Config.t) (evs : list Event),
    localConfig (snd (respondToMentions sampleEnv sampleWorld)) = Some c'
    /\ trace (snd (respondToMentions sampleEnv sampleWorld)) = trace sampleWorld ++ evs
    /\ Config.dailyReplies c' <= 1
    /\ Z.of_nat (length evs) <= 1.
Proof.
  destruct (lane_respects_cap MentionLane sampleEnv sampleWorld sampleConfig eq_refl)
    as (c' & evs & H1 & H2 & _ & H4 & _).
  exists c', evs. split; [exact H1 |]. split; [exact H2 |].
  destruct H4 as (H4 & H5); [simpl; lia |]. simpl in H4, H5. split; lia.
Defined.

(** X2: the likes of a lane are accounted for.  In a run of a lane from
    start to end (no other callback of the module runs while the lane is
    suspended at an [await]) the likes submitted are for pairwise different hashes, none of which was in
    the lane's dedup set at the start and all of which are in it at the
    end; when the hub client is there and the run is not a dry run there
    is exactly one like per slot counted, and otherwise no like at all. *)
Theorem lane_likes_accounted :
  forall (l : Lane) (env : Env) (w : World) (c : Config.t),
    localConfig w = Some c ->
    exists (c' : Config.t) (evs : list Event),
      localConfig (snd (runLane l env w)) = Some c'
      /\ trace (snd (runLane l env w)) = trace w ++ evs
      /\ List.NoDup (map eventHash evs)
      /\ (forall ev, In ev evs -> (eventHash ev ∉ dedup l c) /\ eventHash ev ∈ dedup l c')
      /\ dedup l c ⊆ dedup l c'
      /\ (hubClient w = true -> Config.dryRun c = false ->
            Z.of_nat (length evs) = counter l c' - counter l c)
      /\ (hubClient w = false \/ Config.dryRun c = true -> evs = []).
Proof.
  intros l env w c Hc. destruct (runLane_auditRun l env w) as (_ & H). rewrite Hc in H.
  destruct H as (c' & evs & Hc' & _ & Ht & _ & _ & Hlen & Hsub & Hnd & Hall).
  exists c', evs. split; [exact Hc' |]. split; [exact Ht |]. split; [exact Hnd |].
  split; [apply List.Forall_forall, Hall |]. split; [exact Hsub |].
  unfold likeDispatched in Hlen. rewrite Hc in Hlen. split.
  - intros Hh Hd. now rewrite Hh, Hd in Hlen.
  - intros [Hh|Hd]; [now rewrite Hh in Hlen |].
    rewrite Hd in Hlen. now destruct (hubClient w).
Qed.

Lemma lane_likes_accounted_witness :
  exists (c' : Config.t) (evs : list Event),
    localConfig (snd (scanChannelsForCasts sampleEnv sampleWorld)) = Some c'
    /\ trace (snd (scanChannelsForCasts sampleEnv sampleWorld)) = trace sampleWorld ++ evs
    /\ List.NoDup (map eventHash evs)
    /\ Z.of_nat (length evs) = Config.dailyLikes c' - 0.
Proof.
  destruct (lane_likes_accounted ChannelLane sampleEnv sampleWorld sampleConfig eq_refl)
    as (c' & evs & H1 & H2 & H3 & _ & _ & H6 & _).
  exists c', evs. split; [exact H1 |]. split; [exact H2 |]. split; [exact H3 |].
  apply H6; reflexivity.
Defined.

(** X3: a lane writes to its own ledger only.  The mention lane changes
    nothing in the configuration but the replied set and the reply counter
    (the likes it submits are not counted as likes), and the channel-scan
    lane nothing but the liked set and the like counter. *)
Theorem lane_touches_only_its_ledger :
  forall (env : Env) (w : World) (c : Config.t),
    localConfig w = Some c ->
    (exists c',
       localConfig (snd (respondToMentions env w)) = Some c'
       /\ c' = Config.set_dailyReplies (Config.dailyReplies c')
                 (Config.set_repliedToHashes (Config.repliedToHashes c') c))
    /\ (exists c',
          localConfig (snd (scanChannelsForCasts env w)) = Some c'
          /\ c' = Config.set_dailyLikes (Config.dailyLikes c')
                    (Config.set_likedHashes (Config.likedHashes c') c)).
Proof.
  intros env w c Hc. split.
  - destruct (respondToMentions_auditRun env w) as (_ & H). rewrite Hc in H.
    destruct H as (c' & evs & Hc' & Hshape & _). now exists c'.
  - destruct (scanChannelsForCasts_auditRun env w) as (_ & H). rewrite Hc in H.
    destruct H as (c' & evs & Hc' & Hshape & _). now exists c'.
Qed.

Lemma lane_touches_only_its_ledger_witness :
  (exists c',
     localConfig (snd (respondToMentions sampleEnv sampleWorld)) = Some c'
     /\ Config.dailyLikes c' = 0 /\ Config.likedHashes c' = ∅ /\ Config.dailyReplies c' = 1)
  /\ (exists c',
        localConfig (snd (scanChannelsForCasts sampleEnv sampleWorld)) = Some c'
        /\ Config.dailyReplies c' = 0 /\ Config.repliedToHashes c' = ∅
        /\ Config.dailyLikes c' = 1).
Proof.
  destruct (lane_touches_only_its_ledger sampleEnv sampleWorld sampleConfig eq_refl)
    as ((c1 & H1 & E1) & (c2 & H2 & E2)).
  split.
  - exists c1. split; [exact H1 |]. rewrite E1. simpl. split; [reflexivity |].
    split; [reflexivity |].
    assert (Hv : localConfig (snd (respondToMentions sampleEnv sampleWorld))
                 = Some (replyCommitted "0xaa" sampleConfig)) by (vm_compute; reflexivity).
    rewrite Hv in H1. now inversion H1.
  - exists c2. split; [exact H2 |]. rewrite E2. simpl. split; [reflexivity |].
    split; [reflexivity |].
    assert (Hv : localConfig (snd (scanChannelsForCasts sampleEnv sampleWorld))
                 = Some (likeCommitted "0xee" sampleConfig)) by (vm_compute; reflexivity).
    rewrite Hv in H2. now inversion H2.
Defined.

(** ** A whole cycle *)

Lemma resetDailyCountersIfNeeded_normal (env : Env) (w : World) :
  fst (resetDailyCountersIfNeeded env w) = Normal tt.
Proof.
  destruct (localConfig w) as [c|] eqn:Hc.
  - rewrite (resetDailyCountersIfNeeded_run env w c Hc). cbv zeta.
    now destruct (String.eqb _ _).
  - unfold resetDailyCountersIfNeeded, bind, ask, getWorld. simpl. now rewrite Hc.
Qed.

(** The reset keeps the collaborators and the submitted likes, and leaves
    a configuration that differs from the old one in the ledger only and
    carries today's label. *)
Lemma resetDailyCountersIfNeeded_cases (env : Env) (w : World) (c : Config.t) :
  localConfig w = Some c ->
  hubClient (afterReset env w) = hubClient w
  /\ trace (afterReset env w) = trace w
  /\ notReady (afterReset env w) = notReady w
  /\ exists c0,
       localConfig (afterReset env w) = Some c0
       /\ (c0 = c \/ c0 = resetConfig (env_today env (ticks w)) c)
       /\ Config.lastResetDate c0 = env_today env (ticks w).
Proof.
  intros Hc. unfold afterReset. rewrite (resetDailyCountersIfNeeded_run env w c Hc). cbv zeta.
  destruct (String.eqb_spec (Config.lastResetDate c) (env_today env (ticks w))) as [Heq|Hne];
    cbn [snd].
  - split; [reflexivity |]. split; [reflexivity |]. split; [reflexivity |].
    exists c. split; [exact Hc |]. split; [now left | exact Heq].
  - split; [reflexivity |]. split; [reflexivity |].
    split; [unfold notReady; simpl; now rewrite Hc |].
    eexists. split; [reflexivity |]. split; [now right | reflexivity].
Qed.

Lemma respondToMentions_normal (env : Env) (w : World) :
  fst (respondToMentions env w) = Normal tt.
Proof.
  unfold respondToMentions. rewrite bind_getWorld. destruct (notReady w); [reflexivity |].
  unfold tryCatch.
  destruct ((c <- readConfig ;; mentions <- getMentions (Config.fid c) 10 ;;
             forOf respondToMentions_body mentions) env w) as [[[]|e] w']; reflexivity.
Qed.

(** The cycle, when the module is ready: reset, mention lane, channel-scan
    lane, and whatever the channel-scan lane raises is caught. *)
Lemma runInteractionCycle_split (env : Env) (w : World) :
  notReady w = false ->
  runInteractionCycle env w
  = (Normal tt, snd (scanChannelsForCasts env (afterMentionLane env w))).
Proof.
  intros Hready. apply (runInteractionCycle_run env w Hready), respondToMentions_normal.
Qed.

(** X4: no error leaves a cycle.  [runInteractionCycle] always ends
    normally, and so do [respondToMentions] and [generateAndPost]; the one
    error [scanChannelsForCasts] can raise past its own [try], the
    [TypeError] of an undefined channel when the channel list is empty, is
    caught by the cycle. *)
Theorem cycle_never_throws :
  forall (env : Env) (w : World),
    fst (runInteractionCycle env w) = Normal tt
    /\ fst (respondToMentions env w) = Normal tt
    /\ fst (generateAndPost env w) = Normal tt
    /\ (forall c, notReady w = false -> localConfig w = Some c -> Config.scanChannels c = [] ->
          fst (scanChannelsForCasts env w) = Throw "TypeError").
Proof.
  intros env w. split; [| split; [apply respondToMentions_normal | split]].
  - destruct (notReady w) eqn:Hready.
    + unfold runInteractionCycle. rewrite bind_getWorld, Hready. reflexivity.
    + now rewrite (runInteractionCycle_split env w Hready).
  - unfold generateAndPost. rewrite bind_getWorld.
    destruct (negb (agentRuntime w) || negb (bool_decide (is_Some (localConfig w)))
              || negb (hubClient w)) eqn:Hg; [reflexivity |].
    destruct (localConfig w) as [c|] eqn:Hc;
      [| rewrite orb_true_r in Hg; discriminate Hg].
    unfold bind at 1. pose proof (resetDailyCountersIfNeeded_normal env w) as Hn.
    destruct (resetDailyCountersIfNeeded_cases env w c Hc) as (_ & _ & _ & c0 & Hc0 & _).
    unfold afterReset in Hc0.
    destruct (resetDailyCountersIfNeeded env w) as [r0 w0]. simpl in Hn, Hc0. subst r0.
    rewrite (bind_readConfig_some _ env w0 c0 Hc0). now destruct (_ >=? _).
  - intros c Hready Hc Hnil. unfold scanChannelsForCasts. rewrite bind_getWorld, Hready.
    rewrite (bind_readConfig_some _ env w c Hc). unfold bind, ask. cbv beta.
    rewrite Hnil. unfold pickChannel.
    assert (Hz : Qfloor (env_random env (ticks w) * inject_Z (Z.of_nat (@length string [])))
                 = 0).
    { unfold Qfloor, Qmult, inject_Z. simpl. rewrite Z.mul_0_r. apply Z.div_0_l.
      discriminate. }
    cbv zeta. rewrite Hz. reflexivity.
Qed.

Lemma cycle_never_throws_witness :
  fst (scanChannelsForCasts sampleEnv noChannelWorld) = Throw "TypeError"
  /\ fst (runInteractionCycle sampleEnv noChannelWorld) = Normal tt.
Proof.
  destruct (cycle_never_throws sampleEnv noChannelWorld) as (Hcycle & _ & _ & Hscan).
  split; [| exact Hcycle].
  eapply Hscan; reflexivity.
Defined.

Lemma resetConfig_static (today : string) (c : Config.t) :
  Config.dryRun (resetConfig today c) = Config.dryRun c
  /\ Config.maxDailyReplies (resetConfig today c) = Config.maxDailyReplies c
  /\ Config.maxDailyLikes (resetConfig today c) = Config.maxDailyLikes c.
Proof. repeat split. Qed.

(** The world after a cycle, through its three steps. *)
Lemma runInteractionCycle_steps (env : Env) (w : World) (c : Config.t) :
  notReady w = false -> localConfig w = Some c ->
  exists c0 cm cc evsM evsC,
    localConfig (afterReset env w) = Some c0
    /\ (c0 = c \/ c0 = resetConfig (env_today env (ticks w)) c)
    /\ Config.lastResetDate c0 = env_today env (ticks w)
    /\ localConfig (afterMentionLane env w) = Some cm
    /\ cm = withLedger MentionLane (dedup MentionLane cm) (counter MentionLane cm) c0
    /\ localConfig (snd (runInteractionCycle env w)) = Some cc
    /\ cc = withLedger ChannelLane (dedup ChannelLane cc) (counter ChannelLane cc) cm
    /\ trace (afterMentionLane env w) = trace w ++ evsM
    /\ trace (snd (runInteractionCycle env w)) = trace w ++ evsM ++ evsC
    /\ auditRun MentionLane (afterReset env w) (afterMentionLane env w)
    /\ auditRun ChannelLane (afterMentionLane env w) (snd (runInteractionCycle env w)).
Proof.
  intros Hready Hc.
  destruct (resetDailyCountersIfNeeded_cases env w c Hc) as (Hh0 & Ht0 & _ & c0 & Hc0 & Hor & Hlbl).
  pose proof (respondToMentions_auditRun env (afterReset env w)) as HM.
  fold (afterMentionLane env w) in HM.
  pose proof (scanChannelsForCasts_auditRun env (afterMentionLane env w)) as HC.
  rewrite (runInteractionCycle_split env w Hready). cbn [snd].
  pose proof HM as (_ & HM'). rewrite Hc0 in HM'.
  destruct HM' as (cm & evsM & Hcm & HshapeM & HtM & _).
  pose proof HC as (_ & HC'). rewrite Hcm in HC'.
  destruct HC' as (cc & evsC & Hcc & HshapeC & HtC & _).
  exists c0, cm, cc, evsM, evsC.
  split; [exact Hc0 |]. split; [exact Hor |]. split; [exact Hlbl |].
  split; [exact Hcm |]. split; [exact HshapeM |]. split; [exact Hcc |].
  split; [exact HshapeC |].
  split; [now rewrite HtM, Ht0 |].
  split; [now rewrite HtC, HtM, Ht0, List.app_assoc |].
  split; assumption.
Qed.

(** X5: a dry run submits nothing.  When the configuration says dry run,
    or when there is no hub client, a whole interaction cycle leaves the
    list of submitted likes as it was. *)
Theorem dry_run_cycle_submits_nothing :
  forall (env : Env) (w : World) (c : Config.t),
    localConfig w = Some c ->
    Config.dryRun c = true \/ hubClient w = false ->
    trace (snd (runInteractionCycle env w)) = trace w.
Proof.
  intros env w c Hc Hdry. destruct (notReady w) eqn:Hready.
  - unfold runInteractionCycle. rewrite bind_getWorld, Hready. reflexivity.
  - destruct (runInteractionCycle_steps env w c Hready Hc)
      as (c0 & cm & cc & evsM & evsC & Hc0 & Hor & _ & Hcm & _ & Hcc & _ & HtM & HtC & HM & HC).
    destruct (resetDailyCountersIfNeeded_cases env w c Hc) as (Hh0 & _).
    assert (Hl0 : likeDispatched (afterReset env w) = false).
    { unfold likeDispatched. rewrite Hc0, Hh0.
      assert (Hd0 : Config.dryRun c0 = Config.dryRun c) by (destruct Hor; now subst c0).
      rewrite Hd0. destruct Hdry as [->| ->]; [apply andb_false_r | reflexivity]. }
    pose proof (auditRun_likeDispatched _ _ _ HM) as HlM. rewrite Hl0 in HlM.
    destruct HM as (_ & HM). rewrite Hc0, Hl0 in HM.
    destruct HM as (cm' & evs & _ & _ & HtM' & _ & _ & -> & _).
    destruct HC as (_ & HC). rewrite Hcm, HlM in HC.
    destruct HC as (cc' & evs' & _ & _ & HtC' & _ & _ & -> & _).
    rewrite HtC', HtM', !List.app_nil_r. apply (resetDailyCountersIfNeeded_cases env w c Hc).
Qed.

Lemma dry_run_cycle_submits_nothing_witness :
  trace (snd (runInteractionCycle sampleEnv dryRunWorld)) = trace dryRunWorld.
Proof.
  eapply dry_run_cycle_submits_nothing; [reflexivity | left; reflexivity].
Defined.

(** In a dry run the quota is used up all the same. *)
Example dry_run_still_counts :
  (Config.dailyReplies <$> localConfig (snd (runInteractionCycle sampleEnv dryRunWorld))) = Some 1
  /\ (Config.dailyLikes <$> localConfig (snd (runInteractionCycle sampleEnv dryRunWorld))) = Some 1.
Proof. vm_compute. split; reflexivity. Qed.

(** X6: after a cycle the ledger is today's.  When the module is ready, the
    configuration at the end of an interaction cycle carries as its day
    label the date read at the start of the cycle, and outside the six
    ledger fields (three counters, day label, two dedup sets) it is the
    configuration the cycle started with. *)
Theorem cycle_ledger_is_todays :
  forall (env : Env) (w : World) (c : Config.t),
    notReady w = false ->
    localConfig w = Some c ->
    exists cc,
      localConfig (snd (runInteractionCycle env w)) = Some cc
      /\ Config.lastResetDate cc = env_today env (ticks w)
      /\ resetConfig "" cc = resetConfig "" c.
Proof.
  intros env w c Hready Hc.
  destruct (runInteractionCycle_steps env w c Hready Hc)
    as (c0 & cm & cc & evsM & evsC & _ & Hor & Hlbl & _ & HshapeM & Hcc & HshapeC & _).
  exists cc. split; [exact Hcc |].
  rewrite HshapeC, HshapeM. cbn [withLedger].
  split; [exact Hlbl |]. destruct Hor; subst c0; reflexivity.
Qed.

Lemma cycle_ledger_is_todays_witness :
  exists cc,
    localConfig (snd (runInteractionCycle sampleEnv yesterdayWorld)) = Some cc
    /\ Config.lastResetDate cc = "Sun Nov 01 2026".
Proof.
  destruct (cycle_ledger_is_todays sampleEnv yesterdayWorld _ eq_refl eq_refl)
    as (cc & H1 & H2 & _).
  exists cc. split; [exact H1 | exact H2].
Defined.

Lemma afterReset_config (env : Env) (w : World) (c : Config.t) :
  localConfig w = Some c ->
  localConfig (afterReset env w)
  = Some (if String.eqb (Config.lastResetDate c) (env_today env (ticks w))
          then c else resetConfig (env_today env (ticks w)) c).
Proof.
  intros Hc. unfold afterReset. rewrite (resetDailyCountersIfNeeded_run env w c Hc). cbv zeta.
  destruct (String.eqb (Config.lastResetDate c) (env_today env (ticks w))); [exact Hc | reflexivity].
Qed.

Lemma auditRun_budget (l : Lane) (w w' : World) (c : Config.t) :
  auditRun l w w' -> localConfig w = Some c ->
  exists c' evs,
    localConfig w' = Some c'
    /\ c' = withLedger l (dedup l c') (counter l c') c
    /\ trace w' = trace w ++ evs
    /\ counter l c <= counter l c' <= Z.max (counter l c) (cap l c)
    /\ Z.of_nat (length evs) <= counter l c' - counter l c.
Proof.
  intros (_ & H) Hc. rewrite Hc in H.
  destruct H as (c' & evs & Hc' & Hshape & Ht & Hle & Hmax & Hlen & _).
  exists c', evs. split; [exact Hc' |]. split; [exact Hshape |]. split; [exact Ht |].
  split; [lia |]. destruct (likeDispatched w); [lia | subst evs; simpl; lia].
Qed.

(** X7: the like budget of a cycle that runs from start to end (no other
    callback of the module runs while it is suspended at an [await]), the
    caps being numbers.  With [carriedOver] the part of a
    counter that survives the reset at the start of the cycle (the counter
    itself on the day of the label, zero on a new day), a ready cycle
    submits at most as many likes as the two lanes' caps leave room for,
    moves the reply and like counters from the carried value towards the
    cap and never past it, and leaves the post counter at its carried
    value. *)
Theorem cycle_like_budget :
  forall (env : Env) (w : World) (c : Config.t),
    notReady w = false ->
    localConfig w = Some c ->
    exists (cc : Config.t) (evs : list Event),
      localConfig (snd (runInteractionCycle env w)) = Some cc
      /\ trace (snd (runInteractionCycle env w)) = trace w ++ evs
      /\ Z.of_nat (length evs)
           <= Z.max 0 (Config.maxDailyReplies c - carriedOver env w c (Config.dailyReplies c))
              + Z.max 0 (Config.maxDailyLikes c - carriedOver env w c (Config.dailyLikes c))
      /\ carriedOver env w c (Config.dailyReplies c) <= Config.dailyReplies cc
           <= Z.max (carriedOver env w c (Config.dailyReplies c)) (Config.maxDailyReplies c)
      /\ carriedOver env w c (Config.dailyLikes c) <= Config.dailyLikes cc
           <= Z.max (carriedOver env w c (Config.dailyLikes c)) (Config.maxDailyLikes c)
      /\ Config.dailyPosts cc = carriedOver env w c (Config.dailyPosts c).
Proof.
  intros env w c Hready Hc.
  destruct (runInteractionCycle_steps env w c Hready Hc)
    as (c0 & cm & cc & evsM & evsC & Hc0 & _ & _ & Hcm & _ & Hcc & _ & HtM & HtC & HM & HC).
  destruct (auditRun_budget _ _ _ c0 HM Hc0) as (cm' & evsM' & Hcm' & HshapeM & HtM' & HbM & HlenM).
  destruct (auditRun_budget _ _ _ cm HC Hcm) as (cc' & evsC' & Hcc' & HshapeC & HtC' & HbC & HlenC).
  assert (cm' = cm) by congruence. subst cm'.
  assert (cc' = cc) by congruence. subst cc'.
  assert (evsM' = evsM).
  { rewrite HtM' in HtM.
    rewrite (proj1 (proj2 (resetDailyCountersIfNeeded_cases env w c Hc))) in HtM.
    now apply List.app_inv_head in HtM. }
  subst evsM'.
  assert (evsC' = evsC).
  { rewrite HtC', HtM, <- List.app_assoc in HtC.
    apply List.app_inv_head in HtC. now apply List.app_inv_head in HtC. }
  subst evsC'.
  rewrite (afterReset_config env w c Hc) in Hc0. injection Hc0 as Hc0.
  exists cc, (evsM ++ evsC). split; [exact Hcc |]. split; [exact HtC |].
  rewrite List.length_app, Nat2Z.inj_add.
  assert (Hlikes : Config.dailyLikes cm = Config.dailyLikes c0
                   /\ Config.maxDailyLikes cm = Config.maxDailyLikes c0
                   /\ Config.dailyPosts cm = Config.dailyPosts c0)
    by (rewrite HshapeM; repeat split).
  assert (Hreplies : Config.dailyReplies cc = Config.dailyReplies cm
                     /\ Config.dailyPosts cc = Config.dailyPosts cm)
    by (rewrite HshapeC; repeat split).
  cbn [counter cap] in HbM, HbC, HlenM, HlenC.
  destruct Hlikes as (Hl1 & Hl2 & Hl3). destruct Hreplies as (Hr1 & Hr2).
  unfold carriedOver.
  destruct (String.eqb (Config.lastResetDate c) (env_today env (ticks w))); subst c0;
    cbn in HbM, HbC, HlenM, HlenC, Hl1, Hl2, Hl3 |- *; repeat split; lia.
Qed.

Lemma cycle_like_budget_witness :
  exists (cc : Config.t) (evs : list Event),
    localConfig (snd (runInteractionCycle sampleEnv yesterdayWorld)) = Some cc
    /\ trace (snd (runInteractionCycle sampleEnv yesterdayWorld)) = trace yesterdayWorld ++ evs
    /\ Z.of_nat (length evs) <= 1 + 30
    /\ Config.dailyPosts cc = 0.
Proof.
  destruct (cycle_like_budget sampleEnv yesterdayWorld _ eq_refl eq_refl)
    as (cc & evs & H1 & H2 & H3 & _ & _ & H6).
  exists cc, evs. split; [exact H1 |]. split; [exact H2 |].
  split; [eapply Z.le_trans; [exact H3 | vm_compute; discriminate] | exact H6].
Defined.

(** X8: direct posting is a placeholder.  [generateAndPost] submits
    nothing and leaves the hub API client alone; the only change it can
    make to the configuration is the daily reset, and it makes that one
    only when the runtime, the configuration and the hub client are all
    there and the day label is not today's. *)
Theorem generateAndPost_only_resets :
  forall (env : Env) (w : World),
    let w' := snd (generateAndPost env w) in
    trace w' = trace w
    /\ hubApiClient w' = hubApiClient w
    /\ hubClient w' = hubClient w
    /\ (localConfig w' = localConfig w
        \/ exists c,
             localConfig w = Some c
             /\ agentRuntime w = true /\ hubClient w = true
             /\ Config.lastResetDate c <> env_today env (ticks w)
             /\ localConfig w' = Some (resetConfig (env_today env (ticks w)) c)).
Proof.
  intros env w. cbv zeta. destruct (generateAndPost env w) as [r w'] eqn:Hr. cbn [snd].
  unfold generateAndPost in Hr. rewrite bind_getWorld in Hr.
  destruct (agentRuntime w) eqn:Hrt; cbn [negb orb] in Hr;
    [| injection Hr as _ <-; split; [| split; [| split; [| left]]]; reflexivity].
  destruct (localConfig w) as [c|] eqn:Hc.
  2:{ rewrite bool_decide_eq_false_2 in Hr by (intros [? ?]; discriminate).
      injection Hr as _ <-. split; [| split; [| split; [| left]]]; first [reflexivity | now symmetry]. }
  rewrite bool_decide_eq_true_2 in Hr by eauto. cbn [negb orb] in Hr.
  destruct (hubClient w) eqn:Hh; cbn [negb] in Hr;
    [| injection Hr as _ <-;
       split; [| split; [| split; [| left]]]; first [reflexivity | now symmetry]].
  unfold bind at 1 in Hr. rewrite (resetDailyCountersIfNeeded_run env w c Hc) in Hr.
  cbv zeta in Hr.
  destruct (String.eqb_spec (Config.lastResetDate c) (env_today env (ticks w))) as [Heq|Hne].
  - rewrite (bind_readConfig_some _ env _ c) in Hr by exact Hc.
    destruct (Config.dailyPosts c >=? Config.maxDailyPosts c); injection Hr as _ <-;
      (split; [reflexivity |]; split; [reflexivity |]; split; [exact Hh |]; left; exact Hc).
  - rewrite (bind_readConfig_some _ env _ (resetConfig (env_today env (ticks w)) c)) in Hr
      by reflexivity.
    destruct (_ >=? _); injection Hr as _ <-;
      (split; [reflexivity |]; split; [reflexivity |]; split; [exact Hh |]; right;
       exists c; repeat split; assumption).
Qed.

(** ** The channel drawn by the scan lane *)

Lemma pickChannel_in_range (random : Q) (scanChannels : list string) :
  (0 <= random)%Q -> (random < 1)%Q -> scanChannels <> [] ->
  exists channel,
    pickChannel random scanChannels = Some channel /\ List.In channel scanChannels.
Proof.
  intros Hlo Hhi Hne. unfold pickChannel. cbv zeta.
  set (n := Z.of_nat (length scanChannels)).
  assert (Hn : 0 < n).
  { subst n. destruct scanChannels; [contradiction | simpl; lia]. }
  set (index := Qfloor (random * inject_Z n)).
  assert (H0 : 0 <= index).
  { change 0 with (Qfloor (inject_Z 0)). apply Qfloor_resp_le.
    apply Qmult_le_0_compat; [exact Hlo |].
    change 0%Q with (inject_Z 0). rewrite <- Zle_Qle. lia. }
  assert (H1 : index < n).
  { rewrite Zlt_Qlt. eapply Qle_lt_trans; [apply Qfloor_le |].
    rewrite <- (Qmult_1_l (inject_Z n)) at 2.
    apply Qmult_lt_compat_r; [| exact Hhi].
    change 0%Q with (inject_Z 0). rewrite <- Zlt_Qlt. exact Hn. }
  destruct (Z.ltb_spec index 0) as [Hneg|_]; [lia |].
  destruct (nth_error scanChannels (Z.to_nat index)) as [channel|] eqn:Hnth.
  - exists channel. split; [reflexivity |]. eapply List.nth_error_In; exact Hnth.
  - apply List.nth_error_None in Hnth. subst n. lia.
Qed.

(** X9: the scan lane draws one of the configured channels.  With a
    non-empty channel list and a random number in [0, 1), the channel
    picked is an element of the list, and the scan lane ends without an
    exception. *)
Theorem scan_picks_configured_channel :
  forall (env : Env) (w : World) (c : Config.t),
    localConfig w = Some c ->
    Config.scanChannels c <> [] ->
    (0 <= env_random env (ticks w))%Q ->
    (env_random env (ticks w) < 1)%Q ->
    (exists channel,
       pickChannel (env_random env (ticks w)) (Config.scanChannels c) = Some channel
       /\ List.In channel (Config.scanChannels c))
    /\ fst (scanChannelsForCasts env w) = Normal tt.
Proof.
  intros env w c Hc Hne Hlo Hhi.
  destruct (pickChannel_in_range _ _ Hlo Hhi Hne) as (channel & Hpick & Hin).
  split; [exists channel; split; assumption |].
  unfold scanChannelsForCasts. rewrite bind_getWorld.
  destruct (notReady w); [reflexivity |].
  rewrite (bind_readConfig_some _ env w c Hc).
  unfold bind at 1, ask. cbv beta iota. rewrite Hpick.
  unfold tryCatch.
  match goal with |- context [let (_, _) := ?m in _] => destruct m as [[u|e] w'] end;
    [destruct u |]; reflexivity.
Qed.

Lemma scan_picks_configured_channel_witness :
  fst (scanChannelsForCasts sampleEnv sampleWorld) = Normal tt.
Proof.
  eapply scan_picks_configured_channel;
    [reflexivity | discriminate | vm_compute; discriminate | reflexivity].
Defined.

(** ** The user cache *)

Lemma getUser_run (fid : Z) (env : Env) (w : World) (client : HubApiClient) :
  hubApiClient w = Some client ->
  getUser fid env w =
    match userCache client !! fid with
    | Some cached => (Normal cached, w)
    | None =>
        let w1 := set_ticks (S (ticks w)) w in
        match env_fetch env (ticks w) (Wire.UserDataByFid fid) with
        | Wire.Rejected => (Normal (defaultUser fid), w1)
        | Wire.Resolved r =>
            if Wire.ok r then
              match Wire.json r with
              | None => (Normal (defaultUser fid), w1)
              | Some data =>
                  let user :=
                    fold_left applyUserData (Js.orNil (Wire.messages data)) (defaultUser fid) in
                  (Normal user,
                   set_hubApiClient
                     (Some {| httpUrl := httpUrl client;
                              userCache := <[fid := user]> (userCache client) |}) w1)
              end
            else (Normal (defaultUser fid), w1)
        end
    end.
Proof.
  intros Hcl. unfold getUser, bind at 1, readClient. rewrite Hcl.
  destruct (userCache client !! fid) as [cached|]; [reflexivity |].
  unfold tryCatch, fetch, bind at 1, bind at 1, ask. cbv beta iota zeta.
  destruct (env_fetch env (ticks w) (Wire.UserDataByFid fid)) as [|r]; [reflexivity |].
  cbn [ret]. destruct (Wire.ok r); cbn [negb]; [| reflexivity].
  unfold bind at 1, responseJson. destruct (Wire.json r) as [data|]; [| reflexivity].
  cbn [ret]. unfold userCache_set, bind, readClient. cbn. rewrite Hcl. reflexivity.
Qed.

Lemma applyUserData_fid (user : HubUser.t) (msg : Wire.Message) :
  HubUser.fid (applyUserData user msg) = HubUser.fid user.
Proof.
  unfold applyUserData. destruct (Wire.m_data msg ≫= Wire.d_userDataBody); [| reflexivity].
  repeat match goal with |- context [if ?b then _ else _] => destruct b end; reflexivity.
Qed.

Lemma fold_applyUserData_fid (messages : list Wire.Message) (user : HubUser.t) :
  HubUser.fid (fold_left applyUserData messages user) = HubUser.fid user.
Proof.
  revert user. induction messages as [|msg rest IH]; intros user; simpl; [reflexivity |].
  now rewrite IH, applyUserData_fid.
Qed.

Lemma cacheRun_refl (w : World) : cacheRun w w.
Proof.
  split; [| tauto]. destruct (hubApiClient w) as [client|]; [| reflexivity].
  exists client. split; [reflexivity |]. split; [reflexivity |]. reflexivity.
Qed.

Lemma cacheRun_trans (w1 w2 w3 : World) : cacheRun w1 w2 -> cacheRun w2 w3 -> cacheRun w1 w3.
Proof.
  intros (H12 & S12) (H23 & S23). split; [| tauto].
  destruct (hubApiClient w1) as [c1|].
  - destruct H12 as (c2 & E2 & U2 & I2). rewrite E2 in H23.
    destruct H23 as (c3 & E3 & U3 & I3). exists c3. split; [exact E3 |].
    split; [congruence |]. etrans; eassumption.
  - rewrite H12 in H23. exact H23.
Qed.

(** A step that leaves the hub API client alone. *)
Lemma cacheRun_same (w w' : World) : hubApiClient w' = hubApiClient w -> cacheRun w w'.
Proof.
  intros H. split.
  - rewrite H. destruct (hubApiClient w) as [client|]; [| reflexivity].
    exists client. split; [reflexivity |]. split; reflexivity.
  - unfold cacheSound. now rewrite H.
Qed.

Lemma getUser_cacheRun (fid : Z) : preserves cacheRun (getUser fid).
Proof.
  intros env w. destruct (hubApiClient w) as [client|] eqn:Hcl.
  - rewrite (getUser_run fid env w client Hcl).
    destruct (userCache client !! fid) as [cached|] eqn:Hget; [apply cacheRun_refl |].
    cbv zeta.
    destruct (env_fetch env (ticks w) (Wire.UserDataByFid fid)) as [|r];
      [now apply cacheRun_same |].
    destruct (Wire.ok r); [| now apply cacheRun_same].
    destruct (Wire.json r) as [data|]; [| now apply cacheRun_same].
    cbn [snd]. split.
    + rewrite Hcl. eexists. split; [reflexivity |]. split; [reflexivity |].
      cbn [userCache]. now apply insert_subseteq.
    + intros Hs client' Hcl'. cbn in Hcl'. injection Hcl' as <-. cbn [userCache].
      apply map_Forall_insert_2; [apply fold_applyUserData_fid | now apply Hs].
  - unfold getUser, bind, readClient. rewrite Hcl. apply cacheRun_refl.
Qed.
#[local] Hint Resolve getUser_cacheRun : frame.

Ltac cache_frame := frame_with cacheRun cacheRun_refl cacheRun_trans.

Lemma ask_cacheRun {A : Type} (oracle : Env -> nat -> A) : preserves cacheRun (ask oracle).
Proof. intros env w. now apply cacheRun_same. Qed.
#[local] Hint Resolve ask_cacheRun : frame.

Lemma fetch_cacheRun (req : Wire.Request) : preserves cacheRun (fetch req).
Proof. unfold fetch. cache_frame. Qed.
#[local] Hint Resolve fetch_cacheRun : frame.

Lemma collectCasts_cacheRun (messages : list Wire.Message) :
  preserves cacheRun (collectCasts messages).
Proof. induction messages as [|msg rest IH]; simpl; cache_frame. Qed.
#[local] Hint Resolve collectCasts_cacheRun : frame.

Lemma getMentions_cacheRun (fid limit : Z) : preserves cacheRun (getMentions fid limit).
Proof. unfold getMentions. cache_frame. Qed.

Lemma getChannelCasts_cacheRun (url : string) (limit : Z) :
  preserves cacheRun (getChannelCasts url limit).
Proof. unfold getChannelCasts. cache_frame. Qed.
#[local] Hint Resolve getMentions_cacheRun getChannelCasts_cacheRun : frame.

Lemma updateConfig_cacheRun (f : Config.t -> Config.t) : preserves cacheRun (updateConfig f).
Proof.
  intros env w. unfold updateConfig. destruct (localConfig w); [| apply cacheRun_refl].
  now apply cacheRun_same.
Qed.

Lemma hubClient_likeCast_cacheRun (fid : Z) (hash : string) :
  preserves cacheRun (hubClient_likeCast fid hash).
Proof.
  intros env w. unfold hubClient_likeCast. destruct (env_likeCast _ _ _ _); now apply cacheRun_same.
Qed.
#[local] Hint Resolve updateConfig_cacheRun hubClient_likeCast_cacheRun : frame.

Lemma likeCast_cacheRun (fid : Z) (hash : string) : preserves cacheRun (likeCast fid hash).
Proof. unfold likeCast. cache_frame. Qed.
#[local] Hint Resolve likeCast_cacheRun : frame.

Lemma respondToMentions_body_cacheRun (cast : CastWithAuthor.t) :
  preserves cacheRun (respondToMentions_body cast).
Proof. unfold respondToMentions_body. cache_frame. Qed.

Lemma scanChannelsForCasts_body_cacheRun (cast : CastWithAuthor.t) :
  preserves cacheRun (scanChannelsForCasts_body cast).
Proof.
  unfold scanChannelsForCasts_body. cache_frame.
  destruct (evaluateRelevance _); cache_frame.
Qed.

Lemma mentionsLoop_cacheRun (casts : list CastWithAuthor.t) :
  preserves cacheRun (forOf respondToMentions_body casts).
Proof.
  apply preserves_forOf;
    [apply cacheRun_refl | apply cacheRun_trans | apply respondToMentions_body_cacheRun].
Qed.

Lemma channelLoop_cacheRun (casts : list CastWithAuthor.t) :
  preserves cacheRun (forOf scanChannelsForCasts_body casts).
Proof.
  apply preserves_forOf;
    [apply cacheRun_refl | apply cacheRun_trans | apply scanChannelsForCasts_body_cacheRun].
Qed.
#[local] Hint Resolve mentionsLoop_cacheRun channelLoop_cacheRun : frame.

Lemma respondToMentions_cacheRun : preserves cacheRun respondToMentions.
Proof. unfold respondToMentions. cache_frame. Qed.

Lemma scanChannelsForCasts_cacheRun : preserves cacheRun scanChannelsForCasts.
Proof. unfold scanChannelsForCasts. cache_frame. Qed.

Lemma resetDailyCountersIfNeeded_cacheRun : preserves cacheRun resetDailyCountersIfNeeded.
Proof.
  unfold resetDailyCountersIfNeeded. cache_frame.
Qed.
#[local] Hint Resolve respondToMentions_cacheRun scanChannelsForCasts_cacheRun
  resetDailyCountersIfNeeded_cacheRun : frame.

Lemma runInteractionCycle_cacheRun : preserves cacheRun runInteractionCycle.
Proof. unfold runInteractionCycle. cache_frame. Qed.

Lemma generateAndPost_cacheRun : preserves cacheRun generateAndPost.
Proof. unfold generateAndPost. cache_frame. Qed.

Lemma cacheRun_client (w w' : World) :
  cacheRun w w' -> is_Some (hubApiClient w) -> is_Some (hubApiClient w').
Proof.
  intros (H & _) [client Hcl]. rewrite Hcl in H. destruct H as (client' & -> & _). eauto.
Qed.

(** X10: the user cache, seen from [getUser].  With the client in place
    [getUser] never throws.  A cached profile is returned as it is, with no
    request.  A lookup whose request fails returns the placeholder profile
    and caches nothing.  After a cache hit or a lookup whose request
    succeeded, asking again gives the same profile whatever the hub would
    answer now, and changes nothing. *)
Theorem getUser_round_trip :
  forall (fid : Z) (env : Env) (w : World) (client : HubApiClient),
    hubApiClient w = Some client ->
    exists (user : HubUser.t) (w' : World),
      getUser fid env w = (Normal user, w')
      /\ (forall cached, userCache client !! fid = Some cached -> user = cached /\ w' = w)
      /\ (userCache client !! fid = None -> userLookupFails env w fid ->
            user = defaultUser fid /\ hubApiClient w' = Some client)
      /\ (is_Some (userCache client !! fid) \/ ~ userLookupFails env w fid ->
            forall env', getUser fid env' w' = (Normal user, w')).
Proof.
  intros fid env w client Hcl. rewrite (getUser_run fid env w client Hcl).
  unfold userLookupFails.
  destruct (userCache client !! fid) as [cached|] eqn:Hget.
  - exists cached, w. split; [reflexivity |].
    split; [intros ? [= <-]; split; reflexivity |]. split; [discriminate |].
    intros _ env'. rewrite (getUser_run fid env' w client Hcl), Hget. reflexivity.
  - cbv zeta.
    destruct (env_fetch env (ticks w) (Wire.UserDataByFid fid)) as [|r].
    { exists (defaultUser fid), (set_ticks (S (ticks w)) w). split; [reflexivity |].
      split; [discriminate |]. split; [intros _ _; split; [reflexivity | exact Hcl] |].
      intros [[? [=]]|Hn]; exfalso; apply Hn; exact I. }
    destruct (Wire.ok r) eqn:Hok.
    2:{ exists (defaultUser fid), (set_ticks (S (ticks w)) w). split; [reflexivity |].
        split; [discriminate |]. split; [intros _ _; split; [reflexivity | exact Hcl] |].
        intros [[? [=]]|Hn]; exfalso; apply Hn; now left. }
    destruct (Wire.json r) as [data|] eqn:Hjson.
    2:{ exists (defaultUser fid), (set_ticks (S (ticks w)) w). split; [reflexivity |].
        split; [discriminate |]. split; [intros _ _; split; [reflexivity | exact Hcl] |].
        intros [[? [=]]|Hn]; exfalso; apply Hn; now right. }
    eexists _, _. split; [reflexivity |]. split; [discriminate |].
    split; [intros _ [[=]|[=]] |].
    intros _ env'. erewrite getUser_run by reflexivity. cbn [userCache].
    rewrite lookup_insert_eq. reflexivity.
Qed.

Lemma getUser_round_trip_witness :
  exists (user : HubUser.t) (w' : World),
    getUser 42 sampleEnv sampleWorld = (Normal user, w')
    /\ forall env', getUser 42 env' w' = (Normal user, w').
Proof.
  destruct (getUser_round_trip 42 sampleEnv sampleWorld _ eq_refl)
    as (user & w' & H1 & _ & _ & H4).
  exists user, w'. split; [exact H1 |]. apply H4. right.
  vm_compute. intros [H|H]; discriminate H.
Defined.

Lemma getUser_total (fid : Z) (env : Env) (w : World) :
  is_Some (hubApiClient w) -> exists user, fst (getUser fid env w) = Normal user.
Proof.
  intros [client Hcl]. rewrite (getUser_run fid env w client Hcl).
  destruct (userCache client !! fid); [eauto |]. cbv zeta.
  destruct (env_fetch _ _ _) as [|r]; [eauto |].
  destruct (Wire.ok r); [| eauto]. destruct (Wire.json r); eauto.
Qed.

Lemma getUser_fid (fid : Z) (env : Env) (w : World) :
  cacheSound w ->
  match fst (getUser fid env w) with
  | Normal user => HubUser.fid user = fid
  | Throw _ => True
  end.
Proof.
  intros Hs. destruct (hubApiClient w) as [client|] eqn:Hcl.
  - rewrite (getUser_run fid env w client Hcl).
    destruct (userCache client !! fid) as [cached|] eqn:Hget.
    + exact (Hs client Hcl fid cached Hget).
    + cbv zeta. destruct (env_fetch _ _ _) as [|r]; [reflexivity |].
      destruct (Wire.ok r); [| reflexivity].
      destruct (Wire.json r); [apply fold_applyUserData_fid | reflexivity].
  - unfold getUser, bind, readClient. rewrite Hcl. exact I.
Qed.

Lemma castOf_spread (cast : HubCast.t) (author : HubUser.t) :
  castOf (CastWithAuthor.spread cast author) = cast.
Proof. destruct cast. reflexivity. Qed.

Lemma collectCasts_cons (msg : Wire.Message) (rest : list Wire.Message) (env : Env) (w : World) :
  collectCasts (msg :: rest) env w =
    if isCastAdd msg then
      match getUser (HubCast.fid (parseCastMessage msg)) env w with
      | (Normal author, w1) =>
          match collectCasts rest env w1 with
          | (Normal casts, w2) =>
              (Normal (CastWithAuthor.spread (parseCastMessage msg) author :: casts), w2)
          | (Throw e, w2) => (Throw e, w2)
          end
      | (Throw e, w1) => (Throw e, w1)
      end
    else collectCasts rest env w.
Proof.
  cbn [collectCasts]. unfold isCastAdd.
  destruct (decide (Wire.m_data msg ≫= Wire.d_type = Some "MESSAGE_TYPE_CAST_ADD")) as [Heq|Hne].
  - rewrite (bool_decide_eq_false_2 (_ ≠ _)) by (intros H; now apply H).
    rewrite bool_decide_eq_true_2 by exact Heq. cbv zeta. unfold bind, ret.
    destruct (getUser _ env w) as [[author|e] w1]; [| reflexivity].
    destruct (collectCasts rest env w1) as [[casts|e] w2]; reflexivity.
  - rewrite (bool_decide_eq_true_2 (_ ≠ _)) by exact Hne.
    rewrite bool_decide_eq_false_2 by exact Hne. reflexivity.
Qed.

(** With the client in place the loop ends normally, with the casts of the
    batch in the order of the batch. *)
Lemma collectCasts_content (messages : list Wire.Message) (env : Env) (w : World) :
  is_Some (hubApiClient w) ->
  exists casts,
    fst (collectCasts messages env w) = Normal casts
    /\ map castOf casts = castsOf messages.
Proof.
  revert w. induction messages as [|msg rest IH]; intros w Hcl.
  - exists []. split; reflexivity.
  - rewrite collectCasts_cons. unfold castsOf. cbn [List.filter].
    destruct (isCastAdd msg); [| apply IH, Hcl].
    destruct (getUser_total (HubCast.fid (parseCastMessage msg)) env w Hcl) as (author & Hu).
    pose proof (getUser_cacheRun (HubCast.fid (parseCastMessage msg)) env w) as Hrun.
    destruct (getUser _ env w) as [[author'|e] w1]; cbn [fst snd] in *; [| discriminate].
    destruct (IH w1 (cacheRun_client _ _ Hrun Hcl)) as (casts & Hc & Hmap).
    destruct (collectCasts rest env w1) as [[casts'|e] w2]; cbn [fst] in *; [| discriminate].
    injection Hc as ->. eexists. split; [reflexivity |].
    cbn [map]. rewrite castOf_spread. f_equal. exact Hmap.
Qed.

(** From a sound cache every collected cast carries its own author. *)
Lemma collectCasts_ownAuthor (messages : list Wire.Message) (env : Env) (w : World) :
  cacheSound w ->
  match fst (collectCasts messages env w) with
  | Normal casts => List.Forall ownAuthor casts
  | Throw _ => True
  end.
Proof.
  revert w. induction messages as [|msg rest IH]; intros w Hs.
  - constructor.
  - rewrite collectCasts_cons. destruct (isCastAdd msg); [| apply IH, Hs].
    pose proof (getUser_fid (HubCast.fid (parseCastMessage msg)) env w Hs) as Hfid.
    pose proof (getUser_cacheRun (HubCast.fid (parseCastMessage msg)) env w) as (_ & Hrun).
    destruct (getUser _ env w) as [[author|e] w1]; cbn [fst snd] in *; [| exact I].
    specialize (IH w1 (Hrun Hs)).
    destruct (collectCasts rest env w1) as [[casts|e] w2]; cbn [fst] in *; [| exact I].
    constructor; [exact Hfid | exact IH].
Qed.

Lemma getChannelCasts_run (url : string) (limit : Z) (env : Env) (w : World) :
  getChannelCasts url limit env w =
    let w1 := set_ticks (S (ticks w)) w in
    match env_fetch env (ticks w) (Wire.CastsByParent url limit) with
    | Wire.Rejected => (Normal [], w1)
    | Wire.Resolved r =>
        if Wire.ok r then
          match Wire.json r with
          | None => (Normal [], w1)
          | Some data =>
              match collectCasts (Js.orNil (Wire.messages data)) env w1 with
              | (Normal casts, w2) => (Normal casts, w2)
              | (Throw _, w2) => (Normal [], w2)
              end
          end
        else (Normal [], w1)
    end.
Proof.
  unfold getChannelCasts, tryCatch, fetch, bind at 1, bind at 1, ask. cbv beta iota zeta.
  destruct (env_fetch env (ticks w) (Wire.CastsByParent url limit)) as [|r]; [reflexivity |].
  cbn [ret]. destruct (Wire.ok r); cbn [negb]; [| reflexivity].
  unfold bind, responseJson. destruct (Wire.json r) as [data|]; [| reflexivity].
  cbn [ret]. destruct (collectCasts _ env _) as [[casts|e] w2]; reflexivity.
Qed.

Lemma getMentions_run (fid limit : Z) (env : Env) (w : World) :
  getMentions fid limit env w =
    let w1 := set_ticks (S (ticks w)) w in
    match env_fetch env (ticks w) (Wire.CastsByMention fid limit) with
    | Wire.Rejected => (Normal [], w1)
    | Wire.Resolved r =>
        if Wire.ok r then
          match Wire.json r with
          | None => (Normal [], w1)
          | Some data =>
              match collectCasts (Js.orNil (Wire.messages data)) env w1 with
              | (Normal casts, w2) =>
                  (Normal (Js.slice0 (Js.sort byTimestampDesc casts) limit), w2)
              | (Throw _, w2) => (Normal [], w2)
              end
          end
        else (Normal [], w1)
    end.
Proof.
  unfold getMentions, tryCatch, fetch, bind at 1, bind at 1, ask. cbv beta iota zeta.
  destruct (env_fetch env (ticks w) (Wire.CastsByMention fid limit)) as [|r]; [reflexivity |].
  cbn [ret]. destruct (Wire.ok r); cbn [negb]; [| reflexivity].
  unfold bind, responseJson. destruct (Wire.json r) as [data|]; [| reflexivity].
  cbn [ret]. destruct (collectCasts _ env _) as [[casts|e] w2]; reflexivity.
Qed.

(** X11: what [getChannelCasts] returns.  With the client in place it ends
    normally; when the request fails the result is empty; when the request
    succeeds the result is, cast for cast and in the order of the hub's
    answer, the parsed CAST_ADD messages of the answer: nothing is dropped,
    reordered or cut to [limit]. *)
Theorem getChannelCasts_content :
  forall (url : string) (limit : Z) (env : Env) (w : World),
    is_Some (hubApiClient w) ->
    exists casts,
      fst (getChannelCasts url limit env w) = Normal casts
      /\ (channelRequestFails env w url limit -> casts = [])
      /\ (forall messages,
            answers env w (Wire.CastsByParent url limit) messages ->
            map castOf casts = castsOf messages).
Proof.
  intros url limit env w Hcl. rewrite getChannelCasts_run. cbv zeta.
  unfold channelRequestFails, answers.
  destruct (env_fetch env (ticks w) (Wire.CastsByParent url limit)) as [|r].
  { exists []. split; [reflexivity |]. split; [reflexivity |].
    intros messages (r & data & [=] & _). }
  destruct (Wire.ok r) eqn:Hok.
  2:{ exists []. split; [reflexivity |]. split; [reflexivity |].
      intros messages (r' & data & [= <-] & Hok' & _). congruence. }
  destruct (Wire.json r) as [data|] eqn:Hjson.
  2:{ exists []. split; [reflexivity |]. split; [reflexivity |].
      intros messages (r' & data & [= <-] & _ & Hj & _). congruence. }
  destruct (collectCasts_content (Js.orNil (Wire.messages data)) env
              (set_ticks (S (ticks w)) w) Hcl) as (casts & Hc & Hmap).
  destruct (collectCasts _ env _) as [[casts'|e] w2]; cbn [fst] in *; [| discriminate].
  injection Hc as ->. exists casts. split; [reflexivity |].
  split; [intros [H|H]; congruence |].
  intros messages (r' & data' & [= <-] & _ & Hj & ->). rewrite Hjson in Hj.
  injection Hj as <-. exact Hmap.
Qed.

Lemma getChannelCasts_content_witness :
  exists casts,
    fst (getChannelCasts "https://warpcast.com/~/channel/dev" 10 sampleEnv sampleWorld)
    = Normal casts
    /\ map HubCast.hash (map castOf casts) = ["0xcc"; "0xdd"; "0xee"].
Proof.
  destruct (getChannelCasts_content "https://warpcast.com/~/channel/dev" 10
              sampleEnv sampleWorld (mk_is_Some _ _ eq_refl)) as (casts & H1 & _ & H3).
  exists casts. split; [exact H1 |].
  erewrite H3
    by (eexists _, _; split; [reflexivity |]; split; [reflexivity |]; split; reflexivity).
  reflexivity.
Defined.

(** ** What [getMentions] keeps *)

Lemma sorted_firstn_skipn {A : Type} (key : A -> Z) (n : nat) (l : list A) :
  StronglySorted (desc key) l ->
  forall kept dropped,
    List.In kept (firstn n l) -> List.In dropped (skipn n l) -> key dropped <= key kept.
Proof.
  intros Hs. revert n. induction Hs as [|x l Hs IH Hall]; intros [|n] kept dropped; simpl;
    try contradiction.
  intros [<-|Hk] Hd.
  - apply (proj1 (List.Forall_forall _ _) Hall).
    rewrite <- (List.firstn_skipn n l). apply List.in_or_app. right. exact Hd.
  - eapply IH; eassumption.
Qed.

Lemma slice0_length_eq {A : Type} (l : list A) (end_ : Z) :
  Z.of_nat (length (Js.slice0 l end_))
  = if end_ <? 0 then Z.max (Z.of_nat (length l) + end_) 0
    else Z.min end_ (Z.of_nat (length l)).
Proof.
  unfold Js.slice0. rewrite List.length_firstn. destruct (Z.ltb_spec end_ 0); lia.
Qed.

(** X12: [getMentions] keeps the newest.  With the client in place and a
    request that succeeds, the casts returned together with the casts left
    out are, up to order, the parsed CAST_ADD messages of the answer; no
    cast left out is newer than a cast returned; and the number returned is
    the smaller of [limit] and the number of casts when [limit] is not
    negative, and that number plus [limit], cut at zero, when it is. *)
Theorem getMentions_keeps_newest :
  forall (fid limit : Z) (env : Env) (w : World) (messages : list Wire.Message),
    is_Some (hubApiClient w) ->
    answers env w (Wire.CastsByMention fid limit) messages ->
    exists (casts : list CastWithAuthor.t) (dropped : list HubCast.t),
      fst (getMentions fid limit env w) = Normal casts
      /\ Permutation (map castOf casts ++ dropped) (castsOf messages)
      /\ (forall kept left,
            List.In kept casts -> List.In left dropped ->
            HubCast.timestamp left <= CastWithAuthor.timestamp kept)
      /\ Z.of_nat (length casts)
         = if limit <? 0 then Z.max (Z.of_nat (length (castsOf messages)) + limit) 0
           else Z.min limit (Z.of_nat (length (castsOf messages))).
Proof.
  intros fid limit env w messages Hcl (r & data & Hfetch & Hok & Hjson & ->).
  rewrite getMentions_run. cbv zeta. rewrite Hfetch, Hok, Hjson.
  destruct (collectCasts_content (Js.orNil (Wire.messages data)) env
              (set_ticks (S (ticks w)) w) Hcl) as (full & Hc & Hmap).
  destruct (collectCasts _ env _) as [[full'|e] w2]; cbn [fst] in *; [| discriminate].
  injection Hc as ->.
  set (sorted := Js.sort byTimestampDesc full).
  assert (Hperm : Permutation full sorted) by apply sort_perm.
  assert (Hsorted : StronglySorted (desc CastWithAuthor.timestamp) sorted)
    by apply (sort_sorted CastWithAuthor.timestamp).
  unfold Js.slice0. cbv zeta.
  set (k := Z.to_nat (if limit <? 0 then Z.max (Z.of_nat (length sorted) + limit) 0
                      else Z.min limit (Z.of_nat (length sorted)))).
  exists (firstn k sorted), (map castOf (skipn k sorted)).
  split; [reflexivity |]. split; [| split].
  - rewrite <- List.map_app, List.firstn_skipn, <- Hmap. apply Permutation_map.
    symmetry. exact Hperm.
  - intros kept left Hk Hl. apply List.in_map_iff in Hl. destruct Hl as (d & <- & Hd).
    exact (sorted_firstn_skipn CastWithAuthor.timestamp k sorted Hsorted kept d Hk Hd).
  - assert (Hlen : length (castsOf (Js.orNil (Wire.messages data))) = length sorted).
    { rewrite <- Hmap, List.length_map. apply Permutation_length. exact Hperm. }
    rewrite Hlen, List.length_firstn. subst k. destruct (Z.ltb_spec limit 0); lia.
Qed.

Lemma getMentions_keeps_newest_witness :
  exists (casts : list CastWithAuthor.t),
    fst (getMentions 7 1 sampleEnv sampleWorld) = Normal casts
    /\ Z.of_nat (length casts) = 1.
Proof.
  destruct (getMentions_keeps_newest 7 1 sampleEnv sampleWorld _
              (mk_is_Some _ _ eq_refl)
              (ex_intro _ _ (ex_intro _ _ (conj eq_refl (conj eq_refl (conj eq_refl eq_refl))))))
    as (casts & dropped & H1 & _ & _ & H4).
  exists casts. split; [exact H1 | exact H4].
Defined.

(** ** Authors *)

Lemma ownAuthor_sorted_slice (casts : list CastWithAuthor.t) (limit : Z) :
  List.Forall ownAuthor casts ->
  List.Forall ownAuthor (Js.slice0 (Js.sort byTimestampDesc casts) limit).
Proof.
  intros H. rewrite List.Forall_forall in *. intros c Hc. apply H.
  unfold Js.slice0 in Hc.
  assert (Hin : List.In c (Js.sort byTimestampDesc casts)).
  { match type of Hc with
    | List.In _ (firstn ?k ?l) => rewrite <- (List.firstn_skipn k l)
    end.
    apply List.in_or_app. left. exact Hc. }
  eapply Permutation_in; [symmetry; apply sort_perm | exact Hin].
Qed.

(** X13: the author attached to a cast is the cast's own.  Starting from a
    cache in which every profile is stored under its own fid (as the empty
    cache of a new client is), each cast returned by [getMentions] and by
    [getChannelCasts] carries a profile whose fid is the cast's fid, and
    the cache is again such a cache after these calls, after [getUser] and
    after a whole interaction cycle. *)
Theorem authors_are_the_casts_own :
  forall (env : Env) (w : World),
    cacheSound w ->
    (forall fid limit,
        exists casts,
          fst (getMentions fid limit env w) = Normal casts
          /\ List.Forall ownAuthor casts
          /\ cacheSound (snd (getMentions fid limit env w)))
    /\ (forall url limit,
          match fst (getChannelCasts url limit env w) with
          | Normal casts => List.Forall ownAuthor casts
          | Throw _ => False
          end
          /\ cacheSound (snd (getChannelCasts url limit env w)))
    /\ (forall fid, cacheSound (snd (getUser fid env w)))
    /\ cacheSound (snd (runInteractionCycle env w)).
Proof.
  intros env w Hs. split; [| split; [| split]].
  - intros fid limit.
    pose proof (getMentions_cacheRun fid limit env w) as (_ & Hrun).
    rewrite getMentions_run in *. cbv zeta in *.
    destruct (env_fetch env (ticks w) (Wire.CastsByMention fid limit)) as [|r];
      [exists []; split; [reflexivity |]; split; [constructor | now apply Hrun] |].
    destruct (Wire.ok r);
      [| exists []; split; [reflexivity |]; split; [constructor | now apply Hrun]].
    destruct (Wire.json r) as [data|];
      [| exists []; split; [reflexivity |]; split; [constructor | now apply Hrun]].
    pose proof (collectCasts_ownAuthor (Js.orNil (Wire.messages data)) env
                  (set_ticks (S (ticks w)) w) Hs) as Hown.
    destruct (collectCasts _ env _) as [[casts|e] w2]; cbn [fst snd] in *.
    + eexists. split; [reflexivity |]. split; [now apply ownAuthor_sorted_slice | now apply Hrun].
    + exists []. split; [reflexivity |]. split; [constructor | now apply Hrun].
  - intros url limit.
    pose proof (getChannelCasts_cacheRun url limit env w) as (_ & Hrun).
    split; [| now apply Hrun].
    rewrite getChannelCasts_run. cbv zeta.
    destruct (env_fetch env (ticks w) (Wire.CastsByParent url limit)) as [|r]; [constructor |].
    destruct (Wire.ok r); [| constructor].
    destruct (Wire.json r) as [data|]; [| constructor].
    pose proof (collectCasts_ownAuthor (Js.orNil (Wire.messages data)) env
                  (set_ticks (S (ticks w)) w) Hs) as Hown.
    destruct (collectCasts _ env _) as [[casts|e] w2]; cbn [fst] in *; [exact Hown | constructor].
  - intros fid. now apply (getUser_cacheRun fid env w).
  - now apply (runInteractionCycle_cacheRun env w).
Qed.

Lemma sampleWorld_cacheSound : cacheSound sampleWorld.
Proof. intros client [= <-]. apply map_Forall_empty. Qed.

Lemma authors_are_the_casts_own_witness :
  exists casts,
    fst (getMentions 7 10 sampleEnv sampleWorld) = Normal casts
    /\ List.Forall ownAuthor casts.
Proof.
  destruct (authors_are_the_casts_own sampleEnv sampleWorld sampleWorld_cacheSound)
    as (H & _).
  destruct (H 7 10) as (casts & H1 & H2 & _). exists casts. split; assumption.
Defined.

(** X14: the cache never forgets.  Through [getUser], [getMentions],
    [getChannelCasts], an interaction cycle and [generateAndPost] the hub
    API client stays the same client, and a profile once cached is neither
    dropped nor replaced: later calls for that fid keep returning it. *)
Theorem cache_never_forgets :
  forall (env : Env) (w : World) (client : HubApiClient) (fid : Z) (user : HubUser.t),
    hubApiClient w = Some client ->
    userCache client !! fid = Some user ->
    forall w',
      (exists fid', w' = snd (getUser fid' env w))
      \/ (exists fid' limit, w' = snd (getMentions fid' limit env w))
      \/ (exists url limit, w' = snd (getChannelCasts url limit env w))
      \/ w' = snd (runInteractionCycle env w)
      \/ w' = snd (generateAndPost env w) ->
      (exists client',
         hubApiClient w' = Some client'
         /\ httpUrl client' = httpUrl client
         /\ userCache client' !! fid = Some user)
      /\ forall env', getUser fid env' w' = (Normal user, w').
Proof.
  intros env w client fid user Hcl Hget w' Hw'.
  assert (Hrun : cacheRun w w').
  { destruct Hw' as [(fid' & ->)|[(fid' & limit & ->)|[(url & limit & ->)|[->| ->]]]].
    - apply getUser_cacheRun.
    - apply getMentions_cacheRun.
    - apply getChannelCasts_cacheRun.
    - apply runInteractionCycle_cacheRun.
    - apply generateAndPost_cacheRun. }
  destruct Hrun as (Hrun & _). rewrite Hcl in Hrun.
  destruct Hrun as (client' & Hcl' & Hurl & Hsub).
  assert (Hget' : userCache client' !! fid = Some user)
    by (eapply lookup_weaken; eassumption).
  split; [exists client'; repeat split; assumption |].
  intros env'. rewrite (getUser_run fid env' w' client' Hcl'), Hget'. reflexivity.
Qed.

Lemma cache_never_forgets_witness :
  getUser 12 downEnv (snd (runInteractionCycle sampleEnv fetchedWorld))
  = (Normal (defaultUser 12), snd (runInteractionCycle sampleEnv fetchedWorld)).
Proof.
  eapply (cache_never_forgets sampleEnv fetchedWorld _ 12 (defaultUser 12) eq_refl).
  - vm_compute. reflexivity.
  - right. right. right. left. reflexivity.
Defined.

(** ** Parsing a hub message *)

(** X15: the normal form of a parsed cast.  [parseCastMessage] keeps the
    hash of the message; its nullable fields are never the empty string
    or zero (these become [null]); no embed is the empty string, and there
    are at most as many embeds as the message has; a message without a
    cast body gives the empty text, no parent, no mentions and no embeds;
    a message without data gives fid 0 and timestamp 0. *)
Theorem parseCastMessage_normal_form :
  forall (msg : Wire.Message),
    let cast := parseCastMessage msg in
    let body := Wire.m_data msg ≫= Wire.d_castAddBody in
    HubCast.hash cast = Wire.m_hash msg
    /\ HubCast.parentHash cast <> Some ""
    /\ HubCast.parentFid cast <> Some 0
    /\ HubCast.parentUrl cast <> Some ""
    /\ ~ List.In "" (HubCast.embeds cast)
    /\ (length (HubCast.embeds cast) <= length (Js.orNil (body ≫= Wire.b_embeds)))%nat
    /\ (body = None ->
        HubCast.text cast = "" /\ HubCast.parentHash cast = None
        /\ HubCast.parentFid cast = None /\ HubCast.parentUrl cast = None
        /\ HubCast.mentions cast = [] /\ HubCast.mentionsPositions cast = []
        /\ HubCast.embeds cast = [])
    /\ (Wire.m_data msg = None -> HubCast.fid cast = 0 /\ HubCast.timestamp cast = 0).
Proof.
  intros msg. cbv zeta. unfold parseCastMessage. cbn [HubCast.hash HubCast.parentHash
    HubCast.parentFid HubCast.parentUrl HubCast.embeds HubCast.text HubCast.mentions
    HubCast.mentionsPositions HubCast.fid HubCast.timestamp].
  assert (HnS : forall x, Js.orNullString x <> Some "").
  { intros [[|a s]|]; cbn; congruence. }
  assert (HnZ : forall x, Js.orNullZ x <> Some 0).
  { intros [[|p|p]|]; cbn; congruence. }
  split; [reflexivity |]. split; [apply HnS |]. split; [apply HnZ |]. split; [apply HnS |].
  split; [| split; [| split]].
  - generalize (Js.orNil ((Wire.m_data msg ≫= Wire.d_castAddBody) ≫= Wire.b_embeds)).
    intros embeds. induction embeds as [|e embeds IH]; cbn; [tauto |].
    destruct (Js.orNullString (Wire.e_url e)) as [url|] eqn:Hurl; [| exact IH].
    cbn. intros [Hempty|Hin]; [| now apply IH].
    subst url. now apply (HnS (Wire.e_url e)).
  - generalize (Js.orNil ((Wire.m_data msg ≫= Wire.d_castAddBody) ≫= Wire.b_embeds)).
    intros embeds. induction embeds as [|e embeds IH]; cbn; [lia |].
    destruct (Js.orNullString (Wire.e_url e)); cbn; lia.
  - intros ->. cbn. repeat split.
  - intros ->. cbn. split; reflexivity.
Qed.

(** X16: a message without a timestamp is a cast of the Farcaster epoch.
    It is parsed with timestamp 0, so that both lanes take it for too old
    exactly when the clock, in milliseconds, is past the epoch by more than
    the maximum age. *)
Theorem undated_cast_age :
  forall (msg : Wire.Message) (nowMs maxCastAge : Z),
    Wire.m_data msg ≫= Wire.d_timestamp = None ->
    HubCast.timestamp (parseCastMessage msg) = 0
    /\ (tooOld nowMs (HubCast.timestamp (parseCastMessage msg)) maxCastAge = true
        <-> (FARCASTER_EPOCH + maxCastAge) * 1000 < nowMs).
Proof.
  intros msg nowMs maxCastAge Hnone.
  assert (H0 : HubCast.timestamp (parseCastMessage msg) = 0).
  { unfold parseCastMessage. cbn [HubCast.timestamp]. now rewrite Hnone. }
  split; [exact H0 |]. rewrite H0, tooOld_spec.
  unfold castAge. change (farcasterToUnix 0) with 1609459200.
  unfold FARCASTER_EPOCH, Qlt, Qminus, Qplus, Qopp, inject_Z. cbn [Qnum Qden].
  lia.
Qed.

Lemma undated_cast_age_witness :
  tooOld sampleNow
    (HubCast.timestamp (parseCastMessage {| Wire.m_hash := "0x01"; Wire.m_data := None |}))
    (14 * 86400) = true.
Proof.
  apply (undated_cast_age {| Wire.m_hash := "0x01"; Wire.m_data := None |} sampleNow
           (14 * 86400) eq_refl).
  vm_compute. reflexivity.
Defined.

(** ** Channel URLs *)

Lemma channelUrls_shape :
  List.Forall
    (fun entry => snd entry = channelPrefix +:+ fst entry
                  /\ Js.toLowerCase (fst entry) = fst entry)
    channelUrls.
Proof. repeat constructor. Qed.

Lemma getChannelUrl_known (channel : string) :
  knownChannel channel -> getChannelUrl channel = channelPrefix +:+ Js.toLowerCase channel.
Proof.
  unfold knownChannel, getChannelUrl. intros Hin.
  destruct (find _ channelUrls) as [entry|] eqn:Hfind.
  - apply List.find_some in Hfind. destruct Hfind as (Hentry & Heq).
    apply String.eqb_eq in Heq.
    pose proof (proj1 (List.Forall_forall _ _) channelUrls_shape entry Hentry) as (Hurl & _).
    now rewrite Hurl, Heq.
  - exfalso. apply List.in_map_iff in Hin. destruct Hin as (entry & Hkey & Hentry).
    pose proof (List.find_none _ _ Hfind entry Hentry) as Hno. cbn beta in Hno.
    rewrite Hkey, String.eqb_refl in Hno. discriminate.
Qed.

Lemma getChannelUrl_unknown (channel : string) :
  ~ knownChannel channel -> getChannelUrl channel = channelPrefix +:+ channel.
Proof.
  unfold knownChannel, getChannelUrl. intros Hout.
  destruct (find _ channelUrls) as [entry|] eqn:Hfind; [| reflexivity].
  exfalso. apply Hout. apply List.find_some in Hfind. destruct Hfind as (Hentry & Heq).
  apply String.eqb_eq in Heq. rewrite <- Heq. now apply List.in_map.
Qed.

(** X17: the shape of a channel URL.  For a name that does not fold to a
    name JavaScript answers from [Object.prototype], [getChannelUrl]
    returns the fixed prefix followed by the name up to letter case: the
    folded name when that is a key of the table, so that known channels
    are matched whatever their case, and the name as given otherwise. *)
Theorem getChannelUrl_shape :
  forall (channel : string),
    ~ List.In (Js.toLowerCase channel) inheritedNames ->
    (exists name,
       getChannelUrl channel = channelPrefix +:+ name
       /\ Js.toLowerCase name = Js.toLowerCase channel)
    /\ (knownChannel channel ->
        getChannelUrl channel = channelPrefix +:+ Js.toLowerCase channel
        /\ getChannelUrl (Js.toLowerCase channel) = getChannelUrl channel)
    /\ (~ knownChannel channel -> getChannelUrl channel = channelPrefix +:+ channel).
Proof.
  intros channel _. split; [| split].
  - destruct (List.in_dec String.string_dec (Js.toLowerCase channel) (map fst channelUrls))
      as [Hin|Hout].
    + exists (Js.toLowerCase channel). split; [now apply getChannelUrl_known |].
      apply toLowerCase_idem.
    + exists channel. split; [now apply getChannelUrl_unknown | reflexivity].
  - intros Hin. split; [now apply getChannelUrl_known |].
    rewrite !getChannelUrl_known; [now rewrite toLowerCase_idem | exact Hin |].
    unfold knownChannel. now rewrite toLowerCase_idem.
  - apply getChannelUrl_unknown.
Qed.

Lemma getChannelUrl_shape_witness :
  getChannelUrl "Ethereum" = "https://warpcast.com/~/channel/ethereum"
  /\ getChannelUrl "Cats" = "https://warpcast.com/~/channel/Cats".
Proof.
  split.
  - apply (getChannelUrl_shape "Ethereum").
    + vm_compute. intros [H|[H|[]]]; discriminate H.
    + vm_compute. tauto.
  - apply (getChannelUrl_shape "Cats").
    + vm_compute. intros [H|[H|[]]]; discriminate H.
    + vm_compute. intros H. repeat (destruct H as [H|H]; [discriminate H |]). exact H.
Defined.

(* ====================================================================== *)
(** * [DirectHubClient]: connections and submissions *)
(* ====================================================================== *)

Section DirectHubClientFacts.

Import DirectHubClient.
Local Open Scope g_scope.

Lemma quiet_ret {A : Type} (a : A) : quiet (ret a).
Proof. intros lib log. exists []. split; [now rewrite List.app_nil_r | reflexivity]. Qed.

Lemma quiet_throw {A : Type} (e : string) : quiet (@throw A e).
Proof. intros lib log. exists []. split; [now rewrite List.app_nil_r | reflexivity]. Qed.

Lemma quiet_bind {A B : Type} (m : G A) (k : A -> G B) :
  quiet m -> (forall a, quiet (k a)) -> quiet (bind m k).
Proof.
  intros Hm Hk lib log. unfold bind. destruct (Hm lib log) as (calls & Hlog & Hq).
  destruct (m lib log) as [[a|e] log1]; cbn [snd] in *; [| exists calls; split; assumption].
  destruct (Hk a lib log1) as (calls' & Hlog' & Hq'). exists (calls ++ calls').
  split; [now rewrite Hlog', Hlog, List.app_assoc |].
  rewrite List.forallb_app, Hq, Hq'. reflexivity.
Qed.

Lemma quiet_call {A : Type} (c : Call) (answer : Library -> nat -> Attempt A) :
  isConnectionCall c = false -> quiet (call c answer).
Proof.
  intros Hc lib log. unfold call. exists [c].
  split; [destruct (answer lib (length log)); reflexivity |]. cbn. now rewrite Hc.
Qed.

Lemma quiet_attempt {A : Type} (answer : Library -> Attempt A) : quiet (attempt answer).
Proof.
  intros lib log. unfold attempt. exists [].
  split; [destruct (answer lib); cbn; now rewrite List.app_nil_r | reflexivity].
Qed.

Lemma quiet_valueOrThrow {A : Type} (prefix : string) (result : HubResult A) :
  quiet (valueOrThrow prefix result).
Proof. destruct result; [apply quiet_ret | apply quiet_throw]. Qed.

(** The shape of every method that talks to the hub: create a client, run
    a body that creates and closes nothing, close the client whatever the
    body did. *)
Lemma bracket_closesItsClient {A : Type} (self : t) (body : nat -> G A) :
  (forall client, quiet (body client)) ->
  closesItsClient (client <- getClient self ;; tryFinally (body client) (close client)).
Proof.
  intros Hbody lib log. unfold getClient, attempt, bind, ret. cbv beta.
  match goal with |- context [newURL lib ?u] => destruct (newURL lib u) as [[host port]|e] end;
    cbn [fst snd].
  - unfold tryFinally, close.
    destruct (Hbody (length log) lib (log ++ [Open (ssl self) (host +:+ ":" +:+ decimal (Js.orZ port 2283)) (length log)]))
      as (middle & Hlog & Hq).
    destruct (body (length log) lib _) as [completion log1]; cbn [snd] in *.
    eexists. split; [| right; eexists _, _, _, middle; split; [reflexivity | exact Hq]].
    rewrite Hlog, <- !List.app_assoc. reflexivity.
  - exists []. split; [now rewrite List.app_nil_r | now left].
Qed.

Lemma attempt_closesItsClient {A B : Type} (answer : Library -> Attempt A) (k : A -> G B) :
  (forall a, closesItsClient (k a)) -> closesItsClient (bind (attempt answer) k).
Proof.
  intros Hk lib log. unfold bind, attempt. destruct (answer lib) as [a|e]; [apply Hk |].
  exists []. split; [now rewrite List.app_nil_r | now left].
Qed.

Lemma publishReaction_closesItsClient (self : t) (options : ReactionOptions) :
  closesItsClient (publishReaction self options).
Proof.
  apply bracket_closesItsClient. intros client. cbv zeta.
  apply quiet_bind; [now apply quiet_call |]. intros reactionResult.
  apply quiet_bind; [apply quiet_valueOrThrow |]. intros value.
  apply quiet_bind; [now apply quiet_call |]. intros submitResult.
  apply quiet_valueOrThrow.
Qed.

Lemma publishCast_closesItsClient (self : t) (options : CastOptions) :
  closesItsClient (publishCast self options).
Proof.
  apply bracket_closesItsClient. intros client. cbv zeta.
  apply quiet_bind; [now apply quiet_call |]. intros castResult.
  apply quiet_bind; [apply quiet_valueOrThrow |]. intros value.
  apply quiet_bind; [now apply quiet_call |]. intros submitResult.
  apply quiet_valueOrThrow.
Qed.

(** X18: every client is closed.  Whatever the libraries answer, each
    method of [DirectHubClient] either asks nothing of the hub (the hash
    or the URL was refused) or creates exactly one gRPC client and closes
    that client as its last act, whether it returns or throws; in between
    it creates and closes nothing. *)
Theorem every_method_closes_its_client :
  forall (self : t),
    (forall options, closesItsClient (publishCast self options))
    /\ (forall text parentFid parentHash,
          closesItsClient (publishReply self text parentFid parentHash))
    /\ (forall options, closesItsClient (publishReaction self options))
    /\ (forall targetFid targetHash, closesItsClient (likeCast self targetFid targetHash))
    /\ (forall targetFid targetHash, closesItsClient (recastCast self targetFid targetHash))
    /\ (forall fid pageSize, closesItsClient (getCastsByFid self fid pageSize))
    /\ (forall fid, closesItsClient (getUserData self fid))
    /\ closesItsClient (getHubInfo self).
Proof.
  intros self.
  split; [intros; apply publishCast_closesItsClient |].
  split; [intros; apply attempt_closesItsClient; intros; apply publishCast_closesItsClient |].
  split; [intros; apply publishReaction_closesItsClient |].
  split; [intros; apply attempt_closesItsClient; intros; apply publishReaction_closesItsClient |].
  split; [intros; apply attempt_closesItsClient; intros; apply publishReaction_closesItsClient |].
  split; [| split].
  - intros fid pageSize. apply bracket_closesItsClient. intros client.
    apply quiet_bind; [now apply quiet_call | intros; apply quiet_valueOrThrow].
  - intros fid. apply bracket_closesItsClient. intros client.
    apply quiet_bind; [now apply quiet_call | intros; apply quiet_valueOrThrow].
  - apply bracket_closesItsClient. intros client.
    apply quiet_bind; [now apply quiet_call | intros; apply quiet_valueOrThrow].
Qed.

Lemma publishReaction_run (self : t) (options : ReactionOptions) (lib : Library)
    (log : list Call) :
  publishReaction self options lib log =
    match newURL lib (target self) with
    | Thrown e => (Throw e, log)
    | Returned url =>
        let client := length log in
        let opened :=
          log ++ [Open (ssl self) (fst url +:+ ":" +:+ decimal (Js.orZ (snd url) 2283)) client] in
        let body :=
          {| rb_type := match r_type options with like => LIKE | recast => RECAST end;
             rb_targetCastId :=
               {| ci_fid := r_targetFid options; ci_hash := r_targetHash options |} |} in
        let make := MakeReactionAdd body (sender self) (signer self) in
        match makeReactionAdd lib (length opened) body (sender self) (signer self) with
        | Thrown e => (Throw e, opened ++ [make; Close client])
        | Returned (Err message) =>
            (Throw ("Failed to create reaction: " +:+ message), opened ++ [make; Close client])
        | Returned (Ok value) =>
            let sent := opened ++ [make; SubmitMessage client value; Close client] in
            match submitMessage lib (length (opened ++ [make])) value with
            | Thrown e => (Throw e, sent)
            | Returned (Err message) => (Throw ("Failed to submit reaction: " +:+ message), sent)
            | Returned (Ok answer) => (Normal answer, sent)
            end
        end
    end.
Proof.
  unfold publishReaction, getClient, attempt, target, sender, tryFinally, close, call, bind, ret.
  cbv beta iota zeta.
  destruct (newURL lib _) as [url|e]; [| reflexivity]. cbv beta iota zeta.
  destruct (makeReactionAdd lib _ _ _ _) as [[value|message]|e]; cbn [valueOrThrow];
    unfold ret, throw; cbv beta iota;
    [| rewrite <- !List.app_assoc; reflexivity | rewrite <- !List.app_assoc; reflexivity].
  rewrite <- !List.app_assoc. cbn [List.app].
  destruct (submitMessage lib _ value) as [[answer|message]|e]; cbn [valueOrThrow];
    unfold ret, throw; cbv beta iota; rewrite <- !List.app_assoc; reflexivity.
Qed.

Lemma hubClient_likeCast_run (self : t) (targetFid : Z) (targetHash : string) (lib : Library)
    (log : list Call) :
  likeCast self targetFid targetHash lib log =
    match hexToBytes lib (unprefixed targetHash) with
    | Thrown e => (Throw e, log)
    | Returned hashBytes =>
        publishReaction self
          {| r_targetFid := targetFid; r_targetHash := hashBytes; r_type := like |} lib log
    end.
Proof.
  unfold likeCast, bind, attempt. destruct (hexToBytes lib _); reflexivity.
Qed.

(** X19: a like is submitted at most once, and only as built.  One call
    of [likeCast] submits at most one message; it returns normally only
    after a submission that the hub accepted; with a hash that
    [hexToBytes] refuses it throws that error and asks nothing of the hub;
    and a message it submits is the one the library built for a LIKE of
    the given cast, sent as the client's own fid and network and signed
    with the client's own key.  A call that throws may still have
    submitted its message. *)
Theorem likeCast_submits_once :
  forall (self : t) (targetFid : Z) (targetHash : string) (lib : Library) (log : list Call),
  exists calls,
    snd (likeCast self targetFid targetHash lib log) = log ++ calls
    /\ (length (submitted calls) <= 1)%nat
    /\ (forall answer,
          fst (likeCast self targetFid targetHash lib log) = Normal answer ->
          exists n message,
            submitted calls = [message]
            /\ submitMessage lib n message = Returned (Ok answer))
    /\ (forall e,
          hexToBytes lib (unprefixed targetHash) = Thrown e ->
          calls = [] /\ fst (likeCast self targetFid targetHash lib log) = Throw e)
    /\ (forall message,
          List.In message (submitted calls) ->
          exists hashBytes n,
            hexToBytes lib (unprefixed targetHash) = Returned hashBytes
            /\ makeReactionAdd lib n (likeOf targetFid hashBytes) (sender self) (signer self)
               = Returned (Ok message)
            /\ List.In (MakeReactionAdd (likeOf targetFid hashBytes) (sender self) (signer self))
                 calls).
Proof.
  intros self targetFid targetHash lib log. rewrite hubClient_likeCast_run.
  destruct (hexToBytes lib (unprefixed targetHash)) as [hashBytes|e0] eqn:Hhex.
  2:{ exists []. split; [now rewrite List.app_nil_r |]. split; [cbn; lia |].
      split; [discriminate |]. split; [intros e [= <-]; split; reflexivity |].
      intros message []. }
  rewrite publishReaction_run. cbv zeta. cbn [r_type r_targetFid r_targetHash].
  fold (likeOf targetFid hashBytes).
  destruct (newURL lib (target self)) as [url|e].
  2:{ exists []. split; [now rewrite List.app_nil_r |]. split; [cbn; lia |].
      split; [discriminate |]. split; [discriminate |]. intros message []. }
  set (opened := log ++ [Open _ _ _]).
  destruct (makeReactionAdd lib (length opened) _ _ _) as [[value|message]|e] eqn:Hmake.
  - assert (Hsent : forall completion : Completion Message,
              exists calls,
                snd (completion,
                     opened ++ [MakeReactionAdd (likeOf targetFid hashBytes) (sender self)
                                  (signer self);
                                SubmitMessage (length log) value; Close (length log)])
                = log ++ calls
                /\ submitted calls = [value]
                /\ List.In (MakeReactionAdd (likeOf targetFid hashBytes) (sender self)
                              (signer self)) calls).
    { intros completion. eexists. split; [subst opened; cbn [snd]; rewrite <- List.app_assoc;
                                          reflexivity |].
      split; [reflexivity |]. cbn. tauto. }
    destruct (submitMessage lib _ value) as [[answer|message]|e] eqn:Hsubmit;
      match goal with |- context [(?c, _)] => destruct (Hsent c) as (calls & Hlog & Hsub & Hin) end;
      exists calls; (split; [exact Hlog |]); rewrite Hsub;
      (split; [cbn; lia |]); cbn [fst];
      (split; [| split; [discriminate |];
                 intros m [<-|[]]; exists hashBytes, (length opened); repeat split; assumption]).
    + intros answer' [= <-]. eexists _, value. split; [reflexivity | exact Hsubmit].
    + discriminate.
    + discriminate.
  - eexists. split; [subst opened; cbn [snd]; rewrite <- List.app_assoc; reflexivity |].
    split; [cbn; lia |]. split; [discriminate |]. split; [discriminate |]. intros m [].
  - eexists. split; [subst opened; cbn [snd]; rewrite <- List.app_assoc; reflexivity |].
    split; [cbn; lia |]. split; [discriminate |]. split; [discriminate |]. intros m [].
Qed.

Lemma likeCast_submits_once_witness :
  exists calls,
    snd (likeCast sampleHubClient 12 "0xaa" sampleLibrary []) = [] ++ calls
    /\ length (submitted calls) = 1%nat.
Proof.
  destruct (likeCast_submits_once sampleHubClient 12 "0xaa" sampleLibrary [])
    as (calls & Hlog & _ & Hreturned & _).
  exists calls. split; [exact Hlog |].
  destruct (Hreturned [2] eq_refl) as (n & message & Hsubmitted & _).
  now rewrite Hsubmitted.
Defined.

Lemma publishCast_calls (self : t) (options : CastOptions) (lib : Library) (log : list Call) :
  exists calls,
    snd (publishCast self options lib log) = log ++ calls
    /\ forall body opts sg,
         List.In (MakeCastAdd body opts sg) calls ->
         body = {| text := o_text options;
                   embeds := default [] (o_embeds options);
                   embedsDeprecated := [];
                   mentions := default [] (o_mentions options);
                   mentionsPositions := default [] (o_mentionsPositions options);
                   type := 0;
                   parentCastId := o_parentCastId options;
                   parentUrl :=
                     match o_parentCastId options with
                     | Some _ => None
                     | None => Js.orNullString (o_parentUrl options)
                     end |}
         /\ opts = sender self /\ sg = signer self.
Proof.
  unfold publishCast, getClient, attempt, sender, tryFinally, close, call, bind, ret.
  cbv beta iota zeta.
  destruct (newURL lib _) as [url|e].
  2:{ exists []. split; [now rewrite List.app_nil_r | intros ? ? ? []]. }
  cbv beta iota zeta.
  destruct (makeCastAdd lib _ _ _ _) as [[value|message]|e]; cbn [valueOrThrow];
    unfold ret, throw; cbv beta iota.
  - destruct (submitMessage lib _ value) as [[answer|message]|e]; cbn [valueOrThrow];
      unfold ret, throw; cbv beta iota; cbn [snd];
      (eexists; split; [rewrite <- !List.app_assoc; reflexivity |]);
      intros body opts sg [H|[H|[H|[H|[]]]]]; try discriminate H;
      injection H as <- <- <-; repeat split.
  - cbn [snd]. eexists. split; [rewrite <- !List.app_assoc; reflexivity |].
    intros body opts sg [H|[H|[H|[]]]]; try discriminate H.
    injection H as <- <- <-. repeat split.
  - cbn [snd]. eexists. split; [rewrite <- !List.app_assoc; reflexivity |].
    intros body opts sg [H|[H|[H|[]]]]; try discriminate H.
    injection H as <- <- <-. repeat split.
Qed.

(** X20: a cast has one parent at most.  Every body [publishCast] asks the
    library to sign carries the parent cast of the options when there is
    one, and the parent URL only when there is no parent cast and the URL
    is not empty; it is sent as the client's own fid and signed with its
    own key.  The embedded cast ids of the options are not looked at.  A
    reply names the parent cast built from its arguments, and neither a
    parent URL nor embeds nor mentions. *)
Theorem cast_has_one_parent :
  forall (self : t) (options : CastOptions) (lib : Library) (log calls : list Call),
    snd (publishCast self options lib log) = log ++ calls ->
    (forall body opts sg,
       List.In (MakeCastAdd body opts sg) calls ->
       oneParent body
       /\ parentCastId body = o_parentCastId options
       /\ (o_parentCastId options = None ->
           parentUrl body = Js.orNullString (o_parentUrl options))
       /\ opts = sender self /\ sg = signer self)
    /\ publishCast self (withoutEmbedsCastIds options) = publishCast self options
    /\ (forall text parentFid parentHash lib' log' calls',
          snd (publishReply self text parentFid parentHash lib' log') = log' ++ calls' ->
          forall body opts sg,
            List.In (MakeCastAdd body opts sg) calls' ->
            exists hashBytes,
              hexToBytes lib' (unprefixed parentHash) = Returned hashBytes
              /\ parentCastId body = Some {| ci_fid := parentFid; ci_hash := hashBytes |}
              /\ parentUrl body = None
              /\ DirectHubClient.text body = text
              /\ embeds body = [] /\ mentions body = []).
Proof.
  intros self options lib log calls Hcalls. split; [| split].
  - destruct (publishCast_calls self options lib log) as (calls0 & Hlog & Hbody).
    rewrite Hlog in Hcalls. apply List.app_inv_head in Hcalls. subst calls0.
    intros body opts sg Hin. destruct (Hbody body opts sg Hin) as (-> & -> & ->).
    cbn [parentCastId parentUrl]. split; [| repeat split].
    + split.
      * destruct (o_parentCastId options); [discriminate |].
        destruct (o_parentUrl options) as [[|a u]|]; cbn; congruence.
      * destruct (o_parentCastId options); [now right | now left].
    + intros ->. reflexivity.
  - reflexivity.
  - intros text parentFid parentHash lib' log' calls' Hreply body opts sg Hin.
    unfold publishReply, bind at 1, attempt in Hreply.
    destruct (hexToBytes lib' (unprefixed parentHash)) as [hashBytes|e].
    + exists hashBytes. split; [reflexivity |].
      destruct (publishCast_calls self
                  {| o_text := text;
                     o_parentCastId := Some {| ci_fid := parentFid; ci_hash := hashBytes |};
                     o_parentUrl := None; o_embeds := None; o_embedsCastIds := None;
                     o_mentions := None; o_mentionsPositions := None |} lib' log')
        as (calls0 & Hlog & Hbody).
      rewrite Hlog in Hreply. apply List.app_inv_head in Hreply. subst calls0.
      destruct (Hbody body opts sg Hin) as (-> & _). repeat split.
    + cbn [snd] in Hreply. rewrite <- (List.app_nil_r log') in Hreply at 1.
      apply List.app_inv_head in Hreply. subst calls'. destruct Hin.
Qed.

End DirectHubClientFacts.

Lemma cast_has_one_parent_witness :
  List.Forall
    (fun c =>
       match c with
       | DirectHubClient.MakeCastAdd body _ _ => DirectHubClient.parentUrl body = None
       | _ => True
       end)
    (snd (DirectHubClient.publishCast sampleHubClient sampleCastOptions sampleLibrary [])).
Proof.
  apply List.Forall_forall. intros c Hin.
  destruct c as [| |body opts sg| | | | |]; try exact I.
  destruct (cast_has_one_parent sampleHubClient sampleCastOptions sampleLibrary [] _ eq_refl)
    as (H & _).
  destruct (H body opts sg Hin) as ((_ & [Hp|Hp]) & Hid & _); [| exact Hp].
  rewrite Hid in Hp. discriminate Hp.
Defined.

(* ====================================================================== *)
(** * [HubApiClient]: the other methods *)
(* ====================================================================== *)

Lemma fetchJson_run {A : Type} (oracle : nat -> string -> Fetched A) (url : string)
    (env : Env) (w : World) :
  fetchJson oracle url env w =
    let w1 := set_ticks (S (ticks w)) w in
    match oracle (ticks w) url with
    | FetchRejected => (Throw "fetch failed", w1)
    | FetchResolved ok json =>
        if ok then
          match json with
          | Some data => (Normal (Some data), w1)
          | None => (Throw "SyntaxError", w1)
          end
        else (Normal None, w1)
    end.
Proof.
  unfold fetchJson, bind, ask. cbv beta iota zeta.
  destruct (oracle (ticks w) url) as [|[] [data|]]; reflexivity.
Qed.

Lemma getCast_run (ep : Endpoints) (fid : Z) (hash : string) (env : Env) (w : World)
    (client : HubApiClient) :
  hubApiClient w = Some client ->
  getCast ep fid hash env w =
    let w1 := set_ticks (S (ticks w)) w in
    match ep_castById ep (ticks w) (castByIdUrl client fid hash) with
    | FetchResolved true (Some msg) =>
        if isCastAdd msg then
          match getUser (HubCast.fid (parseCastMessage msg)) env w1 with
          | (Normal author, w2) =>
              (Normal (Some (CastWithAuthor.spread (parseCastMessage msg) author)), w2)
          | (Throw _, w2) => (Normal None, w2)
          end
        else (Normal None, w1)
    | _ => (Normal None, w1)
    end.
Proof.
  intros Hcl. unfold getCast, tryCatch, bind at 1, readClient. rewrite Hcl.
  cbv beta iota zeta. unfold bind at 1. rewrite fetchJson_run. cbv zeta.
  fold (castByIdUrl client fid hash).
  destruct (ep_castById ep (ticks w) (castByIdUrl client fid hash)) as [|[] [msg|]];
    try reflexivity.
  unfold isCastAdd.
  destruct (decide (Wire.m_data msg ≫= Wire.d_type = Some "MESSAGE_TYPE_CAST_ADD")) as [Heq|Hne].
  - rewrite (bool_decide_eq_false_2 (_ ≠ _)) by (intros H; now apply H).
    rewrite bool_decide_eq_true_2 by exact Heq. unfold bind, ret.
    destruct (getUser _ env _) as [[author|e] w2]; reflexivity.
  - rewrite (bool_decide_eq_true_2 (_ ≠ _)) by exact Hne.
    rewrite bool_decide_eq_false_2 by exact Hne. reflexivity.
Qed.

(** X21: what [getCast] returns.  With the client in place [getCast]
    never throws.  It returns a cast exactly when the hub answers ok with a
    CAST_ADD message; the cast is then the parsed message, and from a sound
    cache its author is the profile of the cast's fid.  In every other
    case (the promise rejects, the status is not ok, the body is not JSON,
    the message is of another type) it returns [null] and the user cache
    is as before. *)
Theorem getCast_outcome :
  forall (ep : Endpoints) (fid : Z) (hash : string) (env : Env) (w : World)
         (client : HubApiClient),
    hubApiClient w = Some client ->
    exists result,
      fst (getCast ep fid hash env w) = Normal result
      /\ (forall cast,
            result = Some cast ->
            exists msg,
              ep_castById ep (ticks w) (castByIdUrl client fid hash)
              = FetchResolved true (Some msg)
              /\ isCastAdd msg = true
              /\ castOf cast = parseCastMessage msg
              /\ (cacheSound w -> ownAuthor cast))
      /\ (result = None ->
            hubApiClient (snd (getCast ep fid hash env w)) = Some client
            /\ forall msg,
                 ep_castById ep (ticks w) (castByIdUrl client fid hash)
                 = FetchResolved true (Some msg) ->
                 isCastAdd msg = false).
Proof.
  intros ep fid hash env w client Hcl. rewrite (getCast_run ep fid hash env w client Hcl).
  cbv zeta.
  assert (Hnone : forall answer,
            (forall msg, answer = FetchResolved true (Some msg) -> isCastAdd msg = false) ->
            exists result : option CastWithAuthor.t,
              fst (@Normal (option CastWithAuthor.t) None, set_ticks (S (ticks w)) w)
              = Normal result
              /\ (forall cast,
                    result = Some cast ->
                    exists msg,
                      answer = FetchResolved true (Some msg)
                      /\ isCastAdd msg = true
                      /\ castOf cast = parseCastMessage msg
                      /\ (cacheSound w -> ownAuthor cast))
              /\ (result = None ->
                    hubApiClient (snd (@Normal (option CastWithAuthor.t) None,
                                       set_ticks (S (ticks w)) w)) = Some client
                    /\ forall msg,
                         answer = FetchResolved true (Some msg) -> isCastAdd msg = false)).
  { intros answer Hanswer. exists None. split; [reflexivity |]. split; [discriminate |].
    intros _. split; [exact Hcl | exact Hanswer]. }
  destruct (ep_castById ep (ticks w) (castByIdUrl client fid hash)) as [|[] [msg|]] eqn:Hep;
    try (apply Hnone; discriminate).
  destruct (isCastAdd msg) eqn:Hadd; [| apply Hnone; now intros ? [= <-]].
  set (w1 := set_ticks (S (ticks w)) w).
  assert (Hcl1 : is_Some (hubApiClient w1)) by (exists client; exact Hcl).
  destruct (getUser_total (HubCast.fid (parseCastMessage msg)) env w1 Hcl1) as (author & Hu).
  pose proof (getUser_fid (HubCast.fid (parseCastMessage msg)) env w1) as Hfid.
  destruct (getUser _ env w1) as [[author'|e] w2]; cbn [fst] in *; [| discriminate].
  injection Hu as ->. eexists. split; [reflexivity |]. split; [| discriminate].
  intros cast [= <-]. exists msg. split; [reflexivity |]. split; [exact Hadd |].
  split; [apply castOf_spread |]. intros Hs. apply (Hfid Hs).
Qed.

Lemma getCast_outcome_witness :
  exists result,
    fst (getCast sampleEndpoints 12 "aa" sampleEnv sampleWorld) = Normal result
    /\ (result = None -> False).
Proof.
  destruct (getCast_outcome sampleEndpoints 12 "aa" sampleEnv sampleWorld _ eq_refl)
    as (result & Hrun & _ & Hnone).
  exists result. split; [exact Hrun |]. intros Hr.
  destruct (Hnone Hr) as (_ & Hmsg). specialize (Hmsg _ eq_refl). discriminate Hmsg.
Defined.

Lemma getReactions_run (ep : Endpoints) (targetFid : Z) (targetHash : string)
    (type : ReactionsOf) (env : Env) (w : World) (client : HubApiClient) :
  hubApiClient w = Some client ->
  getReactions ep targetFid targetHash type env w =
    (Normal
       match ep_reactionsByCast ep (ticks w)
               (httpUrl client +:+ "/v1/reactionsByCast?targetFid=" +:+ decimal targetFid
                +:+ "&targetHash=" +:+ prefixed targetHash
                +:+ "&reactionType=" +:+ match type with likes => "1" | recasts => "2" end)
       with
       | FetchResolved true (Some data) =>
           omap (fun msg => Js.orNullZ (Wire.m_data msg ≫= Wire.d_fid))
                (Js.orNil (Wire.messages data))
       | _ => []
       end,
     set_ticks (S (ticks w)) w).
Proof.
  intros Hcl. unfold getReactions, tryCatch, bind at 1, readClient. rewrite Hcl.
  cbv beta iota zeta. unfold bind at 1. rewrite fetchJson_run. cbv zeta.
  replace (decimal match type with likes => 1 | recasts => 2 end)
    with (match type with likes => "1" | recasts => "2" end) by (destruct type; reflexivity).
  destruct (ep_reactionsByCast ep (ticks w) _) as [|[] [data|]]; reflexivity.
Qed.

(** X22: what [getReactions] returns.  With the client in place it never
    throws and changes nothing but the tick.  It asks for the reactions of
    the cast under the URL built from the account, the hash with its "0x"
    and the reaction type, 1 for likes and 2 for recasts.  On an ok answer
    with a JSON body it returns the fids of the messages in the hub's
    order, without the missing ones and without zero; on every other
    answer (a rejected request, a status that is not ok, a body that is
    not JSON) it returns the empty list. *)
Theorem getReactions_outcome :
  forall (ep : Endpoints) (targetFid : Z) (targetHash : string) (type : ReactionsOf)
         (env : Env) (w : World) (client : HubApiClient),
    hubApiClient w = Some client ->
    exists fids,
      getReactions ep targetFid targetHash type env w = (Normal fids, set_ticks (S (ticks w)) w)
      /\ ~ List.In 0 fids
      /\ match ep_reactionsByCast ep (ticks w)
                 (reactionsByCastUrl client targetFid targetHash type)
         with
         | FetchResolved true (Some data) =>
             fids = omap (fun msg => Js.orNullZ (Wire.m_data msg ≫= Wire.d_fid))
                         (Js.orNil (Wire.messages data))
             /\ (forall fid,
                   List.In fid fids <->
                   fid <> 0
                   /\ exists msg, List.In msg (Js.orNil (Wire.messages data))
                                  /\ Wire.m_data msg ≫= Wire.d_fid = Some fid)
         | _ => fids = []
         end.
Proof.
  intros ep targetFid targetHash type env w client Hcl.
  rewrite (getReactions_run ep targetFid targetHash type env w client Hcl).
  fold (reactionsByCastUrl client targetFid targetHash type).
  eexists. split; [reflexivity |].
  destruct (ep_reactionsByCast ep (ticks w) _) as [|[] [data|]];
    try (split; [intros [] | reflexivity]).
  assert (Hmem : forall fid,
            List.In fid (omap (fun msg => Js.orNullZ (Wire.m_data msg ≫= Wire.d_fid))
                              (Js.orNil (Wire.messages data)))
            <-> fid <> 0
                /\ exists msg, List.In msg (Js.orNil (Wire.messages data))
                               /\ Wire.m_data msg ≫= Wire.d_fid = Some fid).
  { intros fid. rewrite <- list_elem_of_In, list_elem_of_omap. split.
    - intros (msg & Hmsg & Hfid). apply list_elem_of_In in Hmsg.
      destruct (Wire.m_data msg ≫= Wire.d_fid) as [[|p|p]|] eqn:Hd; cbn in Hfid;
        try discriminate Hfid; injection Hfid as <-;
        (split; [discriminate | exists msg; split; [exact Hmsg | exact Hd]]).
    - intros (Hne & msg & Hmsg & Hfid). exists msg. split; [now apply list_elem_of_In |].
      rewrite Hfid. destruct fid; [contradiction | reflexivity | reflexivity]. }
  split; [intros H0; now apply Hmem in H0 as [H0 _] |].
  split; [reflexivity | exact Hmem].
Qed.


Lemma getReactions_outcome_witness :
  getReactions sampleEndpoints 12 "aa" likes sampleEnv sampleWorld
  = (Normal [21; 22], set_ticks 1 sampleWorld).
Proof.
  destruct (getReactions_outcome sampleEndpoints 12 "aa" likes sampleEnv sampleWorld _ eq_refl)
    as (fids & Hrun & _ & Hfids & _).
  rewrite Hfids in Hrun. exact Hrun.
Defined.

Lemma castsWithAuthor_spec (author : HubUser.t) (messages : list Wire.Message) :
  map castOf (castsWithAuthor author messages) = castsOf messages
  /\ List.Forall (fun cast => CastWithAuthor.author cast = author)
       (castsWithAuthor author messages).
Proof.
  unfold castsWithAuthor, castsOf, isCastAdd.
  induction messages as [|msg rest [IHmap IHall]]; [split; [reflexivity | constructor] |].
  cbn [omap list_omap List.filter].
  destruct (decide (Wire.m_data msg ≫= Wire.d_type = Some "MESSAGE_TYPE_CAST_ADD")) as [Heq|Hne].
  - rewrite (bool_decide_eq_false_2 (_ ≠ _)) by (intros H; now apply H).
    rewrite bool_decide_eq_true_2 by exact Heq. cbn [map].
    split; [now rewrite castOf_spread, IHmap | constructor; [reflexivity | exact IHall]].
  - rewrite (bool_decide_eq_true_2 (_ ≠ _)) by exact Hne.
    rewrite bool_decide_eq_false_2 by exact Hne. split; assumption.
Qed.

Lemma getCastsByFid_run (ep : Endpoints) (fid limit : Z) (env : Env) (w : World)
    (client : HubApiClient) :
  hubApiClient w = Some client ->
  getCastsByFid ep fid limit env w =
    let w1 := set_ticks (S (ticks w)) w in
    match ep_castsByFid ep (ticks w) (castsByFidUrl client fid limit) with
    | FetchResolved true (Some data) =>
        match getUser fid env w1 with
        | (Normal author, w2) =>
            (Normal (castsWithAuthor author (Js.orNil (Wire.messages data))), w2)
        | (Throw _, w2) => (Normal [], w2)
        end
    | _ => (Normal [], w1)
    end.
Proof.
  intros Hcl. unfold getCastsByFid, tryCatch, bind at 1, readClient. rewrite Hcl.
  cbv beta iota zeta. unfold bind at 1. rewrite fetchJson_run. cbv zeta.
  fold (castsByFidUrl client fid limit).
  destruct (ep_castsByFid ep (ticks w) _) as [|[] [data|]]; try reflexivity.
  unfold bind, ret. destruct (getUser fid env _) as [[author|e] w2]; reflexivity.
Qed.

(** X23: [getCastsByFid] gives every cast the one author.  With the
    client in place it never throws; on an ok answer it returns the parsed
    CAST_ADD messages in the hub's order, each with the same profile: the
    one [getUser] gives for the fid asked for, whatever the fid of the
    cast; a failed request gives the empty list. *)
Theorem getCastsByFid_one_author :
  forall (ep : Endpoints) (fid limit : Z) (env : Env) (w : World) (client : HubApiClient),
    hubApiClient w = Some client ->
    exists casts author,
      fst (getCastsByFid ep fid limit env w) = Normal casts
      /\ List.Forall (fun cast => CastWithAuthor.author cast = author) casts
      /\ (cacheSound w -> HubUser.fid author = fid)
      /\ (forall data,
            ep_castsByFid ep (ticks w) (castsByFidUrl client fid limit)
            = FetchResolved true (Some data) ->
            map castOf casts = castsOf (Js.orNil (Wire.messages data)))
      /\ ((forall data,
             ep_castsByFid ep (ticks w) (castsByFidUrl client fid limit)
             <> FetchResolved true (Some data)) ->
          casts = []).
Proof.
  intros ep fid limit env w client Hcl.
  rewrite (getCastsByFid_run ep fid limit env w client Hcl). cbv zeta.
  set (w1 := set_ticks (S (ticks w)) w).
  assert (Hcl1 : is_Some (hubApiClient w1)) by (exists client; exact Hcl).
  destruct (getUser_total fid env w1 Hcl1) as (author & Hu).
  pose proof (getUser_fid fid env w1) as Hfid. rewrite Hu in Hfid.
  destruct (ep_castsByFid ep (ticks w) (castsByFidUrl client fid limit))
    as [|[] [data|]] eqn:Hep;
    try (exists [], author; split; [reflexivity |]; split; [constructor |];
         split; [exact Hfid |]; split; [discriminate | reflexivity]).
  destruct (getUser fid env w1) as [[author'|e] w2]; cbn [fst] in *; [| discriminate].
  injection Hu as ->.
  destruct (castsWithAuthor_spec author (Js.orNil (Wire.messages data))) as (Hmap & Hall).
  exists (castsWithAuthor author (Js.orNil (Wire.messages data))), author.
  split; [reflexivity |]. split; [exact Hall |]. split; [exact Hfid |].
  split; [intros d [= <-]; exact Hmap |].
  intros Hno. now destruct (Hno data).
Qed.

Lemma getCastsByFid_one_author_witness :
  exists casts author,
    fst (getCastsByFid sampleEndpoints 12 10 sampleEnv sampleWorld) = Normal casts
    /\ List.Forall (fun cast => CastWithAuthor.author cast = author) casts
    /\ map HubCast.fid (map castOf casts) = [12; 13].
Proof.
  destruct (getCastsByFid_one_author sampleEndpoints 12 10 sampleEnv sampleWorld _ eq_refl)
    as (casts & author & H1 & H2 & _ & H4 & _).
  exists casts, author. split; [exact H1 |]. split; [exact H2 |].
  erewrite H4 by reflexivity. reflexivity.
Defined.

(** ** Hash spelling, URL spelling, and the cache cleared *)

Lemma substring_all (s : string) : String.substring 0 (String.length s) s = s.
Proof. induction s as [|c s IH]; cbn; [reflexivity | now rewrite IH]. Qed.

Lemma startsWith_0x (core : string) : Js.startsWith ("0x" +:+ core) "0x" = true.
Proof. reflexivity. Qed.

Lemma unprefixed_0x (core : string) : DirectHubClient.unprefixed ("0x" +:+ core) = core.
Proof.
  unfold DirectHubClient.unprefixed. rewrite startsWith_0x.
  change (String.length ("0x" +:+ core) - 2)%nat with (String.length core - 0)%nat.
  rewrite Nat.sub_0_r. apply substring_all.
Qed.

(** X24: the [0x] of a hash is optional, for both clients.  For a hash
    written without the prefix, the read client asks the hub for the
    prefixed spelling and the write client decodes the bare one, and each
    method that takes a hash does the same for the two spellings. *)
Theorem hash_prefix_is_optional :
  forall (core : string),
    Js.startsWith core "0x" = false ->
    prefixed core = "0x" +:+ core
    /\ prefixed ("0x" +:+ core) = "0x" +:+ core
    /\ DirectHubClient.unprefixed core = core
    /\ DirectHubClient.unprefixed ("0x" +:+ core) = core
    /\ (forall ep fid, getCast ep fid ("0x" +:+ core) = getCast ep fid core)
    /\ (forall ep fid type,
          getReactions ep fid ("0x" +:+ core) type = getReactions ep fid core type)
    /\ (forall self fid,
          DirectHubClient.likeCast self fid ("0x" +:+ core)
          = DirectHubClient.likeCast self fid core)
    /\ (forall self fid,
          DirectHubClient.recastCast self fid ("0x" +:+ core)
          = DirectHubClient.recastCast self fid core)
    /\ (forall self text fid,
          DirectHubClient.publishReply self text fid ("0x" +:+ core)
          = DirectHubClient.publishReply self text fid core).
Proof.
  intros core Hbare.
  assert (Hp : prefixed core = "0x" +:+ core) by (unfold prefixed; now rewrite Hbare).
  assert (Hp' : prefixed ("0x" +:+ core) = "0x" +:+ core) by reflexivity.
  assert (Hu : DirectHubClient.unprefixed core = core)
    by (unfold DirectHubClient.unprefixed; now rewrite Hbare).
  pose proof (unprefixed_0x core) as Hu'.
  split; [exact Hp |]. split; [exact Hp' |]. split; [exact Hu |]. split; [exact Hu' |].
  split; [| split; [| split; [| split]]].
  - intros ep fid. unfold getCast. now rewrite Hp', Hp.
  - intros ep fid type. unfold getReactions. now rewrite Hp', Hp.
  - intros self fid. unfold DirectHubClient.likeCast. now rewrite Hu', Hu.
  - intros self fid. unfold DirectHubClient.recastCast. now rewrite Hu', Hu.
  - intros self text fid. unfold DirectHubClient.publishReply. now rewrite Hu', Hu.
Qed.

Lemma hash_prefix_is_optional_witness :
  getCast sampleEndpoints 12 "0xaa" = getCast sampleEndpoints 12 "aa"
  /\ DirectHubClient.likeCast sampleHubClient 12 "0xaa"
     = DirectHubClient.likeCast sampleHubClient 12 "aa".
Proof.
  destruct (hash_prefix_is_optional "aa" eq_refl) as (_ & _ & _ & _ & H5 & _ & H7 & _).
  split; [apply H5 | apply H7].
Defined.

Lemma stripTrailingSlash_keeps (s : string) :
  endsWithSlash s = false -> stripTrailingSlash s = s.
Proof.
  induction s as [|c s IH]; [reflexivity |]. cbn [endsWithSlash stripTrailingSlash].
  destruct s as [|c' s']; [intros ->; reflexivity |]. intros H. now rewrite IH.
Qed.

Lemma stripTrailingSlash_slash (s : string) : stripTrailingSlash (s +:+ "/") = s.
Proof.
  induction s as [|c s IH]; [reflexivity |].
  destruct s as [|c' s']; [reflexivity |].
  change (String c (stripTrailingSlash (String c' s' +:+ "/")) = String c (String c' s')).
  now rewrite IH.
Qed.

(** X25: the client as created, and as cleared.  A slash at the end of
    the configured URL makes no difference to the client created; the new
    client has an empty, hence sound, cache; and whatever has been cached
    since, [clearCache] brings the client back to the client as
    created. *)
Theorem client_as_created :
  forall (url : string),
    endsWithSlash url = false ->
    createHubApiClient (url +:+ "/") = createHubApiClient url
    /\ httpUrl (createHubApiClient url) = url
    /\ (forall env w w',
          hubApiClient w = Some (createHubApiClient url) ->
          cacheSound w
          /\ (cacheRun w w' ->
              clearCache env w'
              = (Normal tt, set_hubApiClient (Some (createHubApiClient url)) w'))).
Proof.
  intros url Hurl. unfold createHubApiClient.
  rewrite stripTrailingSlash_slash, (stripTrailingSlash_keeps url Hurl).
  split; [reflexivity |]. split; [reflexivity |].
  intros env w w' Hcl. split.
  - intros client Hclient. rewrite Hcl in Hclient. injection Hclient as <-.
    apply map_Forall_empty.
  - intros (Hrun & _). rewrite Hcl in Hrun. destruct Hrun as (client' & Hcl' & Hsame & _).
    unfold clearCache, bind, readClient. rewrite Hcl'. cbn [httpUrl] in Hsame.
    now rewrite Hsame.
Qed.

Lemma client_as_created_witness :
  createHubApiClient "http://localhost:3381/" = createHubApiClient "http://localhost:3381"
  /\ clearCache sampleEnv (snd (runInteractionCycle sampleEnv sampleWorld))
     = (Normal tt,
        set_hubApiClient (Some (createHubApiClient "http://localhost:3381"))
          (snd (runInteractionCycle sampleEnv sampleWorld))).
Proof.
  destruct (client_as_created "http://localhost:3381" eq_refl) as (H1 & _ & H3).
  split; [exact H1 |].
  apply (H3 sampleEnv sampleWorld _ eq_refl). apply runInteractionCycle_cacheRun.
Defined.

(* ====================================================================== *)
(** * Initialisation, the loops and the status *)
(* ====================================================================== *)

(** [parseInt], [split] and [trim] on some inputs. *)
Example parseInt_samples :
  JsText.parseInt "10" = Some 10
  /\ JsText.parseInt "  42px" = Some 42
  /\ JsText.parseInt "-7" = Some (-7)
  /\ JsText.parseInt "0x1F" = Some 31
  /\ JsText.parseInt "1e3" = Some 1
  /\ JsText.parseInt "" = None
  /\ JsText.parseInt "abc" = None
  /\ JsText.parseInt "0x" = None.
Proof. repeat split. Qed.

Example split_trim_samples :
  map JsText.trim (JsText.splitComma "ethereum, base ,,dev") = ["ethereum"; "base"; ""; "dev"]
  /\ JsText.splitComma "" = [""].
Proof. split; reflexivity. Qed.

Lemma initializeFarcaster_refused (host : Host) (p : Plugin) :
  fidSetting host = 0 \/ keySetting host = "" ->
  initializeFarcaster host p
  = (Normal Followed, set_world (set_agentRuntime true (world p)) p).
Proof.
  unfold fidSetting, keySetting, initializeFarcaster, pbind. cbv beta iota zeta.
  intros [Hfid|Hkey].
  - rewrite Hfid. reflexivity.
  - rewrite Hkey. destruct (_ =? 0); reflexivity.
Qed.

Lemma getInfo_world (ep : Endpoints) (env : Env) (w : World) (client : HubApiClient) :
  hubApiClient w = Some client ->
  snd (getInfo ep env w) = set_ticks (S (ticks w)) w.
Proof.
  intros Hcl. unfold getInfo, tryCatch, bind, readClient. rewrite Hcl. rewrite fetchJson_run.
  cbv zeta. destruct (ep_info ep _ _) as [|[] [info|]]; reflexivity.
Qed.

Lemma initializeFarcaster_run (host : Host) (p : Plugin) (numbers : Numbers) :
  fidSetting host <> 0 -> keySetting host <> "" -> readNumbers host = Some numbers ->
  let today := env_today (host_env host) (ticks (world p)) in
  let config := initialConfig host (fidSetting host) numbers today in
  let w1 :=
    set_hubApiClient (Some (createHubApiClient (Config.hubHttpUrl config)))
      (set_localConfig (Some config)
         (set_ticks (S (ticks (world p))) (set_agentRuntime true (world p)))) in
  initializeFarcaster host p =
    match DirectHubClient.hexToBytes (host_library host)
            (DirectHubClient.unprefixed (keySetting host)) with
    | DirectHubClient.Thrown e => (Throw e, set_world w1 p)
    | DirectHubClient.Returned keyBytes =>
        let client :=
          {| DirectHubClient.hubUrl := Config.hubGrpcUrl config;
             DirectHubClient.fid := fidSetting host;
             DirectHubClient.signer := keyBytes;
             DirectHubClient.network := DirectHubClient.MAINNET;
             DirectHubClient.ssl := Config.hubSsl config |} in
        let w2 := set_ticks (S (S (ticks (world p)))) (set_hubClient true w1) in
        let p2 := set_directHubClient (Some client) (set_world w2 p) in
        let p3 :=
          if Config.enableInteractions config && negb (Config.dryRun config)
          then snd (setTimeout InitialScan 30000 host p2) else p2 in
        if Config.enableDirectPosting config && negb (Config.dryRun config)
        then
          let delay :=
            interval (env_random (host_env host) (S (S (ticks (world p)))))
              (Config.postIntervalMin config) (Config.postIntervalMax config) in
          let p4 := set_world (set_ticks (S (S (S (ticks (world p))))) (world p3)) p3 in
          (Normal Followed,
           set_postTimer (Some (timersCreated p4)) (snd (setTimeout PostTick delay host p4)))
        else (Normal Followed, p3)
    end.
Proof.
  intros Hfid Hkey Hnum. cbv zeta.
  unfold initializeFarcaster. cbv zeta.
  fold (fidSetting host) (keySetting host).
  unfold pbind at 1. cbv beta iota.
  destruct (Z.eqb_spec (fidSetting host) 0) as [H0|_]; [contradiction |].
  destruct (String.eqb_spec (keySetting host) "") as [H0|_]; [contradiction |].
  rewrite Hnum.
  set (config := initialConfig host (fidSetting host) numbers
                   (env_today (host_env host) (ticks (world p)))).
  unfold pbind at 1, liftM at 1, ask. cbv beta iota.
  cbn [world set_world ticks set_agentRuntime].
  fold config.
  unfold pbind at 1, liftM at 1. cbv beta iota.
  unfold pbind at 1, liftM at 1. cbv beta iota.
  unfold pbind at 1.
  unfold DirectHubClient.createHubClient, DirectHubClient.constructor, DirectHubClient.bind,
    DirectHubClient.attempt, DirectHubClient.ret.
  cbn [DirectHubClient.c_privateKey DirectHubClient.c_hubUrl DirectHubClient.c_fid
       DirectHubClient.c_network DirectHubClient.c_ssl default].
  change (Config.privateKey config) with (keySetting host).
  change (Config.fid config) with (fidSetting host).
  destruct (DirectHubClient.hexToBytes (host_library host) _) as [keyBytes|e]; [| reflexivity].
  cbv beta iota. unfold pbind at 1. cbv beta iota. unfold pbind at 1.
  cbn [world set_world set_directHubClient].
  match goal with
  | |- context [getInfo ?ep ?env ?w] =>
      pose proof (getInfo_world ep env w _ eq_refl) as Hinfo;
      destruct (getInfo ep env w) as [r w'] eqn:Hrun
  end.
  cbn [snd] in Hinfo. subst w'. cbv beta iota.
  cbn [ticks set_hubClient set_hubApiClient set_localConfig set_ticks world set_world].
  destruct (Config.enableInteractions config && negb (Config.dryRun config));
    destruct (Config.enableDirectPosting config && negb (Config.dryRun config));
    reflexivity.
Qed.

(** X26: initialisation that stops early.  Without a fid (the setting is
    absent, zero or not a number) or without a private key,
    [initializeFarcaster] returns having stored the runtime and nothing
    else: no configuration, no client, no timer; the module is then not
    ready, a cycle does nothing and the status shows no hub.  With numeric
    settings that parse and a private key that [hexToBytes] refuses it
    throws that error after the
    configuration and the read client were stored and before the write
    client is: the module is ready but has no hub client, and no loop was
    started. *)
Theorem initialisation_stops_early :
  forall (host : Host),
    (fidSetting host = 0 \/ keySetting host = "" ->
     (forall p,
        initializeFarcaster host p
        = (Normal Followed, set_world (set_agentRuntime true (world p)) p))
     /\ (let p' := snd (initializeFarcaster host unloaded) in
         pending p' = []
         /\ notReady (world p') = true
         /\ (forall env, runInteractionCycle env (world p') = (Normal tt, world p'))
         /\ status_hubConnected (providerGet (world p')) = false
         /\ status_fid (providerGet (world p')) = None))
    /\ (forall numbers e p,
          fidSetting host <> 0 -> keySetting host <> "" ->
          readNumbers host = Some numbers ->
          DirectHubClient.hexToBytes (host_library host)
            (DirectHubClient.unprefixed (keySetting host)) = DirectHubClient.Thrown e ->
          let p' := snd (initializeFarcaster host p) in
          fst (initializeFarcaster host p) = Throw e
          /\ localConfig (world p')
             = Some (initialConfig host (fidSetting host) numbers
                       (env_today (host_env host) (ticks (world p))))
          /\ is_Some (hubApiClient (world p'))
          /\ agentRuntime (world p') = true
          /\ hubClient (world p') = hubClient (world p)
          /\ directHubClient p' = directHubClient p
          /\ pending p' = pending p
          /\ interactionTimer p' = interactionTimer p
          /\ postTimer p' = postTimer p).
Proof.
  intros host. split.
  - intros Hmissing. split; [intros p; now apply initializeFarcaster_refused |].
    rewrite (initializeFarcaster_refused host unloaded Hmissing). cbv zeta. cbn [snd].
    split; [reflexivity |]. split; [reflexivity |].
    split; [intros env; reflexivity |]. split; reflexivity.
  - intros numbers e p Hfid Hkey Hnum Hhex. cbv zeta.
    rewrite (initializeFarcaster_run host p numbers Hfid Hkey Hnum). cbv zeta.
    rewrite Hhex. cbn [fst snd].
    split; [reflexivity |]. split; [reflexivity |]. split; [eexists; reflexivity |].
    repeat split.
Qed.

Lemma initialisation_stops_early_witness :
  initializeFarcaster fidlessHost unloaded
  = (Normal Followed, set_world (set_agentRuntime true (world unloaded)) unloaded)
  /\ fst (initializeFarcaster badKeyHost unloaded) = Throw "hex string expected"
  /\ hubClient (world (snd (initializeFarcaster badKeyHost unloaded))) = false.
Proof.
  split.
  - apply (initialisation_stops_early fidlessHost). left. vm_compute. reflexivity.
  - assert (Hfid : fidSetting badKeyHost <> 0) by (vm_compute; discriminate).
    assert (Hkey : keySetting badKeyHost <> "") by (vm_compute; discriminate).
    assert (Hnum : readNumbers badKeyHost = Some sampleNumbers) by (vm_compute; reflexivity).
    assert (Hhex : DirectHubClient.hexToBytes (host_library badKeyHost)
                     (DirectHubClient.unprefixed (keySetting badKeyHost))
                   = DirectHubClient.Thrown "hex string expected")
      by (vm_compute; reflexivity).
    destruct (initialisation_stops_early badKeyHost) as (_ & H).
    destruct (H sampleNumbers "hex string expected" unloaded Hfid Hkey Hnum Hhex)
      as (Hthrow & _ & _ & _ & Hhub & _).
    split; [exact Hthrow | exact Hhub].
Defined.

(** X27: initialisation that goes through, and the loops it starts.  With
    a fid, a private key that [hexToBytes] accepts and numeric settings
    that are numbers, [initializeFarcaster] on the unloaded plugin stores
    the runtime, a configuration with the settings, an empty ledger and
    today's date, the read client for the HTTP URL and the write client;
    the module is ready and nothing was submitted.  The only timers set
    are the first scan, with a delay of 30 seconds, exactly when
    interactions are enabled outside a dry run, and the first post exactly
    when direct posting is enabled outside a dry run; in a dry run no
    timer is set, so that no cycle is ever run by a timer. *)
Theorem initialisation_starts_the_loops :
  forall (host : Host) (numbers : Numbers) (keyBytes : DirectHubClient.Bytes),
    fidSetting host <> 0 ->
    keySetting host <> "" ->
    readNumbers host = Some numbers ->
    DirectHubClient.hexToBytes (host_library host)
      (DirectHubClient.unprefixed (keySetting host)) = DirectHubClient.Returned keyBytes ->
    let p' := snd (initializeFarcaster host unloaded) in
    let config := initialConfig host (fidSetting host) numbers (env_today (host_env host) 0) in
    let interactions := Config.enableInteractions config && negb (Config.dryRun config) in
    let posting := Config.enableDirectPosting config && negb (Config.dryRun config) in
    fst (initializeFarcaster host unloaded) = Normal Followed
    /\ localConfig (world p') = Some config
    /\ hubApiClient (world p') = Some (createHubApiClient (Config.hubHttpUrl config))
    /\ hubClient (world p') = true
    /\ (exists client,
          directHubClient p' = Some client
          /\ DirectHubClient.fid client = fidSetting host
          /\ DirectHubClient.signer client = keyBytes
          /\ DirectHubClient.ssl client = Config.hubSsl config)
    /\ notReady (world p') = false
    /\ trace (world p') = []
    /\ map timer_callback (pending p')
       = (if interactions then [InitialScan] else []) ++ (if posting then [PostTick] else [])
    /\ List.Forall (fun t => timer_callback t = InitialScan -> (timer_delay t == 30000)%Q)
         (pending p')
    /\ interactionTimer p' = None
    /\ (postTimer p' = if posting then Some (if interactions then 1%nat else 0%nat) else None)
    /\ timersOk p'
    /\ (Config.dryRun config = true -> pending p' = [])
    /\ status_hubConnected (providerGet (world p')) = true
    /\ status_fid (providerGet (world p')) = Some (fidSetting host).
Proof.
  intros host numbers keyBytes Hfid Hkey Hnum Hhex. cbv zeta.
  rewrite (initializeFarcaster_run host unloaded numbers Hfid Hkey Hnum). cbv zeta.
  rewrite Hhex. cbn [world unloaded ticks].
  set (config := initialConfig host (fidSetting host) numbers (env_today (host_env host) 0)).
  destruct (Config.dryRun config) eqn:Hdry;
    destruct (Config.enableInteractions config) eqn:Hint;
    destruct (Config.enableDirectPosting config) eqn:Hpost; cbn.
  all: split; [reflexivity |].
  all: split; [reflexivity |].
  all: split; [reflexivity |].
  all: split; [reflexivity |].
  all: split; [eexists; repeat split |].
  all: split; [reflexivity |].
  all: split; [reflexivity |].
  all: split; [reflexivity |].
  all: split; [repeat constructor; try discriminate; intros _; reflexivity |].
  all: split; [reflexivity |].
  all: split; [reflexivity |].
  all: split; [split; cbn; repeat constructor; cbn; try lia; intros H; cbn in H; intuition lia |].
  all: split; [first [discriminate | intros _; reflexivity] |].
  all: split; [| reflexivity].
  all: first [reflexivity | rewrite bool_decide_eq_true_2 by eauto; reflexivity].
Qed.

Lemma initialisation_starts_the_loops_witness :
  map timer_callback (pending (snd (initializeFarcaster sampleHost unloaded))) = [InitialScan]
  /\ notReady (world (snd (initializeFarcaster sampleHost unloaded))) = false.
Proof.
  assert (Hfid : fidSetting sampleHost <> 0) by (vm_compute; discriminate).
  assert (Hkey : keySetting sampleHost <> "") by (vm_compute; discriminate).
  assert (Hnum : readNumbers sampleHost = Some sampleNumbers) by (vm_compute; reflexivity).
  assert (Hhex : DirectHubClient.hexToBytes (host_library sampleHost)
                   (DirectHubClient.unprefixed (keySetting sampleHost))
                 = DirectHubClient.Returned [171]) by (vm_compute; reflexivity).
  destruct (initialisation_starts_the_loops sampleHost sampleNumbers [171] Hfid Hkey Hnum Hhex)
    as (_ & _ & _ & _ & _ & Hready & _ & Htimers & _).
  split; [| exact Hready]. rewrite Htimers. vm_compute. reflexivity.
Defined.

Lemma splitComma_nonempty (s : string) : JsText.splitComma s <> [].
Proof.
  induction s as [|c s IH]; cbn; [discriminate |].
  destruct (Ascii.eqb c ","); [discriminate |].
  destruct (JsText.splitComma s); discriminate.
Qed.

Lemma splitComma_commaFree (s : string) :
  List.Forall (fun piece => hasComma piece = false) (JsText.splitComma s).
Proof.
  induction s as [|c s IH]; cbn; [repeat constructor |].
  destruct (Ascii.eqb c ",") eqn:Hc; [constructor; [reflexivity | exact IH] |].
  destruct (JsText.splitComma s) as [|piece pieces]; [repeat constructor; cbn; now rewrite Hc |].
  inversion IH as [|? ? Hpiece Hpieces]; subst.
  constructor; [cbn; now rewrite Hc | exact Hpieces].
Qed.

Lemma trimStart_commaFree (s : string) :
  hasComma s = false -> hasComma (JsText.trimStart s) = false.
Proof.
  induction s as [|c s IH]; cbn; [reflexivity |].
  destruct (Ascii.eqb c ",") eqn:Hc; [discriminate |]. intros Hs.
  destruct (JsText.isWhiteSpace c); [now apply IH | cbn; now rewrite Hc].
Qed.

Lemma trimEnd_commaFree (s : string) :
  hasComma s = false -> hasComma (JsText.trimEnd s) = false.
Proof.
  induction s as [|c s IH]; cbn; [reflexivity |].
  destruct (Ascii.eqb c ",") eqn:Hc; [discriminate |]. intros Hs. specialize (IH Hs).
  destruct (JsText.trimEnd s) as [|d t].
  - destruct (JsText.isWhiteSpace c); cbn; [reflexivity | now rewrite Hc].
  - cbn [hasComma]. now rewrite Hc.
Qed.

Lemma trimStart_head (s : string) :
  match JsText.trimStart s with
  | EmptyString => True
  | String c _ => JsText.isWhiteSpace c = false
  end.
Proof.
  induction s as [|c s IH]; cbn; [exact I |].
  destruct (JsText.isWhiteSpace c) eqn:Hc; [exact IH | exact Hc].
Qed.

Lemma trimStart_fixed (s : string) :
  match s with
  | EmptyString => True
  | String c _ => JsText.isWhiteSpace c = false
  end ->
  JsText.trimStart s = s.
Proof. destruct s as [|c s]; cbn; [reflexivity |]. now intros ->. Qed.

Lemma trimEnd_head (s : string) :
  match s with
  | EmptyString => True
  | String c _ => JsText.isWhiteSpace c = false
  end ->
  match JsText.trimEnd s with
  | EmptyString => True
  | String c _ => JsText.isWhiteSpace c = false
  end.
Proof.
  destruct s as [|c s]; cbn; [tauto |]. intros Hc.
  destruct (JsText.trimEnd s); [rewrite Hc |]; exact Hc.
Qed.

Lemma trimEnd_idem (s : string) : JsText.trimEnd (JsText.trimEnd s) = JsText.trimEnd s.
Proof.
  induction s as [|c s IH]; [reflexivity |]. cbn [JsText.trimEnd].
  destruct (JsText.trimEnd s) as [|d t] eqn:Ht.
  - destruct (JsText.isWhiteSpace c) eqn:Hc; [reflexivity |]. cbn. now rewrite Hc.
  - cbn [JsText.trimEnd] in *. now rewrite IH.
Qed.

Lemma trim_idem (s : string) : JsText.trim (JsText.trim s) = JsText.trim s.
Proof.
  unfold JsText.trim.
  rewrite (trimStart_fixed (JsText.trimEnd (JsText.trimStart s)))
    by (apply trimEnd_head, trimStart_head).
  apply trimEnd_idem.
Qed.

Lemma trimmed_pieces (s : string) :
  map JsText.trim (JsText.splitComma s) <> []
  /\ List.Forall (fun piece => hasComma piece = false /\ JsText.trim piece = piece)
       (map JsText.trim (JsText.splitComma s)).
Proof.
  split.
  - pose proof (splitComma_nonempty s). destruct (JsText.splitComma s); [contradiction | discriminate].
  - apply List.Forall_map. eapply List.Forall_impl; [| apply splitComma_commaFree].
    intros piece Hpiece. split; [| apply trim_idem].
    unfold JsText.trim. now apply trimEnd_commaFree, trimStart_commaFree.
Qed.

(** X28: the configured lists are never empty.  Whatever the settings
    say, the channels and the keywords of the configuration built by
    [initializeFarcaster] are non-empty lists of pieces without a comma and
    without white space at either end (a piece may be the empty string);
    so the scan lane, drawing a number in [0, 1), always finds a channel. *)
Theorem configured_lists_are_never_empty :
  forall (host : Host) (fid : Z) (numbers : Numbers) (today : string) (random : Q),
    (0 <= random)%Q -> (random < 1)%Q ->
    let config := initialConfig host fid numbers today in
    Config.scanChannels config <> []
    /\ Config.scanKeywords config <> []
    /\ List.Forall (fun piece => hasComma piece = false /\ JsText.trim piece = piece)
         (Config.scanChannels config ++ Config.scanKeywords config)
    /\ exists channel,
         pickChannel random (Config.scanChannels config) = Some channel
         /\ List.In channel (Config.scanChannels config).
Proof.
  intros host fid numbers today random Hlo Hhi. cbv zeta. cbn [initialConfig Config.scanChannels Config.scanKeywords].
  destruct (trimmed_pieces (getSetting host "SCAN_CHANNELS" "ethereum,base,farcaster,dev"))
    as (Hc1 & Hc2).
  destruct (trimmed_pieces
              (getSetting host "SCAN_KEYWORDS" "ethereum,defi,web3,nft,crypto,blockchain"))
    as (Hk1 & Hk2).
  split; [exact Hc1 |]. split; [exact Hk1 |].
  split; [apply List.Forall_app; split; assumption |].
  now apply pickChannel_in_range.
Qed.

Lemma configured_lists_are_never_empty_witness :
  exists channel,
    pickChannel (1 # 2)
      (Config.scanChannels (initialConfig sampleHost 7 sampleNumbers "Sun Nov 01 2026"))
    = Some channel
    /\ List.In channel
         (Config.scanChannels (initialConfig sampleHost 7 sampleNumbers "Sun Nov 01 2026")).
Proof.
  apply (configured_lists_are_never_empty sampleHost 7 sampleNumbers "Sun Nov 01 2026" (1 # 2)).
  - vm_compute. discriminate.
  - reflexivity.
Defined.

Lemma find_by_id (timers : list Timer) (t : Timer) :
  List.NoDup (map timer_id timers) -> List.In t timers ->
  find (fun t' => Nat.eqb (timer_id t') (timer_id t)) timers = Some t.
Proof.
  induction timers as [|a timers IH]; [intros _ [] |].
  cbn [map find]. intros Hnd [->|Hin].
  - now rewrite Nat.eqb_refl.
  - inversion Hnd as [|? ? Hnotin Hnd']; subst.
    destruct (Nat.eqb_spec (timer_id a) (timer_id t)) as [Heq|_]; [| now apply IH].
    exfalso. apply Hnotin. rewrite Heq. now apply List.in_map.
Qed.

Lemma without_ok (id : nat) (p : Plugin) (bound : nat) (timers : list Timer) :
  List.Forall (fun t => (timer_id t < bound)%nat) timers ->
  List.NoDup (map timer_id timers) ->
  List.Forall (fun t => (timer_id t < bound)%nat) (without id timers)
  /\ List.NoDup (map timer_id (without id timers)).
Proof.
  unfold without. induction timers as [|a timers IH]; [intros; split; constructor |].
  intros Hlt Hnd. inversion Hlt as [|? ? Ha Hlt']; subst.
  inversion Hnd as [|? ? Hnotin Hnd']; subst.
  destruct (IH Hlt' Hnd') as (IH1 & IH2). cbn [List.filter].
  destruct (negb (Nat.eqb (timer_id a) id)); [| split; assumption].
  split; [constructor; assumption |]. cbn [map]. constructor; [| exact IH2].
  intros Hin. apply Hnotin. apply List.in_map_iff in Hin. destruct Hin as (t & Heq & Hin).
  apply List.filter_In in Hin. rewrite <- Heq. apply List.in_map, Hin.
Qed.

Lemma resetConfig_intervals (today : string) (c c' : Config.t) :
  resetConfig today c' = resetConfig today c ->
  Config.interactionIntervalMin c' = Config.interactionIntervalMin c
  /\ Config.interactionIntervalMax c' = Config.interactionIntervalMax c
  /\ Config.postIntervalMin c' = Config.postIntervalMin c
  /\ Config.postIntervalMax c' = Config.postIntervalMax c.
Proof.
  intros H.
  change (Config.interactionIntervalMin (resetConfig today c')
          = Config.interactionIntervalMin (resetConfig today c)
          /\ Config.interactionIntervalMax (resetConfig today c')
             = Config.interactionIntervalMax (resetConfig today c)
          /\ Config.postIntervalMin (resetConfig today c')
             = Config.postIntervalMin (resetConfig today c)
          /\ Config.postIntervalMax (resetConfig today c')
             = Config.postIntervalMax (resetConfig today c)).
  now rewrite H.
Qed.

Lemma runInteractionCycle_keeps (env : Env) (w : World) (c : Config.t) :
  localConfig w = Some c ->
  exists c',
    fst (runInteractionCycle env w) = Normal tt
    /\ localConfig (snd (runInteractionCycle env w)) = Some c'
    /\ resetConfig "" c' = resetConfig "" c.
Proof.
  intros Hc. destruct (notReady w) eqn:Hready.
  - exists c. unfold runInteractionCycle. rewrite bind_getWorld, Hready.
    split; [reflexivity |]. split; [exact Hc | reflexivity].
  - destruct (runInteractionCycle_steps env w c Hready Hc)
      as (c0 & cm & cc & evsM & evsC & _ & Hor & _ & _ & HshapeM & Hcc & HshapeC & _).
    exists cc. split; [now rewrite (runInteractionCycle_split env w Hready) |].
    split; [exact Hcc |]. rewrite HshapeC, HshapeM. cbn [withLedger].
    destruct Hor; subst c0; reflexivity.
Qed.

Lemma generateAndPost_keeps (env : Env) (w : World) (c : Config.t) :
  localConfig w = Some c ->
  exists c',
    fst (generateAndPost env w) = Normal tt
    /\ localConfig (snd (generateAndPost env w)) = Some c'
    /\ resetConfig "" c' = resetConfig "" c.
Proof.
  intros Hc. destruct (generateAndPost env w) as [r w'] eqn:Hr. cbn [fst snd].
  unfold generateAndPost in Hr. rewrite bind_getWorld in Hr.
  destruct (agentRuntime w); cbn [negb orb] in Hr;
    [| injection Hr as <- <-; exists c; repeat split; assumption].
  rewrite Hc in Hr. rewrite bool_decide_eq_true_2 in Hr by eauto. cbn [negb orb] in Hr.
  destruct (hubClient w); cbn [negb] in Hr;
    [| injection Hr as <- <-; exists c; repeat split; assumption].
  unfold bind at 1 in Hr. rewrite (resetDailyCountersIfNeeded_run env w c Hc) in Hr.
  cbv zeta in Hr.
  destruct (String.eqb (Config.lastResetDate c) (env_today env (ticks w))).
  - rewrite (bind_readConfig_some _ env _ c) in Hr by exact Hc.
    destruct (_ >=? _); injection Hr as <- <-; exists c; repeat split; assumption.
  - rewrite (bind_readConfig_some _ env _ (resetConfig (env_today env (ticks w)) c)) in Hr
      by reflexivity.
    destruct (_ >=? _); injection Hr as <- <-; eexists; repeat split; reflexivity.
Qed.

Lemma ranBy_keeps (callback : Callback) (env : Env) (w : World) (c : Config.t) :
  localConfig w = Some c ->
  exists c',
    fst (ranBy callback env w) = Normal tt
    /\ localConfig (snd (ranBy callback env w)) = Some c'
    /\ intervalMin callback c' = intervalMin callback c
    /\ intervalMax callback c' = intervalMax callback c.
Proof.
  intros Hc.
  assert (H : exists c',
             fst (ranBy callback env w) = Normal tt
             /\ localConfig (snd (ranBy callback env w)) = Some c'
             /\ resetConfig "" c' = resetConfig "" c).
  { destruct callback; cbn [ranBy];
      [apply runInteractionCycle_keeps | apply runInteractionCycle_keeps
       | apply generateAndPost_keeps]; exact Hc. }
  destruct H as (c' & H1 & H2 & H3). exists c'. split; [exact H1 |]. split; [exact H2 |].
  destruct (resetConfig_intervals "" c c' H3) as (Ha & Hb & Hc' & Hd).
  destruct callback; cbn; split; assumption.
Qed.

Lemma fire_run (host : Host) (p : Plugin) (c : Config.t) (t : Timer) :
  timersOk p -> localConfig (world p) = Some c -> List.In t (pending p) ->
  fire (timer_id t) host p = (Normal tt, afterFire host p c t).
Proof.
  intros (_ & Hnd) Hc Hin. unfold fire. rewrite (find_by_id _ t Hnd Hin).
  fold (without (timer_id t) (pending p)).
  destruct (ranBy_keeps (timer_callback t) (host_env host) (world p) c Hc)
    as (c' & Hnormal & Hc' & Hmin & Hmax).
  unfold afterFire. cbv zeta. rewrite <- Hmin, <- Hmax.
  destruct (timer_callback t); cbn [ranBy runCallback nextCallback intervalMin intervalMax] in *.
  - unfold pbind at 1, detached, liftM at 1. cbn [world set_pending].
    destruct (runInteractionCycle (host_env host) (world p)) as [r w1]; cbn [fst snd] in *.
    unfold scheduleNextInteraction, pbind at 1, liftM at 1, readConfig. cbn [world set_world].
    rewrite Hc'. unfold pbind, liftM, ask, setTimeout. reflexivity.
  - unfold pbind at 1, liftM at 1. cbn [world set_pending].
    destruct (runInteractionCycle (host_env host) (world p)) as [r w1]; cbn [fst snd] in *.
    subst r.
    unfold scheduleNextInteraction, pbind at 1, liftM at 1, readConfig. cbn [world set_world].
    rewrite Hc'. unfold pbind, liftM, ask, setTimeout. reflexivity.
  - unfold pbind at 1, liftM at 1. cbn [world set_pending].
    destruct (generateAndPost (host_env host) (world p)) as [r w1]; cbn [fst snd] in *.
    subst r.
    unfold scheduleNextPost, pbind at 1, liftM at 1, readConfig. cbn [world set_world].
    rewrite Hc'. unfold pbind, liftM, ask, setTimeout. reflexivity.
Qed.

Lemma interval_bounds (random : Q) (min max : Z) :
  (0 <= random)%Q -> (random < 1)%Q ->
  (inject_Z (Z.min min max) <= interval random min max)%Q
  /\ (interval random min max <= inject_Z (Z.max min max))%Q.
Proof.
  destruct random as [a b]. unfold interval, Qle, Qlt, Qmult, Qplus, inject_Z.
  cbn [Qnum Qden]. intros Hlo Hhi. rewrite !Z.mul_1_r in *. rewrite Pos.mul_1_r.
  assert (Hb : 0 < Z.pos b) by lia.
  split; nia.
Qed.

Lemma without_absent (id : nat) (timers : list Timer) :
  ~ List.In id (map timer_id timers) -> without id timers = timers.
Proof.
  unfold without. induction timers as [|a timers IH]; [reflexivity |].
  cbn [map List.filter]. intros Hnotin.
  destruct (Nat.eqb_spec (timer_id a) id) as [Heq|_]; [exfalso; apply Hnotin; now left |].
  cbn [negb]. rewrite IH; [reflexivity |]. intros H. apply Hnotin. now right.
Qed.

Lemma filter_without (f : Timer -> bool) (t : Timer) (timers : list Timer) :
  List.NoDup (map timer_id timers) -> List.In t timers ->
  length (List.filter f timers)
  = ((if f t then 1 else 0) + length (List.filter f (without (timer_id t) timers)))%nat.
Proof.
  induction timers as [|a timers IH]; [intros _ [] |].
  cbn [map]. intros Hnd Hin. inversion Hnd as [|? ? Hnotin Hnd']; subst.
  destruct Hin as [->|Hin].
  - unfold without. cbn [List.filter]. rewrite Nat.eqb_refl. cbn [negb].
    fold (without (timer_id t) timers). rewrite (without_absent _ _ Hnotin).
    destruct (f t); reflexivity.
  - unfold without. cbn [List.filter]. fold (without (timer_id t) timers).
    destruct (Nat.eqb_spec (timer_id a) (timer_id t)) as [Heq|_].
    + exfalso. apply Hnotin. rewrite Heq. now apply List.in_map.
    + cbn [negb List.filter]. destruct (f a); cbn [length]; rewrite (IH Hnd' Hin);
        destruct (f t); lia.
Qed.

(** X29: each loop is one chain of timers.  When a pending timer fires
    (the timers being named apart and the configuration in place), its
    callback runs the interaction cycle, or [generateAndPost] for the post
    loop, and then sets exactly one new timer of the same loop, which the
    loop's variable then names; the other timers stay as they are, so that
    each loop has as many timers after as before.  With a random number in
    [0, 1) the new delay lies between the two ends of the configured
    interval.  A timer that is not pending does nothing when fired. *)
Theorem each_loop_is_one_chain :
  forall (host : Host) (p : Plugin) (c : Config.t) (t : Timer),
    timersOk p ->
    localConfig (world p) = Some c ->
    List.In t (pending p) ->
    let callback := timer_callback t in
    let p' := snd (fire (timer_id t) host p) in
    fire (timer_id t) host p = (Normal tt, afterFire host p c t)
    /\ timersOk p'
    /\ (exists next,
          pending p' = without (timer_id t) (pending p) ++ [next]
          /\ timer_callback next = nextCallback callback
          /\ (match callback with
              | PostTick => postTimer p' | _ => interactionTimer p'
              end = Some (timer_id next))
          /\ (match callback with
              | PostTick => interactionTimer p' = interactionTimer p
              | _ => postTimer p' = postTimer p
              end)
          /\ forall random,
               random = env_random (host_env host)
                          (ticks (snd (ranBy callback (host_env host) (world p)))) ->
               (0 <= random)%Q -> (random < 1)%Q ->
               (inject_Z (Z.min (intervalMin callback c) (intervalMax callback c))
                <= timer_delay next)%Q
               /\ (timer_delay next
                   <= inject_Z (Z.max (intervalMin callback c) (intervalMax callback c)))%Q)
    /\ length (List.filter isInteraction (pending p'))
       = length (List.filter isInteraction (pending p))
    /\ length (List.filter isPost (pending p')) = length (List.filter isPost (pending p))
    /\ (forall id,
          (forall t', List.In t' (pending p) -> timer_id t' <> id) ->
          fire id host p = (Normal tt, p)).
Proof.
  intros host p c t Hok Hc Hin. cbv zeta.
  rewrite (fire_run host p c t Hok Hc Hin). cbn [snd].
  split; [reflexivity |].
  destruct Hok as (Hlt & Hnd).
  destruct (without_ok (timer_id t) p (timersCreated p) (pending p) Hlt Hnd) as (Hlt' & Hnd').
  unfold afterFire. cbv zeta.
  cbn [pending timersCreated interactionTimer postTimer world].
  split; [| split; [| split; [| split]]].
  - unfold timersOk. cbn [pending timersCreated]. split.
    + apply List.Forall_app. split.
      * eapply List.Forall_impl; [| exact Hlt']. cbn. intros; lia.
      * repeat constructor.
    + rewrite List.map_app. apply List.NoDup_app; [exact Hnd' | repeat constructor; intros [] |].
      intros id Hid [<-|[]]. apply List.in_map_iff in Hid. destruct Hid as (t' & Heq & Hin').
      pose proof (proj1 (List.Forall_forall _ _) Hlt' t' Hin') as Hbound.
      cbv beta in Hbound. cbn [timer_id] in Heq. lia.
  - eexists. split; [reflexivity |]. cbn [timer_callback timer_id timer_delay].
    split; [reflexivity |].
    split; [destruct (timer_callback t); reflexivity |].
    split; [destruct (timer_callback t); reflexivity |].
    intros random -> Hlo Hhi. now apply interval_bounds.
  - rewrite List.filter_app, List.length_app, (filter_without isInteraction t _ Hnd Hin).
    unfold isInteraction. cbn [List.filter timer_callback nextCallback].
    destruct (timer_callback t); cbn [length nextCallback]; lia.
  - rewrite List.filter_app, List.length_app, (filter_without isPost t _ Hnd Hin).
    unfold isPost. cbn [List.filter timer_callback nextCallback].
    destruct (timer_callback t); cbn [length nextCallback]; lia.
  - intros id Hid. unfold fire.
    destruct (find _ (pending p)) as [t'|] eqn:Hfind; [| reflexivity].
    apply List.find_some in Hfind. destruct Hfind as (Hin' & Heq).
    apply Nat.eqb_eq in Heq. now destruct (Hid t' Hin').
Qed.

Lemma each_loop_is_one_chain_witness :
  fire 0 sampleHost armedPlugin
  = (Normal tt, afterFire sampleHost armedPlugin sampleConfig firstScan).
Proof.
  apply (each_loop_is_one_chain sampleHost armedPlugin sampleConfig firstScan).
  - split; [repeat constructor | repeat constructor; intros []].
  - reflexivity.
  - left. reflexivity.
Defined.

Lemma stopFarcaster_run (host : Host) (p : Plugin) :
  stopFarcaster host p =
    (Normal tt,
     {| world := world p;
        directHubClient := directHubClient p;
        interactionTimer := None;
        postTimer := None;
        pending :=
          List.filter
            (fun t => negb (bool_decide (interactionTimer p = Some (timer_id t)))
                      && negb (bool_decide (postTimer p = Some (timer_id t))))
            (pending p);
        timersCreated := timersCreated p |}).
Proof.
  assert (Hfilter : forall (f g : Timer -> bool) (l : list Timer),
            List.filter g (List.filter f l) = List.filter (fun t => f t && g t) l).
  { intros f g l. induction l as [|a l IH]; [reflexivity |]. cbn [List.filter].
    destruct (f a); cbn [List.filter andb]; [destruct (g a) |]; now rewrite IH. }
  assert (Hext : forall (f g : Timer -> bool) (l : list Timer),
            (forall t, f t = g t) -> List.filter f l = List.filter g l).
  { intros f g l H. induction l as [|a l IH]; [reflexivity |]. cbn [List.filter].
    now rewrite H, IH. }
  assert (Hall : forall l : list Timer, List.filter (fun _ => true) l = l).
  { intros l. induction l as [|a l IH]; [reflexivity |]. cbn [List.filter]. now rewrite IH. }
  destruct p as [w d it pt pend created].
  unfold stopFarcaster, pbind, clearTimeout, pret, set_pending, set_interactionTimer,
    set_postTimer.
  cbn [interactionTimer postTimer pending world directHubClient timersCreated].
  assert (Hdec : forall (o : option nat) (t : Timer),
            negb (bool_decide (o = Some (timer_id t)))
            = match o with Some i => negb (Nat.eqb (timer_id t) i) | None => true end).
  { intros [i|] t; [| reflexivity]. case_bool_decide as H.
    - injection H as ->. now rewrite Nat.eqb_refl.
    - destruct (Nat.eqb_spec (timer_id t) i); [congruence | reflexivity]. }
  destruct it as [i|], pt as [j|];
    cbn [interactionTimer postTimer pending world directHubClient timersCreated];
    f_equal; f_equal; rewrite ?Hfilter.
  - apply Hext. intros t. now rewrite !Hdec.
  - apply Hext. intros t. rewrite !Hdec. now rewrite andb_true_r.
  - apply Hext. intros t. now rewrite !Hdec.
  - rewrite <- (Hall pend) at 1. apply Hext. intros t. now rewrite !Hdec.
Qed.

(** X30: stopping spares the first scan.  [stopFarcaster] clears the two
    timers its variables name and sets both variables to [null]; it
    changes nothing else, and a timer that neither variable names stays
    set.  The timer of the first scan is such a timer: stopped right after
    an initialisation that enabled interactions (the numeric settings
    having parsed), the plugin still holds it, and when it fires the interaction loop sets its next timer. *)
Theorem stop_spares_the_first_scan :
  forall (host : Host) (p : Plugin),
    let p' := snd (stopFarcaster host p) in
    fst (stopFarcaster host p) = Normal tt
    /\ interactionTimer p' = None
    /\ postTimer p' = None
    /\ world p' = world p
    /\ directHubClient p' = directHubClient p
    /\ timersCreated p' = timersCreated p
    /\ (forall t,
          List.In t (pending p')
          <-> List.In t (pending p)
              /\ interactionTimer p <> Some (timer_id t)
              /\ postTimer p <> Some (timer_id t))
    /\ (forall numbers keyBytes,
          p = snd (initializeFarcaster host unloaded) ->
          fidSetting host <> 0 ->
          keySetting host <> "" ->
          readNumbers host = Some numbers ->
          DirectHubClient.hexToBytes (host_library host)
            (DirectHubClient.unprefixed (keySetting host))
          = DirectHubClient.Returned keyBytes ->
          getSetting host "ENABLE_INTERACTIONS" "true" <> "false" ->
          getSetting host "FARCASTER_DRY_RUN" "false" <> "true" ->
          exists first next,
            List.In first (pending p')
            /\ timer_callback first = InitialScan
            /\ List.In next (pending (snd (fire (timer_id first) host p')))
            /\ timer_callback next = InteractionTick
            /\ interactionTimer (snd (fire (timer_id first) host p')) = Some (timer_id next)).
Proof.
  intros host p. cbv zeta. rewrite stopFarcaster_run. cbn [fst snd interactionTimer postTimer
    world directHubClient timersCreated pending].
  repeat (split; [reflexivity |]). split.
  - intros t. rewrite List.filter_In. split.
    + intros (Hin & Hf). apply andb_true_iff in Hf. destruct Hf as (H1 & H2).
      apply negb_true_iff, bool_decide_eq_false in H1.
      apply negb_true_iff, bool_decide_eq_false in H2. tauto.
    + intros (Hin & H1 & H2). split; [exact Hin |].
      rewrite !bool_decide_eq_false_2 by assumption. reflexivity.
  - intros numbers keyBytes -> Hfid Hkey Hnum Hhex Hint Hdry.
    set (config := initialConfig host (fidSetting host) numbers (env_today (host_env host) 0)).
    set (first := {| timer_id := 0%nat; timer_delay := 30000%Q; timer_callback := InitialScan |}).
    assert (Hp1 : List.In first (pending (snd (initializeFarcaster host unloaded)))
                  /\ interactionTimer (snd (initializeFarcaster host unloaded)) = None
                  /\ postTimer (snd (initializeFarcaster host unloaded)) <> Some 0%nat
                  /\ localConfig (world (snd (initializeFarcaster host unloaded))) = Some config
                  /\ timersOk (snd (initializeFarcaster host unloaded))).
    { rewrite (initializeFarcaster_run host unloaded numbers Hfid Hkey Hnum). cbv zeta.
      rewrite Hhex. cbn [world unloaded ticks]. fold config.
      assert (Hi : Config.enableInteractions config = true).
      { cbn. apply negb_true_iff. now apply String.eqb_neq. }
      assert (Hd : Config.dryRun config = false).
      { cbn. now apply String.eqb_neq. }
      rewrite Hi, Hd. cbn [andb negb]. rewrite andb_true_r.
      destruct (Config.enableDirectPosting config); cbn.
      - split; [now left |]. split; [reflexivity |]. split; [discriminate |].
        split; [reflexivity |]. split; repeat constructor; cbn; try lia; tauto.
      - split; [now left |]. split; [reflexivity |]. split; [discriminate |].
        split; [reflexivity |]. split; repeat constructor; cbn; try lia; tauto. }
    destruct Hp1 as (Hin1 & Hit & Hpt & Hc1 & Hlt1 & Hnd1).
    set (p1 := snd (initializeFarcaster host unloaded)) in *. clearbody p1.
    match goal with
    | |- context [fire _ _ ?q] => set (p2 := q)
    end.
    assert (Hin : List.In first (pending p2)).
    { cbn [p2 pending]. apply List.filter_In. split; [exact Hin1 |].
      rewrite Hit. rewrite (bool_decide_eq_false_2 (postTimer p1 = _)) by exact Hpt.
      reflexivity. }
    assert (Hok : timersOk p2).
    { split; cbn [p2 pending timersCreated].
      - apply List.Forall_forall. intros t Ht. apply List.filter_In in Ht.
        apply (proj1 (List.Forall_forall _ _) Hlt1 t), Ht.
      - clear Hin Hin1 Hlt1. induction (pending p1) as [|a l IH]; [constructor |].
        cbn [map] in Hnd1. inversion Hnd1 as [|? ? Hnotin Hnd']; subst.
        cbn [List.filter]. destruct (_ && _); [| now apply IH].
        cbn [map]. constructor; [| now apply IH].
        intros H. apply Hnotin. apply List.in_map_iff in H. destruct H as (t & Heq & Ht).
        apply List.filter_In in Ht. rewrite <- Heq. apply List.in_map, Ht. }
    assert (Hc2 : localConfig (world p2) = Some config) by exact Hc1.
    exists first. eexists. split; [exact Hin |]. split; [reflexivity |].
    rewrite (fire_run host p2 config first Hok Hc2 Hin). cbn [snd].
    unfold afterFire. cbv zeta. cbn [pending interactionTimer timer_callback first].
    split; [apply List.in_or_app; right; left; reflexivity |].
    split; reflexivity.
Qed.

Lemma stop_spares_the_first_scan_witness :
  exists first next,
    List.In first
      (pending (snd (stopFarcaster sampleHost (snd (initializeFarcaster sampleHost unloaded)))))
    /\ timer_callback first = InitialScan
    /\ List.In next
         (pending
            (snd (fire (timer_id first) sampleHost
                    (snd (stopFarcaster sampleHost
                            (snd (initializeFarcaster sampleHost unloaded)))))))
    /\ timer_callback next = InteractionTick.
Proof.
  assert (Hfid : fidSetting sampleHost <> 0) by (vm_compute; discriminate).
  assert (Hkey : keySetting sampleHost <> "") by (vm_compute; discriminate).
  assert (Hnum : readNumbers sampleHost = Some sampleNumbers) by (vm_compute; reflexivity).
  assert (Hhex : DirectHubClient.hexToBytes (host_library sampleHost)
                   (DirectHubClient.unprefixed (keySetting sampleHost))
                 = DirectHubClient.Returned [171]) by (vm_compute; reflexivity).
  assert (Hint : getSetting sampleHost "ENABLE_INTERACTIONS" "true" <> "false")
    by (vm_compute; discriminate).
  assert (Hdry : getSetting sampleHost "FARCASTER_DRY_RUN" "false" <> "true")
    by (vm_compute; discriminate).
  destruct (stop_spares_the_first_scan sampleHost
              (snd (initializeFarcaster sampleHost unloaded)))
    as (_ & _ & _ & _ & _ & _ & _ & H).
  destruct (H sampleNumbers [171] eq_refl Hfid Hkey Hnum Hhex Hint Hdry)
    as (first & next & H1 & H2 & H3 & H4 & _).
  exists first, next.
  split; [exact H1 |]. split; [exact H2 |]. split; [exact H3 | exact H4].
Defined.
